(** * Chain_Lottery oracle: the submission scheduler

    A shallow embedding of the oracle service: [oracle/scheduler.py],
    [oracle/datasource/base.py], [oracle/datasource/http_api.py],
    [oracle/types.py], the contract reads and the submission of
    [oracle/lottery_client.py], and [run] of [oracle/service.py]; together
    with the part of Python's standard library the state store goes through
    ([json.dumps], [json.loads], [Path.read_text], [Path.write_text]).

    Conventions.
    - A Python [str] is the list of its code points ([pystr]); a [bytes]
      object is the list of its byte values.
    - A Python [int] is a [Z].
    - A computation that may raise returns a [result]; a method that also
      mutates state is a function from the state to a [result] and the new
      state (the mutation made before a [raise] is kept, as in Python). *)

From Stdlib Require Import ZArith NArith Lia Ascii String.
From stdpp Require Import base option list sorting strings gmap.

Open Scope Z_scope.

(** ** Python values and exceptions *)

(** A Python [str]: its code points, each below [0x110000]. *)
Definition pystr := list N.

(** The [str] of an ASCII literal. *)
Definition py (s : string) : pystr :=
  map N_of_ascii (list_ascii_of_string s).

(** [str] objects are well formed when every code point is in range. *)
Definition code_point (c : N) : Prop := (c < 0x110000)%N.
Definition wf_str (s : pystr) : Prop := Forall code_point s.

(** The exceptions that occur in the modelled code. [JSONDecodeError] and
    [UnicodeDecodeError] are both subclasses of [ValueError] in Python, but
    neither is a subclass of the other, and the only handler in the code
    names [JSONDecodeError]; they are kept apart here. *)
Inductive exn :=
  | JSONDecodeError
  | UnicodeDecodeError
  | UnicodeEncodeError
  | AttributeError
  | OSError
  | TypeError
  | ValueError (msg : string)
  | RuntimeError (msg : string).

Inductive result (A : Type) :=
  | Ok (a : A)
  | Raise (e : exn).
Arguments Ok {A} a.
Arguments Raise {A} e.

(** What [json.loads] can return, which is also what ends up in the
    scheduler's [_last_issue_id]. A float is kept as its lexeme. *)
#[warnings="-register-all"]
Inductive value :=
  | VNone
  | VBool (b : bool)
  | VInt (z : Z)
  | VFloat (lexeme : pystr)
  | VStr (s : pystr)
  | VList (items : list value)
  | VDict (pairs : list (pystr * value)).

(** [v == s] for a [str] [s]: only an equal [str] compares equal. *)
Definition py_eq_str (v : value) (s : pystr) : bool :=
  match v with
  | VStr t => bool_decide (t = s)
  | _ => false
  end.

(** ** [json.dumps]: [encode_basestring_ascii] and a dict of strings *)

Module Json.

Local Open Scope N_scope.

Definition QUOTE : N := 34.      (* the double quote *)
Definition BACKSLASH : N := 92.
Definition LOWER_U : N := 117.

(** One digit of ['{0:04x}'.format(n)]. *)
Definition hex_digit (d : N) : N :=
  if d <? 10 then 48 + d else 87 + d.

Definition hex4 (n : N) : pystr :=
  [ hex_digit (N.land (N.shiftr n 12) 15);
    hex_digit (N.land (N.shiftr n 8) 15);
    hex_digit (N.land (N.shiftr n 4) 15);
    hex_digit (N.land n 15) ].

Definition u_escape (n : N) : pystr :=
  BACKSLASH :: LOWER_U :: hex4 n.

(** The two halves written for a code point [c] above [0xffff]: with
    [n = c - 0x10000], [s1 = 0xd800 | ((n >> 10) & 0x3ff)] and
    [s2 = 0xdc00 | (n & 0x3ff)]. *)
Definition high_half (c : N) : N :=
  N.lor 0xd800 (N.land (N.shiftr (c - 0x10000) 10) 0x3ff).
Definition low_half (c : N) : N :=
  N.lor 0xdc00 (N.land (c - 0x10000) 0x3ff).

(** The [replace] callback of [py_encode_basestring_ascii]: [ESCAPE_DCT]
    first, then [\uXXXX], then a surrogate pair. *)
Definition escape_char (c : N) : pystr :=
  if c =? QUOTE then [BACKSLASH; QUOTE]
  else if c =? BACKSLASH then [BACKSLASH; BACKSLASH]
  else if c =? 8 then [BACKSLASH; 98]        (* \b *)
  else if c =? 12 then [BACKSLASH; 102]      (* \f *)
  else if c =? 10 then [BACKSLASH; 110]      (* \n *)
  else if c =? 13 then [BACKSLASH; 114]      (* \r *)
  else if c =? 9 then [BACKSLASH; 116]       (* \t *)
  else if (32 <=? c) && (c <=? 126) then [c]
  else if c <? 0x10000 then u_escape c
  else u_escape (high_half c) ++ u_escape (low_half c).

Definition encode_basestring_ascii (s : pystr) : pystr :=
  QUOTE :: flat_map escape_char s ++ [QUOTE].

(** The characters [json.dumps] writes: printable ASCII. *)
Definition printable (c : N) : Prop := 32 <= c <= 126.

(** [", ".join(items)]. *)
Fixpoint join (sep : pystr) (items : list pystr) : pystr :=
  match items with
  | [] => []
  | [x] => x
  | x :: rest => x ++ sep ++ join sep rest
  end.

(** [json.dumps(payload)] with the default separators, for a dict whose keys
    and values are [str] (the only shape [save_last_issue] builds). *)
Definition dumps (payload : list (pystr * pystr)) : pystr :=
  py "{" ++
  join (py ", ")
    (map (fun kv => encode_basestring_ascii kv.1 ++ py ": " ++
                    encode_basestring_ascii kv.2) payload) ++
  py "}".

(** ** [json.loads]

    The decoder of CPython ([json.decoder], [json.scanner] and the C
    [scanstring]). Every failure is a [JSONDecodeError], modelled by [None];
    recursion is by fuel, one unit for each character that can be consumed. *)

Definition is_ws (c : N) : bool :=
  (c =? 32) || (c =? 9) || (c =? 10) || (c =? 13).

Fixpoint skip_ws (s : pystr) : pystr :=
  match s with
  | c :: s' => if is_ws c then skip_ws s' else s
  | [] => []
  end.

Definition hex_value (c : N) : option N :=
  if (48 <=? c) && (c <=? 57) then Some (c - 48)
  else if (97 <=? c) && (c <=? 102) then Some (c - 87)
  else if (65 <=? c) && (c <=? 70) then Some (c - 55)
  else None.

(** [_decode_uXXXX], applied to the text after the [u]. *)
Definition decode_uXXXX (s : pystr) : option N :=
  match s with
  | a :: b :: c :: d :: _ =>
      a ← hex_value a; b ← hex_value b; c ← hex_value c; d ← hex_value d;
      Some (((a * 16 + b) * 16 + c) * 16 + d)
  | _ => None
  end.

Definition is_high_surrogate (c : N) : bool := (0xd800 <=? c) && (c <=? 0xdbff).
Definition is_low_surrogate (c : N) : bool := (0xdc00 <=? c) && (c <=? 0xdfff).

(** Does the string hold a high surrogate immediately followed by a low
    surrogate, as two code points? *)
Fixpoint adjacent_surrogates (s : pystr) : bool :=
  match s with
  | [] => false
  | c :: t =>
      match t with
      | c' :: _ =>
          (is_high_surrogate c && is_low_surrogate c')
          || adjacent_surrogates t
      | [] => false
      end
  end.

Definition join_surrogates (hi lo : N) : N :=
  0x10000 + N.lor (N.shiftl (hi - 0xd800) 10) (lo - 0xdc00).

(** The [BACKSLASH] table of [json.decoder]. *)
Definition unescape (esc : N) : option N :=
  if esc =? QUOTE then Some QUOTE
  else if esc =? BACKSLASH then Some BACKSLASH
  else if esc =? 47 then Some 47
  else if esc =? 98 then Some 8
  else if esc =? 102 then Some 12
  else if esc =? 110 then Some 10
  else if esc =? 114 then Some 13
  else if esc =? 116 then Some 9
  else None.

(** The four shapes [escape_char] writes for a code point [c], with what
    the decoder needs to know of each: a two-character escape of the
    [BACKSLASH] table, the character itself, one [\uXXXX], or two. *)
Inductive escape_kind (c : N) : pystr -> Prop :=
  | EK_short x :
      unescape x = Some c -> (x =? LOWER_U) = false ->
      escape_kind c [BACKSLASH; x]
  | EK_plain :
      32 <= c -> (c =? QUOTE) = false -> (c =? BACKSLASH) = false ->
      escape_kind c [c]
  | EK_u : c < 0x10000 -> escape_kind c (u_escape c)
  | EK_pair :
      0x10000 <= c ->
      escape_kind c (u_escape (high_half c) ++ u_escape (low_half c)).

(** After a high surrogate [\uXXXX]: is the next thing a [\uXXXX] that is a
    low surrogate? [None] is a malformed second escape (an error),
    [Some None] is no pairing. *)
Definition low_surrogate_escape (s : pystr) : option (option N) :=
  match s with
  | a :: b :: s' =>
      if (a =? BACKSLASH) && (b =? LOWER_U) then
        uni2 ← decode_uXXXX s';
        Some (if is_low_surrogate uni2 then Some uni2 else None)
      else Some None
  | _ => Some None
  end.

(** [scanstring] (strict), applied to the text after the opening quote:
    the decoded string and the text after the closing quote. *)
Fixpoint scanstring (fuel : nat) (s : pystr) : option (pystr * pystr) :=
  match fuel with
  | O => None
  | S fuel =>
      match s with
      | [] => None                                  (* unterminated *)
      | c :: s1 =>
          if c =? QUOTE then Some ([], s1)
          else if c <? 32 then None                 (* control character *)
          else if c =? BACKSLASH then
            match s1 with
            | [] => None
            | esc :: s2 =>
                if esc =? LOWER_U then
                  uni ← decode_uXXXX s2;
                  let s3 := drop 4 s2 in
                  if is_high_surrogate uni then
                    pairing ← low_surrogate_escape s3;
                    match pairing with
                    | Some uni2 =>
                        '(str, rest) ← scanstring fuel (drop 6 s3);
                        Some (join_surrogates uni uni2 :: str, rest)
                    | None =>
                        '(str, rest) ← scanstring fuel s3;
                        Some (uni :: str, rest)
                    end
                  else
                    '(str, rest) ← scanstring fuel s3;
                    Some (uni :: str, rest)
                else
                  char ← unescape esc;
                  '(str, rest) ← scanstring fuel s2;
                  Some (char :: str, rest)
            end
          else
            '(str, rest) ← scanstring fuel s1;
            Some (c :: str, rest)
      end
  end.

Definition is_digit (c : N) : bool := (48 <=? c) && (c <=? 57).

Fixpoint span_digits (s : pystr) : pystr * pystr :=
  match s with
  | c :: s' =>
      if is_digit c then let '(ds, rest) := span_digits s' in (c :: ds, rest)
      else ([], s)
  | [] => ([], [])
  end.

Definition decimal (ds : pystr) : Z :=
  fold_left (fun acc d => (10 * acc + Z.of_N (d - 48))%Z) ds 0%Z.

(** [NUMBER_RE]: an optional minus sign, then 0 or a digit 1-9 followed by
    digits; an optional fraction (a dot and at least one digit); an optional
    exponent (e or E, an optional sign, at least one digit). *)
Definition match_number (s : pystr) : option (value * pystr) :=
  let '(sign, s0) :=
    match s with
    | 45 :: t => ([45], t)
    | _ => ([], s)
    end in
  match s0 with
  | d :: t =>
      if is_digit d then
        let '(int_digits, after_int) :=
          if d =? 48 then ([d], t)
          else let '(ds, r) := span_digits t in (d :: ds, r) in
        let '(frac, after_frac) :=
          match after_int with
          | 46 :: t1 =>
              match span_digits t1 with
              | ([], _) => ([], after_int)
              | (fs, r) => (46 :: fs, r)
              end
          | _ => ([], after_int)
          end in
        let '(exp, after_exp) :=
          match after_frac with
          | e :: t2 =>
              if (e =? 101) || (e =? 69) then
                let '(esign, t3) :=
                  match t2 with
                  | sg :: t3 =>
                      if (sg =? 45) || (sg =? 43) then ([sg], t3) else ([], t2)
                  | [] => ([], t2)
                  end in
                match span_digits t3 with
                | ([], _) => ([], after_frac)
                | (es, r) => (e :: esign ++ es, r)
                end
              else ([], after_frac)
          | [] => ([], after_frac)
          end in
        match frac, exp with
        | [], [] =>
            let n := decimal int_digits in
            Some (VInt (match sign with [] => n | _ => (- n)%Z end), after_exp)
        | _, _ => Some (VFloat (sign ++ int_digits ++ frac ++ exp), after_exp)
        end
      else None
  | [] => None
  end.

(** [string[idx:idx + len(lit)] == lit]. *)
Fixpoint strip_prefix (lit s : pystr) : option pystr :=
  match lit, s with
  | [], _ => Some s
  | a :: lit', b :: s' => if a =? b then strip_prefix lit' s' else None
  | _ :: _, [] => None
  end.

Definition constant (s : pystr) : option (value * pystr) :=
  match strip_prefix (py "NaN") s with
  | Some rest => Some (VFloat (py "NaN"), rest)
  | None =>
  match strip_prefix (py "Infinity") s with
  | Some rest => Some (VFloat (py "Infinity"), rest)
  | None =>
  match strip_prefix (py "-Infinity") s with
  | Some rest => Some (VFloat (py "-Infinity"), rest)
  | None => None
  end end end.

(** [_scan_once], [JSONObject] and [JSONArray]. [members] and [elements]
    are the two [while] loops, entered where the next key (the next item)
    starts. *)
Fixpoint scan_once (fuel : nat) (s : pystr) : option (value * pystr) :=
  match fuel with
  | O => None
  | S fuel =>
      match s with
      | [] => None
      | c :: s1 =>
          if c =? QUOTE then
            '(str, rest) ← scanstring (length s1) s1;
            Some (VStr str, rest)
          else if c =? 123 then                      (* { *)
            match skip_ws s1 with
            | 125 :: rest => Some (VDict [], rest)
            | s2 =>
                '(pairs, rest) ← members fuel s2;
                Some (VDict pairs, rest)
            end
          else if c =? 91 then                       (* [ *)
            match skip_ws s1 with
            | 93 :: rest => Some (VList [], rest)
            | s2 =>
                '(items, rest) ← elements fuel s2;
                Some (VList items, rest)
            end
          else
            match strip_prefix (py "null") s with
            | Some rest => Some (VNone, rest)
            | None =>
            match strip_prefix (py "true") s with
            | Some rest => Some (VBool true, rest)
            | None =>
            match strip_prefix (py "false") s with
            | Some rest => Some (VBool false, rest)
            | None =>
            match match_number s with
            | Some r => Some r
            | None => constant s
            end end end end
      end
  end
with members (fuel : nat) (s : pystr) : option (list (pystr * value) * pystr) :=
  match fuel with
  | O => None
  | S fuel =>
      match s with
      | 34 :: s1 =>
          '(key, s2) ← scanstring (length s1) s1;
          match skip_ws s2 with
          | 58 :: s3 =>                              (* : *)
              '(v, s4) ← scan_once fuel (skip_ws s3);
              match skip_ws s4 with
              | 125 :: rest => Some ([(key, v)], rest)
              | 44 :: s5 =>                          (* , *)
                  '(pairs, rest) ← members fuel (skip_ws s5);
                  Some ((key, v) :: pairs, rest)
              | _ => None
              end
          | _ => None
          end
      | _ => None
      end
  end
with elements (fuel : nat) (s : pystr) : option (list value * pystr) :=
  match fuel with
  | O => None
  | S fuel =>
      '(v, s1) ← scan_once fuel s;
      match skip_ws s1 with
      | 93 :: rest => Some ([v], rest)
      | 44 :: s2 =>
          '(items, rest) ← elements fuel (skip_ws s2);
          Some (v :: items, rest)
      | _ => None
      end
  end.

(** [json.loads(s)] for a [str]: no BOM, one value, nothing but white space
    after it. *)
Definition loads (s : pystr) : option value :=
  match s with
  | 0xfeff :: _ => None
  | _ =>
      '(obj, rest) ← scan_once (S (length s)) (skip_ws s);
      match skip_ws rest with
      | [] => Some obj
      | _ => None
      end
  end.

(** [d.get(key)] on the dict built from the pairs in order: a later pair
    with the same key replaces an earlier one. *)
Fixpoint dict_get (pairs : list (pystr * value)) (key : pystr) : value :=
  match pairs with
  | [] => VNone
  | (k, v) :: rest =>
      if bool_decide (Exists (fun kv => kv.1 = key) rest) then dict_get rest key
      else if bool_decide (k = key) then v
      else VNone
  end.

End Json.

(** ** [Path.read_text] and [Path.write_text] with [encoding="utf-8"] *)

Module Utf8.

Local Open Scope N_scope.

Definition continuation (b : N) : bool := (0x80 <=? b) && (b <=? 0xbf).

(** The second byte of a three-byte sequence: no overlong form after [0xe0],
    no surrogate after [0xed]. *)
Definition second_of_3 (b0 b1 : N) : bool :=
  if b0 =? 0xe0 then (0xa0 <=? b1) && (b1 <=? 0xbf)
  else if b0 =? 0xed then (0x80 <=? b1) && (b1 <=? 0x9f)
  else continuation b1.

(** The second byte of a four-byte sequence: no overlong form after [0xf0],
    nothing above [0x10ffff] after [0xf4]. *)
Definition second_of_4 (b0 b1 : N) : bool :=
  if b0 =? 0xf0 then (0x90 <=? b1) && (b1 <=? 0xbf)
  else if b0 =? 0xf4 then (0x80 <=? b1) && (b1 <=? 0x8f)
  else continuation b1.

(** [bytes.decode("utf-8")], strict: [None] is [UnicodeDecodeError]. *)
Fixpoint decode (bs : list N) : option pystr :=
  match bs with
  | [] => Some []
  | b0 :: t0 =>
      if b0 <? 0x80 then cons b0 <$> decode t0
      else
        match t0 with
        | [] => None
        | b1 :: t1 =>
            if (0xc2 <=? b0) && (b0 <=? 0xdf) then
              if continuation b1
              then cons ((b0 - 0xc0) * 64 + (b1 - 0x80)) <$> decode t1
              else None
            else
              match t1 with
              | [] => None
              | b2 :: t2 =>
                  if (0xe0 <=? b0) && (b0 <=? 0xef) then
                    if second_of_3 b0 b1 && continuation b2
                    then cons (((b0 - 0xe0) * 64 + (b1 - 0x80)) * 64
                               + (b2 - 0x80)) <$> decode t2
                    else None
                  else
                    match t2 with
                    | [] => None
                    | b3 :: t3 =>
                        if (0xf0 <=? b0) && (b0 <=? 0xf4) then
                          if second_of_4 b0 b1 && continuation b2
                             && continuation b3
                          then cons ((((b0 - 0xf0) * 64 + (b1 - 0x80)) * 64
                                      + (b2 - 0x80)) * 64 + (b3 - 0x80))
                                 <$> decode t3
                          else None
                        else None
                    end
              end
        end
  end.

(** [str.encode("utf-8")], strict: a surrogate is [UnicodeEncodeError]. *)
Definition encode_char (c : N) : option (list N) :=
  if c <? 0x80 then Some [c]
  else if c <? 0x800 then Some [0xc0 + c / 64; 0x80 + c mod 64]
  else if (0xd800 <=? c) && (c <=? 0xdfff) then None
  else if c <? 0x10000 then
    Some [0xe0 + c / 4096; 0x80 + (c / 64) mod 64; 0x80 + c mod 64]
  else
    Some [0xf0 + c / 262144; 0x80 + (c / 4096) mod 64;
          0x80 + (c / 64) mod 64; 0x80 + c mod 64].

Fixpoint encode (s : pystr) : option (list N) :=
  match s with
  | [] => Some []
  | c :: s' =>
      bs ← encode_char c;
      rest ← encode s';
      Some (bs ++ rest)
  end.

(** Reading in text mode with [newline=None]: [\r\n] and [\r] become [\n]. *)
Fixpoint universal_newlines (s : pystr) : pystr :=
  match s with
  | [] => []
  | c :: t =>
      if c =? 13 then
        match t with
        | c' :: t' =>
            if c' =? 10 then 10 :: universal_newlines t'
            else 10 :: universal_newlines t
        | [] => [10]
        end
      else c :: universal_newlines t
  end.

End Utf8.

(** The part of the file system the state store sees: the regular files and
    their bytes; the paths that cannot be opened for writing (opening one
    raises [PermissionError], an [OSError]); and the paths on which a write
    fails after the file was opened (no space left, file too large, I/O
    error: an [OSError] from the write or from the close), each with the
    number of bytes that reach the file before it does. *)
Record Disk := {
  files : gmap string (list N);
  locked : gset string;
  faulty : gmap string nat;
}.

(** [path.exists()]. *)
Definition exists_ (path : string) (d : Disk) : bool :=
  bool_decide (is_Some (files d !! path)).

(** [path.read_text(encoding="utf-8")]; a missing file is
    [FileNotFoundError], an [OSError]. *)
Definition read_text (path : string) (d : Disk) : result pystr :=
  match files d !! path with
  | None => Raise OSError
  | Some bytes =>
      match Utf8.decode bytes with
      | Some text => Ok (Utf8.universal_newlines text)
      | None => Raise UnicodeDecodeError
      end
  end.

(** The disk with [bytes] as the content of [path]. *)
Definition with_file (path : string) (bytes : list N) (d : Disk) : Disk :=
  {| files := <[path := bytes]> (files d); locked := locked d;
     faulty := faulty d |}.

(** [path.write_text(text, encoding="utf-8")]: [with open(path, "w") as f:
    f.write(text)]. When the file cannot be opened nothing is touched.
    Opening truncates the file; the text is encoded when it is written, so
    text that cannot be encoded leaves the file empty; and a write that
    fails leaves the bytes that had reached the file, a prefix of the
    encoded text (on POSIX, where [\n] is written as it is). *)
Definition write_text (path : string) (text : pystr) (d : Disk)
  : result unit * Disk :=
  if bool_decide (path ∈ locked d) then (Raise OSError, d)
  else
    match Utf8.encode text with
    | None => (Raise UnicodeEncodeError, with_file path [] d)
    | Some bytes =>
        match faulty d !! path with
        | Some written => (Raise OSError, with_file path (take written bytes) d)
        | None => (Ok (), with_file path bytes d)
        end
    end.

(** ** [oracle/scheduler.py]: [OracleStateStore] *)

Record OracleStateStore := { _path : string }.

(** [data.get("last_issue_id")]: only a dict has [get]. *)
Definition py_get (data : value) (key : pystr) : result value :=
  match data with
  | VDict pairs => Ok (Json.dict_get pairs key)
  | _ => Raise AttributeError
  end.

Definition load_last_issue (self : OracleStateStore) (d : Disk)
  : result value :=
  if negb (exists_ (_path self) d) then Ok VNone
  else
    match read_text (_path self) d with
    | Raise e => Raise e
    | Ok text =>
        match Json.loads text with
        | None => Ok VNone                    (* except json.JSONDecodeError *)
        | Some data => py_get data (py "last_issue_id")
        end
    end.

Definition save_last_issue (self : OracleStateStore) (issue_id : pystr)
    (d : Disk) : result unit * Disk :=
  let payload := [(py "last_issue_id", issue_id)] in
  write_text (_path self) (Json.dumps payload) d.

(** ** [oracle/types.py] and [oracle/datasource/base.py] *)

Inductive PeriodStatus := SELLING | CLOSED | RESULT_IN | SETTLED.

Global Instance PeriodStatus_eq_dec : EqDecision PeriodStatus.
Proof. solve_decision. Defined.

(** [PeriodStatus(value)]: a value outside the enum is a [ValueError]. *)
Definition PeriodStatus_of_int (v : Z) : result PeriodStatus :=
  if v =? 0 then Ok SELLING
  else if v =? 1 then Ok CLOSED
  else if v =? 2 then Ok RESULT_IN
  else if v =? 3 then Ok SETTLED
  else Raise (ValueError "not a valid PeriodStatus").

Record PeriodSnapshot := {
  period_id : Z;
  status : PeriodStatus;
  result_set : bool;
  winning_numbers : list Z;
  ticket_count : Z;
}.

(** [draw_date] is a [datetime]; the scheduler never reads it. *)
Record DrawData := {
  issue_id : pystr;
  draw_date : Z;
  numbers : list Z;
}.

(** Python's [sorted] on a sequence of [int]. *)
Definition sorted (l : list Z) : list Z := merge_sort Z.le l.

Definition sorted_numbers (self : DrawData) : list Z := sorted (numbers self).

(** ** [oracle/scheduler.py]: the scheduler *)

Record SchedulerResult := {
  result_period_id : Z;
  result_issue_id : pystr;
  tx_hash : pystr;
}.

(** The fields of [OracleSettings] the scheduler reads. *)
Record OracleSettings := {
  poll_interval_seconds : Z;
  submit_only_once : bool;
  state_file : string;
}.

(** The records the scheduler hands to its logger. *)
Inductive LogRecord :=
  | Info_loop_started (interval : Z)
  | Info_exiting_loop
  | Exception_iteration_failed (exc : exn)
  | Debug_already_submitted (issue : pystr)
  | Info_not_closed (period : Z) (st : PeriodStatus)
  | Info_already_set (period : Z)
  | Info_submitting (period : Z) (issue : pystr) (nums : list Z)
  | Info_broadcast (tx : pystr).

(** What a run leaves behind, in order: the log records, the calls made to
    the collaborators, and the sleeps. *)
Inductive Event :=
  | Log (r : LogRecord)
  | Called_fetch_latest
  | Called_get_current_period
  | Called_submit_result (period : Z) (nums : list Z)
  | Called_close
  | Sleep (interval : Z).

Section Scheduler.

(** The state of the outside world the collaborators act on (the feed, the
    chain, the network). *)
Variable Ext : Type.

(** A call to a collaborator: it may raise and it may change the world. *)
Definition IO (A : Type) : Type := Ext -> result A * Ext.

(** [ResultDataSource] (an abstract base class). *)
Record ResultDataSource := {
  fetch_latest : IO DrawData;
  close : IO unit;
}.

Record LotteryClientProtocol := {
  get_current_period : IO PeriodSnapshot;
  submit_result : Z -> list Z -> IO pystr;
}.

(** Everything a scheduler method can read or change: its own
    [_last_issue_id], the disk, the outside world, and the trace. *)
Record State := {
  _last_issue_id : value;
  disk : Disk;
  ext : Ext;
  trace : list Event;
}.

Definition M (A : Type) : Type := State -> result A * State.

Definition M_ret {A} (a : A) : M A := fun st => (Ok a, st).

Definition M_bind {A B} (k : A -> M B) (m : M A) : M B :=
  fun st =>
    match m st with
    | (Ok a, st') => k a st'
    | (Raise e, st') => (Raise e, st')
    end.

Global Instance M_MRet : MRet M := @M_ret.
Global Instance M_MBind : MBind M := @M_bind.

Definition emit (e : Event) : M unit :=
  fun st =>
    (Ok (), {| _last_issue_id := _last_issue_id st; disk := disk st;
               ext := ext st; trace := trace st ++ [e] |}).

Definition logger (r : LogRecord) : M unit := emit (Log r).

(** A collaborator's call, run on the scheduler's world. *)
Definition on_ext {A} (io : IO A) : M A :=
  fun st =>
    let '(r, x) := io (ext st) in
    (r, {| _last_issue_id := _last_issue_id st; disk := disk st;
           ext := x; trace := trace st |}).

(** [await collaborator.method(...)]: the call is recorded, then made. *)
Definition await {A} (e : Event) (io : IO A) : M A :=
  emit e;; on_ext io.

Definition get_last_issue_id : M value :=
  fun st => (Ok (_last_issue_id st), st).

Definition set_last_issue_id (v : value) : M unit :=
  fun st =>
    (Ok (), {| _last_issue_id := v; disk := disk st;
               ext := ext st; trace := trace st |}).

(** A method of the state store, run on the scheduler's disk. *)
Definition on_disk {A} (f : Disk -> result A * Disk) : M A :=
  fun st =>
    let '(r, d) := f (disk st) in
    (r, {| _last_issue_id := _last_issue_id st; disk := d;
           ext := ext st; trace := trace st |}).

Record OracleScheduler := {
  _settings : OracleSettings;
  _datasource : ResultDataSource;
  _client : LotteryClientProtocol;
  _state : OracleStateStore;
}.

(** [OracleScheduler.__init__]: the scheduler and its first state, on a
    given disk and world. Loading the state file may raise. *)
Definition __init__ (settings : OracleSettings)
    (datasource : ResultDataSource) (client : LotteryClientProtocol)
    (d : Disk) (x : Ext) : result (OracleScheduler * State) :=
  let state := {| _path := state_file settings |} in
  match load_last_issue state d with
  | Raise e => Raise e
  | Ok last =>
      Ok ({| _settings := settings; _datasource := datasource;
             _client := client; _state := state |},
          {| _last_issue_id := last; disk := d; ext := x; trace := [] |})
  end.

Definition _attempt_submission (self : OracleScheduler)
  : M (option SchedulerResult) :=
  draw ← await Called_fetch_latest (fetch_latest (_datasource self));
  last ← get_last_issue_id;
  if py_eq_str last (issue_id draw) then
    logger (Debug_already_submitted (issue_id draw));;
    mret None
  else
    period_snapshot ←
      await Called_get_current_period (get_current_period (_client self));
    if negb (bool_decide (status period_snapshot = CLOSED)) then
      logger (Info_not_closed (period_id period_snapshot)
                              (status period_snapshot));;
      mret None
    else if result_set period_snapshot then
      logger (Info_already_set (period_id period_snapshot));;
      mret None
    else
      let sorted_numbers := sorted_numbers draw in
      logger (Info_submitting (period_id period_snapshot) (issue_id draw)
                              sorted_numbers);;
      tx_hash ←
        await (Called_submit_result (period_id period_snapshot) sorted_numbers)
              (submit_result (_client self) (period_id period_snapshot)
                             sorted_numbers);
      logger (Info_broadcast tx_hash);;
      set_last_issue_id (VStr (issue_id draw));;
      on_disk (save_last_issue (_state self) (issue_id draw));;
      mret (Some {| result_period_id := period_id period_snapshot;
                    result_issue_id := issue_id draw;
                    tx_hash := tx_hash |}).

(** The state after a cycle that left [_last_issue_id] and the disk alone:
    the world is [x] and [evs] was added to the trace. *)
Definition untouched (st : State) (x : Ext) (evs : list Event) : State :=
  {| _last_issue_id := _last_issue_id st; disk := disk st; ext := x;
     trace := trace st ++ evs |}.

(** The events of a cycle up to and including its call of the chain
    writer. *)
Definition submit_events (draw : DrawData) (snap : PeriodSnapshot)
  : list Event :=
  [Called_fetch_latest; Called_get_current_period;
   Log (Info_submitting (period_id snap) (issue_id draw)
                        (sorted_numbers draw));
   Called_submit_result (period_id snap) (sorted_numbers draw)].

(** Is the event a call to the chain (reader or writer)? *)
Definition chain_access (e : Event) : bool :=
  match e with
  | Called_get_current_period | Called_submit_result _ _ => true
  | _ => false
  end.

(** The decision a cycle took, read off the record it logged on taking it:
    each branch of [_attempt_submission] logs its own. *)
Inductive SubmissionDecision :=
  | Skip_Duplicate
  | Skip_NotReady
  | Skip_AlreadySet
  | Submit (period : Z) (nums : list Z).

Definition decision_of_event (e : Event) : option SubmissionDecision :=
  match e with
  | Log (Debug_already_submitted _) => Some Skip_Duplicate
  | Log (Info_not_closed _ _) => Some Skip_NotReady
  | Log (Info_already_set _) => Some Skip_AlreadySet
  | Log (Info_submitting period _ nums) => Some (Submit period nums)
  | _ => None
  end.

(** The events one cycle adds to the trace. *)
Definition cycle_events (self : OracleScheduler) (st : State) : list Event :=
  drop (length (trace st)) (trace (_attempt_submission self st).2).

(** [None] when the cycle raised before it reached a decision. *)
Definition cycle_decision (self : OracleScheduler) (st : State)
  : option SubmissionDecision :=
  head (omap decision_of_event (cycle_events self st)).

Definition is_skip (d : option SubmissionDecision) : bool :=
  match d with
  | Some Skip_Duplicate | Some Skip_NotReady | Some Skip_AlreadySet => true
  | _ => false
  end.

(** [run_once]: [try: return ... finally: await datasource.close()]. An
    exception raised by [close] replaces the outcome of the cycle. *)
Definition run_once (self : OracleScheduler) : M (option SchedulerResult) :=
  fun st =>
    let '(r, st1) := _attempt_submission self st in
    match await Called_close (close (_datasource self)) st1 with
    | (Ok _, st2) => (r, st2)
    | (Raise e, st2) => (Raise e, st2)
    end.

(** Truth value of an [Optional[SchedulerResult]]: [None] is false, an
    instance of the dataclass is true. *)
Definition truthy (r : option SchedulerResult) : bool :=
  match r with
  | Some _ => true
  | None => false
  end.

Inductive LoopStatus :=
  | Returned          (* [run_forever] executed its [return] *)
  | Looping.          (* still in the [while True] after the given cycles *)

(** The [while True] of [run_forever], for at most [cycles] iterations. *)
Fixpoint run_forever_loop (cycles : nat) (self : OracleScheduler)
    (st : State) : LoopStatus * State :=
  match cycles with
  | O => (Looping, st)
  | S cycles =>
      let interval := poll_interval_seconds (_settings self) in
      match _attempt_submission self st with
      | (Ok should_continue, st1) =>
          if negb (truthy should_continue)
             && submit_only_once (_settings self)
          then (Returned, (logger Info_exiting_loop st1).2)
          else run_forever_loop cycles self (emit (Sleep interval) st1).2
      | (Raise exc, st1) =>
          run_forever_loop cycles self
            ((logger (Exception_iteration_failed exc);;
              emit (Sleep interval)) st1).2
      end
  end.

Definition run_forever (cycles : nat) (self : OracleScheduler) (st : State)
  : LoopStatus * State :=
  let interval := poll_interval_seconds (_settings self) in
  run_forever_loop cycles self (logger (Info_loop_started interval) st).2.

(** ** [oracle/lottery_client.py]: the production client *)

(** [getPeriod] returns (status, resultSet, winningNumbers, mask,
    ticketCount, totalSales, paidOut); the client reads four of them. *)
Record PeriodTuple := {
  tuple_status : Z;
  tuple_resultSet : bool;
  tuple_winningNumbers : list Z;
  tuple_ticketCount : Z;
}.

(** What the client asks of web3. The two contract reads;
    [send_raw_transaction]: the [submitResult(period_id, numbers)]
    transaction is built from the account's nonce and the gas price, signed
    and sent, which gives its hash (in hex); and
    [wait_for_transaction_receipt(transaction_hash, timeout, poll_latency)],
    which gives the status of the receipt. *)
Record Web3 := {
  currentPeriodId : IO Z;
  getPeriod : Z -> IO PeriodTuple;
  send_raw_transaction : Z -> list Z -> IO pystr;
  wait_for_transaction_receipt : pystr -> Z -> Z -> IO Z;
}.

(** The parameters of web3.py's [Eth.wait_for_transaction_receipt(
    transaction_hash, timeout=120, poll_latency=0.1)]. *)
Definition wait_for_transaction_receipt_parameters : list string :=
  ["transaction_hash"; "timeout"; "poll_latency"]%string.

(** A Python call that passes keyword arguments: a keyword that names no
    parameter of the callee is a [TypeError], raised before the callee
    runs. *)
Definition call_with_keywords {A} (parameters keywords : list string)
    (callee : IO A) : IO A :=
  fun x =>
    if forallb (fun k => bool_decide (k ∈ parameters)) keywords
    then callee x
    else (Raise TypeError, x).

Definition IO_bind {A B} (k : A -> IO B) (m : IO A) : IO B :=
  fun x =>
    match m x with
    | (Ok a, x') => k a x'
    | (Raise e, x') => (Raise e, x')
    end.

Global Instance IO_MRet : MRet IO := fun A a x => (Ok a, x).
Global Instance IO_MBind : MBind IO := @IO_bind.

Definition IO_raise {A} (e : exn) : IO A := fun x => (Raise e, x).

Definition _sync_get_current_period (web3 : Web3) : IO PeriodSnapshot :=
  pid ← currentPeriodId web3;
  period_tuple ← getPeriod web3 pid;
  match PeriodStatus_of_int (tuple_status period_tuple) with
  | Raise e => IO_raise e
  | Ok st =>
      mret {| period_id := pid;
              status := st;
              result_set := tuple_resultSet period_tuple;
              winning_numbers := tuple_winningNumbers period_tuple;
              ticket_count := tuple_ticketCount period_tuple |}
  end.

(** [_sync_submit_result]: the transaction is sent, and then the receipt
    is asked for with [timeout=180, poll_latency=2, confirmations=...]. *)
Definition _sync_submit_result (web3 : Web3) (period : Z) (nums : list Z)
  : IO pystr :=
  tx_hash ← send_raw_transaction web3 period nums;
  receipt_status ←
    call_with_keywords wait_for_transaction_receipt_parameters
      ["timeout"; "poll_latency"; "confirmations"]%string
      (wait_for_transaction_receipt web3 tx_hash 180 2);
  if negb (receipt_status =? 1) then
    IO_raise (RuntimeError "submitResult reverted")
  else mret tx_hash.

(** [LotteryClient.submit_result]; the elements are already [int], so
    [int(n)] is the identity. *)
Definition LotteryClient_submit_result (web3 : Web3) (period : Z)
    (nums : list Z) : IO pystr :=
  let sorted_numbers := sorted nums in
  if negb (length sorted_numbers =? 6)%nat then
    IO_raise (ValueError "submit_result expects exactly 6 numbers")
  else _sync_submit_result web3 period sorted_numbers.

Definition LotteryClient (web3 : Web3) : LotteryClientProtocol := {|
  get_current_period := _sync_get_current_period web3;
  submit_result := LotteryClient_submit_result web3;
|}.

End Scheduler.

Arguments fetch_latest {Ext} _ _.
Arguments close {Ext} _ _.
Arguments get_current_period {Ext} _ _.
Arguments submit_result {Ext} _ _ _ _.
Arguments _last_issue_id {Ext} _.
Arguments disk {Ext} _.
Arguments ext {Ext} _.
Arguments trace {Ext} _.
Arguments Build_State {Ext} _ _ _ _.
Arguments _settings {Ext} _.
Arguments _datasource {Ext} _.
Arguments _client {Ext} _.
Arguments _state {Ext} _.
Arguments Build_OracleScheduler {Ext} _ _ _ _.
Arguments __init__ {Ext} _ _ _ _ _.
Arguments _attempt_submission {Ext} _ _.
Arguments untouched {Ext} _ _ _.
Arguments cycle_events {Ext} _ _.
Arguments cycle_decision {Ext} _ _.
Arguments run_once {Ext} _ _.
Arguments run_forever_loop {Ext} _ _ _.
Arguments run_forever {Ext} _ _ _.
Arguments currentPeriodId {Ext} _ _.
Arguments getPeriod {Ext} _ _ _.
Arguments send_raw_transaction {Ext} _ _ _ _.
Arguments wait_for_transaction_receipt {Ext} _ _ _ _ _.
Arguments call_with_keywords {Ext A} _ _ _ _.
Arguments _sync_get_current_period {Ext} _ _.
Arguments _sync_submit_result {Ext} _ _ _ _.
Arguments LotteryClient_submit_result {Ext} _ _ _ _.
Arguments LotteryClient {Ext} _.

(** ** [oracle/tests/test_scheduler.py]: the test doubles *)

Record FakeWorld := {
  calls : Z;                              (* [FakeDataSource.calls] *)
  closed : bool;                          (* [FakeDataSource.closed] *)
  submissions : list (Z * list Z);        (* [FakeClient.submissions] *)
}.

Definition FakeDataSource (draw : DrawData) : ResultDataSource FakeWorld := {|
  fetch_latest w :=
    (Ok draw, {| calls := calls w + 1; closed := closed w;
                 submissions := submissions w |});
  close w :=
    (Ok (), {| calls := calls w; closed := true;
               submissions := submissions w |});
|}.

Definition FakeClient (snapshot : PeriodSnapshot) (tx : pystr)
  : LotteryClientProtocol FakeWorld := {|
  get_current_period w := (Ok snapshot, w);
  submit_result period nums w :=
    (Ok tx, {| calls := calls w; closed := closed w;
               submissions := submissions w ++ [(period, nums)] |});
|}.

(** Doubles that fail, for the error paths: a feed that is down, a chain
    that cannot be read, and a chain that rejects the transaction. *)
Definition DownDataSource : ResultDataSource FakeWorld := {|
  fetch_latest w := (Raise (RuntimeError "feed unavailable"), w);
  close w := (Ok (), w);
|}.

Definition UnreadableClient : LotteryClientProtocol FakeWorld := {|
  get_current_period w := (Raise (RuntimeError "rpc unavailable"), w);
  submit_result period nums w := (Raise (RuntimeError "rpc unavailable"), w);
|}.

Definition RejectingClient (snapshot : PeriodSnapshot)
  : LotteryClientProtocol FakeWorld := {|
  get_current_period w := (Ok snapshot, w);
  submit_result period nums w := (Raise (RuntimeError "submitResult reverted"), w);
|}.

(** A chain for the production client: period 2 is closed without a
    result, every transaction sent is recorded, and its receipt has
    status 1. *)
Definition TestWeb3 : Web3 FakeWorld := {|
  currentPeriodId w := (Ok 2, w);
  getPeriod period w :=
    (Ok {| tuple_status := 1; tuple_resultSet := false;
           tuple_winningNumbers := [0; 0; 0; 0; 0; 0];
           tuple_ticketCount := 40 |}, w);
  send_raw_transaction period nums w :=
    (Ok (py "0xabc"),
     {| calls := calls w; closed := closed w;
        submissions := submissions w ++ [(period, nums)] |});
  wait_for_transaction_receipt tx timeout poll_latency w := (Ok 1, w);
|}.

(** The settings, draws, snapshots and disks of the tests and of the
    spec's scenarios. *)
Definition test_settings : OracleSettings := {|
  poll_interval_seconds := 5;
  submit_only_once := true;
  state_file := "state.json";
|}.

Definition empty_disk : Disk := {| files := ∅; locked := ∅; faulty := ∅ |}.

Definition locked_disk : Disk :=
  {| files := ∅; locked := {["state.json"]}; faulty := ∅ |}.

(** A disk on which the state file holds the record of issue 2025-001 and
    the next write to it fails after 10 bytes. *)
Definition failing_disk : Disk :=
  {| files := {["state.json" :=
                  (Json.dumps [(py "last_issue_id", py "2025-001")] : list N)]};
     locked := ∅; faulty := {["state.json" := 10%nat]} |}.

Definition fresh_world : FakeWorld :=
  {| calls := 0; closed := false; submissions := [] |}.

Definition draw_2025_002 : DrawData :=
  {| issue_id := py "2025-002"; draw_date := 0;
     numbers := [13; 12; 11; 10; 9; 8] |}.

Definition draw_2025_003 : DrawData :=
  {| issue_id := py "2025-003"; draw_date := 0;
     numbers := [6; 5; 4; 3; 2; 1] |}.

Definition draw_scenario_B : DrawData :=
  {| issue_id := py "2025-002"; draw_date := 0; numbers := [13; 9; 11] |}.

Definition selling_snapshot : PeriodSnapshot :=
  {| period_id := 1; status := SELLING; result_set := false;
     winning_numbers := [0; 0; 0; 0; 0; 0]; ticket_count := 10 |}.

Definition closed_snapshot : PeriodSnapshot :=
  {| period_id := 2; status := CLOSED; result_set := false;
     winning_numbers := [0; 0; 0; 0; 0; 0]; ticket_count := 40 |}.

Definition settled_snapshot : PeriodSnapshot :=
  {| period_id := 2; status := CLOSED; result_set := true;
     winning_numbers := [8; 9; 10; 11; 12; 13]; ticket_count := 40 |}.

(** A scheduler built on the doubles, and a state for it. *)
Definition scheduler_on {Ext} (datasource : ResultDataSource Ext)
    (client : LotteryClientProtocol Ext) : OracleScheduler Ext :=
  {| _settings := test_settings; _datasource := datasource;
     _client := client; _state := {| _path := state_file test_settings |} |}.

Definition state_with {Ext} (last : value) (d : Disk) (x : Ext) : State Ext :=
  {| _last_issue_id := last; disk := d; ext := x; trace := [] |}.

(** A feed that moves on: issue 2025-002 on the first fetch, issue 2025-003
    on every later one. *)
Definition AdvancingDataSource : ResultDataSource FakeWorld := {|
  fetch_latest w :=
    (Ok (if calls w =? 0 then draw_2025_002 else draw_2025_003),
     {| calls := calls w + 1; closed := closed w;
        submissions := submissions w |});
  close w :=
    (Ok (), {| calls := calls w; closed := true;
               submissions := submissions w |});
|}.

(** The feed, the worlds and the scheduler states of the scenarios: the
    state before anything was submitted, the one after issue 2025-002 was,
    and the first on a disk where the state file cannot be written. *)
Definition feed_2025_002 : ResultDataSource FakeWorld :=
  FakeDataSource draw_2025_002.

Definition tx_0xabc : pystr := py "0xabc".

Definition world_after_fetch : FakeWorld :=
  {| calls := 1; closed := false; submissions := [] |}.

Definition world_after_write : FakeWorld :=
  {| calls := 1; closed := false;
     submissions := [(2, [8; 9; 10; 11; 12; 13])] |}.

Definition fresh_state : State FakeWorld :=
  state_with VNone empty_disk fresh_world.

Definition submitted_state : State FakeWorld :=
  state_with (VStr (py "2025-002")) empty_disk fresh_world.

Definition fresh_state_locked : State FakeWorld :=
  state_with VNone locked_disk fresh_world.

(** The state of a scheduler that loaded issue 2025-001 from a disk on
    which the next write to the state file fails. *)
Definition state_on_failing_disk : State FakeWorld :=
  state_with (VStr (py "2025-001")) failing_disk fresh_world.

(** The ten bytes that reach the state file before the write fails. *)
Definition fragment_2025_002 : list N :=
  take 10 (Json.dumps [(py "last_issue_id", py "2025-002")]).

(** * Part I, continued: the rest of the oracle *)

(** ** Counting what a run did *)

Definition is_fetch (e : Event) : bool :=
  match e with Called_fetch_latest => true | _ => false end.
Definition is_period_read (e : Event) : bool :=
  match e with Called_get_current_period => true | _ => false end.
Definition is_chain_write (e : Event) : bool :=
  match e with Called_submit_result _ _ => true | _ => false end.
Definition is_close (e : Event) : bool :=
  match e with Called_close => true | _ => false end.
Definition is_sleep (e : Event) : bool :=
  match e with Sleep _ => true | _ => false end.

(** How many events of a kind a list holds. *)
Definition count (kind : Event -> bool) (evs : list Event) : nat :=
  length (List.filter kind evs).

(** The events [run_once] and [run_forever] add to the trace. *)
Definition run_once_events {Ext} (self : OracleScheduler Ext) (st : State Ext)
  : list Event :=
  drop (length (trace st)) (trace (run_once self st).2).

Definition run_forever_events {Ext} (cycles : nat) (self : OracleScheduler Ext)
    (st : State Ext) : list Event :=
  drop (length (trace st)) (trace (run_forever cycles self st).2).

(** What [json.loads] makes of the string [json.dumps] wrote for [s]: every
    high surrogate immediately followed by a low surrogate has become the
    one code point the two encode. *)
Fixpoint joined (s : pystr) : pystr :=
  match s with
  | [] => []
  | c :: t =>
      match t with
      | c' :: t' =>
          if Json.is_high_surrogate c && Json.is_low_surrogate c'
          then Json.join_surrogates c c' :: joined t'
          else c :: joined t
      | [] => [c]
      end
  end.

(** ** [oracle/types.py]: the value of a [PeriodStatus] *)

(** [int(status)] for the [IntEnum]. *)
Definition PeriodStatus_to_int (s : PeriodStatus) : Z :=
  match s with
  | SELLING => 0
  | CLOSED => 1
  | RESULT_IN => 2
  | SETTLED => 3
  end.

(** ** [oracle/datasource/http_api.py] *)

Record HttpJsonDataSourceConfig := {
  url : pystr;
  issue_key : pystr;
  numbers_key : pystr;
  date_key : pystr;
  timeout_seconds : Z;
}.

(** [payload[key]]: the value of the last pair with that key, [None] for
    [KeyError]. *)
Fixpoint dict_item (pairs : list (pystr * value)) (key : pystr)
  : option value :=
  match pairs with
  | [] => None
  | (k, v) :: rest =>
      match dict_item rest key with
      | Some v' => Some v'
      | None => if bool_decide (k = key) then Some v else None
      end
  end.

(** The keys of a dict in iteration order: each key once, where it was
    first inserted. *)
Fixpoint dict_keys (pairs : list (pystr * value)) (seen : list pystr)
  : list pystr :=
  match pairs with
  | [] => []
  | (k, _) :: rest =>
      if bool_decide (k ∈ seen) then dict_keys rest seen
      else k :: dict_keys rest (k :: seen)
  end.

(** [isinstance(raw, Iterable)] and what [for value in raw] yields: the
    items of a list, the characters of a [str] (each a [str]), the keys of
    a dict; [None], a [bool], an [int] and a [float] are not iterable. *)
Definition iterate (raw : value) : option (list value) :=
  match raw with
  | VList items => Some items
  | VStr s => Some (map (fun c => VStr [c]) s)
  | VDict pairs => Some (map VStr (dict_keys pairs []))
  | VNone | VBool _ | VInt _ | VFloat _ => None
  end.

(** [isinstance(value, int)], with the integer the value is: a [bool] is
    an [int] in Python, [True] being 1 and [False] 0 in every comparison,
    sort and [int(...)] conversion the numbers go through. *)
Definition as_int (v : value) : option Z :=
  match v with
  | VInt z => Some z
  | VBool b => Some (if b then 1 else 0)
  | _ => None
  end.

(** The [for] loop of [_parse_numbers]. *)
Fixpoint collect_numbers (items : list value) : result (list Z) :=
  match items with
  | [] => Ok []
  | v :: rest =>
      match as_int v with
      | None => Raise (ValueError "numbers must be integers")
      | Some n =>
          match collect_numbers rest with
          | Ok ns => Ok (n :: ns)
          | Raise e => Raise e
          end
      end
  end.

Definition _parse_numbers (raw : value) : result (list Z) :=
  match iterate raw with
  | None => Raise (ValueError "numbers field must be iterable")
  | Some items =>
      match collect_numbers items with
      | Raise e => Raise e
      | Ok numbers =>
          if (length numbers =? 0)%nat
          then Raise (ValueError "numbers field empty")
          else Ok numbers
      end
  end.

(** [isinstance(e, ValueError)]: the three decode and encode errors are
    subclasses of [ValueError]. *)
Definition is_ValueError (e : exn) : bool :=
  match e with
  | ValueError _ | JSONDecodeError | UnicodeDecodeError | UnicodeEncodeError =>
      true
  | AttributeError | OSError | TypeError | RuntimeError _ => false
  end.

(** [raw.replace("Z", "+00:00")]. *)
Definition replace_Z (raw : pystr) : pystr :=
  flat_map (fun c => if (c =? 90)%N then py "+00:00" else [c]) raw.

Section HttpJsonDataSource.

Variable Ext : Type.

(** What the data source takes from outside the repository: the HTTP
    request with [raise_for_status] and [resp.json()], the builtin [str]
    on a value that is not a [str], the clock, and the two [datetime]
    constructors (a [datetime] being the [Z] of [DrawData.draw_date]). *)
Record Library := {
  requests_get_json : pystr -> Z -> IO Ext value;
  str_other : value -> pystr;
  utcnow : Ext -> Z;
  utcfromtimestamp : value -> result Z;
  fromisoformat : pystr -> result Z;
}.

(** [str(v)]. *)
Definition py_str (lib : Library) (v : value) : pystr :=
  match v with
  | VStr s => s
  | _ => str_other lib v
  end.

(** [_parse_date(raw)], with the world for the clock; [raw] is what
    [payload.get] returned, [VNone] for a missing or null date. *)
Definition _parse_date (lib : Library) (x : Ext) (raw : value) : result Z :=
  match raw with
  | VNone => Ok (utcnow lib x)
  | VInt _ | VFloat _ | VBool _ => utcfromtimestamp lib raw
  | VStr s =>
      match fromisoformat lib (replace_Z s) with
      | Ok t => Ok t
      | Raise e =>
          if is_ValueError e
          then Raise (ValueError "Invalid date string format")
          else Raise e
      end
  | VList _ | VDict _ => Raise (ValueError "Unrecognized draw date format")
  end.

(** [_parse_payload(payload)], with the world for the clock. Of the two
    messages that end with the name of the missing field, the text before
    the name is kept. *)
Definition _parse_payload (cfg : HttpJsonDataSourceConfig) (lib : Library)
    (x : Ext) (payload : list (pystr * value)) : result DrawData :=
  match dict_item payload (issue_key cfg) with
  | None => Raise (ValueError "Missing issue id field")
  | Some issue =>
      let issue_id := py_str lib issue in
      match dict_item payload (numbers_key cfg) with
      | None => Raise (ValueError "Missing numbers field")
      | Some raw_numbers =>
          match _parse_numbers raw_numbers with
          | Raise e => Raise e
          | Ok numbers =>
              match _parse_date lib x (Json.dict_get payload (date_key cfg)) with
              | Raise e => Raise e
              | Ok draw_date =>
                  Ok {| issue_id := issue_id; draw_date := draw_date;
                        numbers := numbers |}
              end
          end
      end
  end.

(** [_get_json]: the response must be a JSON object. *)
Definition _get_json (lib : Library) (url : pystr) (timeout : Z)
  : IO Ext (list (pystr * value)) :=
  fun x =>
    match requests_get_json lib url timeout x with
    | (Raise e, x') => (Raise e, x')
    | (Ok (VDict payload), x') => (Ok payload, x')
    | (Ok _, x') =>
        (Raise (ValueError "HTTP API returned non-object payload"), x')
    end.

Definition HttpJsonDataSource_fetch_latest (cfg : HttpJsonDataSourceConfig)
    (lib : Library) : IO Ext DrawData :=
  fun x =>
    match _get_json lib (url cfg) (timeout_seconds cfg) x with
    | (Raise e, x') => (Raise e, x')
    | (Ok response_json, x') => (_parse_payload cfg lib x' response_json, x')
    end.

(** The class: [close] is the base class's, which does nothing. *)
Definition HttpJsonDataSource (cfg : HttpJsonDataSourceConfig) (lib : Library)
  : ResultDataSource Ext := {|
  fetch_latest := HttpJsonDataSource_fetch_latest cfg lib;
  close := fun x => (Ok (), x);
|}.

End HttpJsonDataSource.

Arguments requests_get_json {Ext} _ _ _ _.
Arguments str_other {Ext} _ _.
Arguments utcnow {Ext} _ _.
Arguments utcfromtimestamp {Ext} _ _.
Arguments fromisoformat {Ext} _ _.
Arguments py_str {Ext} _ _.
Arguments _parse_date {Ext} _ _ _.
Arguments _parse_payload {Ext} _ _ _ _.
Arguments _get_json {Ext} _ _ _ _.
Arguments HttpJsonDataSource_fetch_latest {Ext} _ _ _.
Arguments HttpJsonDataSource {Ext} _ _.

(** ** [oracle/service.py] *)

(** [config.DataSourceSettings]. *)
Record DataSourceSettings := {
  settings_url : pystr;
  settings_issue_key : pystr;
  settings_numbers_key : pystr;
  settings_date_key : pystr;
  settings_timeout_seconds : Z;
}.

(** [build_datasource], up to the configuration it hands to
    [HttpJsonDataSource]: an empty URL is refused. *)
Definition build_datasource (ds_settings : DataSourceSettings)
  : result HttpJsonDataSourceConfig :=
  match settings_url ds_settings with
  | [] => Raise (RuntimeError "DATASOURCE__URL is not configured.")
  | _ =>
      Ok {| url := settings_url ds_settings;
            issue_key := settings_issue_key ds_settings;
            numbers_key := settings_numbers_key ds_settings;
            date_key := settings_date_key ds_settings;
            timeout_seconds := settings_timeout_seconds ds_settings |}
  end.

(** How [run] ended: it returned a transaction hash or [None], it raised,
    or it is still inside [run_forever] after the cycles considered. *)
Inductive RunOutcome :=
  | Run_returned (tx : option pystr)
  | Run_raised (e : exn)
  | Run_looping.

(** What [run] leaves: the outcome, the disk and the world, the scheduler's
    trace, and the records [run] itself logs ("Oracle submitted period=%s
    tx=%s"), which come after everything the scheduler logged. *)
Record RunResult (Ext : Type) := {
  outcome : RunOutcome;
  final_disk : Disk;
  final_ext : Ext;
  events : list Event;
  submitted_records : list (Z * pystr);
}.
Arguments outcome {Ext} _.
Arguments final_disk {Ext} _.
Arguments final_ext {Ext} _.
Arguments events {Ext} _.
Arguments submitted_records {Ext} _.

(** [run(args)], from the settings [load_config] returned. [new_client] is
    the constructor [LotteryClient(settings)], which connects to the RPC
    endpoint and may raise; [once] is [args.once]. *)
Definition run {Ext} (once : bool) (settings : OracleSettings)
    (ds_settings : DataSourceSettings) (lib : Library Ext)
    (new_client : IO Ext (LotteryClientProtocol Ext))
    (cycles : nat) (d : Disk) (x : Ext) : RunResult Ext :=
  let failed e x' :=
    {| outcome := Run_raised e; final_disk := d; final_ext := x';
       events := []; submitted_records := [] |} in
  match build_datasource ds_settings with
  | Raise e => failed e x
  | Ok cfg =>
      let datasource := HttpJsonDataSource cfg lib in
      match new_client x with
      | (Raise e, x1) => failed e x1
      | (Ok client, x1) =>
          match __init__ settings datasource client d x1 with
          | Raise e => failed e x1
          | Ok (scheduler, st) =>
              if once || submit_only_once settings then
                match run_once scheduler st with
                | (Ok (Some result), st') =>
                    {| outcome := Run_returned (Some (tx_hash result));
                       final_disk := disk st'; final_ext := ext st';
                       events := trace st';
                       submitted_records :=
                         [(result_period_id result, tx_hash result)] |}
                | (Ok None, st') =>
                    {| outcome := Run_returned None;
                       final_disk := disk st'; final_ext := ext st';
                       events := trace st'; submitted_records := [] |}
                | (Raise e, st') =>
                    {| outcome := Run_raised e;
                       final_disk := disk st'; final_ext := ext st';
                       events := trace st'; submitted_records := [] |}
                end
              else
                match run_forever cycles scheduler st with
                | (Returned, st') =>
                    {| outcome := Run_returned None;
                       final_disk := disk st'; final_ext := ext st';
                       events := trace st'; submitted_records := [] |}
                | (Looping, st') =>
                    {| outcome := Run_looping;
                       final_disk := disk st'; final_ext := ext st';
                       events := trace st'; submitted_records := [] |}
                end
          end
      end
  end.

(** ** More doubles and scenarios *)

(** The outside of the HTTP data source: an endpoint that answers every
    request with [data], a clock at 0, and [datetime] constructors that
    accept every timestamp and no string. *)
Definition test_library (data : value) : Library FakeWorld := {|
  requests_get_json u t w :=
    (Ok data, {| calls := calls w + 1; closed := closed w;
                 submissions := submissions w |});
  str_other v := py "?";
  utcnow w := 0;
  utcfromtimestamp v := Ok 0;
  fromisoformat s := Raise (ValueError "Invalid isoformat string");
|}.

Definition test_config : HttpJsonDataSourceConfig := {|
  url := py "http://example.test";
  issue_key := py "issue_id";
  numbers_key := py "numbers";
  date_key := py "draw_date";
  timeout_seconds := 10;
|}.

Definition test_ds_settings : DataSourceSettings := {|
  settings_url := py "http://example.test";
  settings_issue_key := py "issue_id";
  settings_numbers_key := py "numbers";
  settings_date_key := py "draw_date";
  settings_timeout_seconds := 10;
|}.

(** The payload of issue 2025-002, without a date. *)
Definition payload_2025_002 : list (pystr * value) :=
  [(py "issue_id", VStr (py "2025-002"));
   (py "numbers", VList [VInt 13; VInt 12; VInt 11; VInt 10; VInt 9; VInt 8])].

(** Settings for a long-running service. *)
Definition loop_settings : OracleSettings := {|
  poll_interval_seconds := 30;
  submit_only_once := false;
  state_file := "state.json";
|}.

Definition looping_scheduler : OracleScheduler FakeWorld :=
  {| _settings := loop_settings; _datasource := feed_2025_002;
     _client := FakeClient closed_snapshot tx_0xabc;
     _state := {| _path := "state.json" |} |}.

(** The constructor of a client that connects at once. *)
Definition connect_fake : IO FakeWorld (LotteryClientProtocol FakeWorld) :=
  fun w => (Ok (FakeClient closed_snapshot tx_0xabc), w).

(** * Part II: properties *)

(** ** [json.loads] undoes [json.dumps] on a dict of one string *)

Section json_roundtrip.

Import Json.
Local Open Scope N_scope.

Ltac Zify.zify_post_hook ::= Z.to_euclidean_division_equations.

Lemma hex_value_hex_digit d : d < 16 -> hex_value (hex_digit d) = Some d.
Proof.
  intros Hd. unfold hex_digit, hex_value.
  destruct (N.ltb_spec d 10).
  - replace ((48 <=? 48 + d) && (48 + d <=? 57)) with true
      by (symmetry; apply andb_true_intro; split; apply N.leb_le; lia).
    f_equal. lia.
  - replace ((48 <=? 87 + d) && (87 + d <=? 57)) with false
      by (symmetry; apply andb_false_intro2; apply N.leb_gt; lia).
    replace ((97 <=? 87 + d) && (87 + d <=? 102)) with true
      by (symmetry; apply andb_true_intro; split; apply N.leb_le; lia).
    f_equal. lia.
Qed.

Lemma nibble_lt m : N.land m 15 < 16.
Proof.
  change 15 with (N.ones 4). rewrite N.land_ones.
  apply N.mod_lt. discriminate.
Qed.

Lemma decode_hex4 n rest :
  n < 0x10000 -> decode_uXXXX (hex4 n ++ rest) = Some n.
Proof.
  intros Hn. unfold hex4, decode_uXXXX. cbn [app].
  rewrite !hex_value_hex_digit by apply nibble_lt. simpl.
  f_equal. change 15 with (N.ones 4).
  rewrite !N.land_ones, !N.shiftr_div_pow2.
  change (2 ^ 12) with 4096. change (2 ^ 8) with 256.
  change (2 ^ 4) with 16.
  lia.
Qed.

Lemma drop_hex4 n (rest : pystr) : drop 4 (hex4 n ++ rest) = rest.
Proof. reflexivity. Qed.

Lemma testbit_small b k m : b < 2 ^ k -> k <= m -> N.testbit b m = false.
Proof.
  intros Hb Hm. destruct (N.eq_dec b 0) as [->|Hne].
  - apply N.bits_0.
  - apply N.bits_above_log2. apply N.log2_lt_pow2; [lia|].
    eapply N.lt_le_trans; [exact Hb|]. apply N.pow_le_mono_r; lia.
Qed.

Lemma lor_disjoint x b k : b < 2 ^ k -> N.lor (x * 2 ^ k) b = x * 2 ^ k + b.
Proof.
  intros Hb. rewrite <- N.lxor_lor, <- N.add_nocarry_lxor; auto;
  apply N.bits_inj; intros m; rewrite N.land_spec, N.bits_0;
  (destruct (N.lt_ge_cases m k);
    [rewrite N.mul_pow2_bits_low by assumption; reflexivity
    |rewrite (testbit_small b k m) by assumption; apply Bool.andb_false_r]).
Qed.

Lemma high_half_eq c :
  0x10000 <= c < 0x110000 -> high_half c = 0xd800 + (c - 0x10000) / 1024.
Proof.
  intros Hc. unfold high_half.
  change 0x3ff with (N.ones 10). rewrite N.land_ones, N.shiftr_div_pow2.
  change (2 ^ 10) with 1024.
  rewrite N.mod_small by lia.
  change 0xd800 with (27 * 2 ^ 11). apply lor_disjoint.
  change (2 ^ 11) with 2048. lia.
Qed.

Lemma low_half_eq c :
  0x10000 <= c -> low_half c = 0xdc00 + (c - 0x10000) mod 1024.
Proof.
  intros Hc. unfold low_half.
  change 0x3ff with (N.ones 10). rewrite N.land_ones.
  change (2 ^ 10) with 1024.
  change 0xdc00 with (55 * 2 ^ 10). apply lor_disjoint.
  change (2 ^ 10) with 1024. lia.
Qed.

Lemma join_halves c :
  0x10000 <= c < 0x110000 -> join_surrogates (high_half c) (low_half c) = c.
Proof.
  intros Hc. unfold join_surrogates.
  rewrite high_half_eq, low_half_eq by lia.
  replace (0xd800 + (c - 0x10000) / 1024 - 0xd800) with ((c - 0x10000) / 1024) by lia.
  replace (0xdc00 + (c - 0x10000) mod 1024 - 0xdc00) with ((c - 0x10000) mod 1024) by lia.
  rewrite N.shiftl_mul_pow2, lor_disjoint.
  - change (2 ^ 10) with 1024. lia.
  - change (2 ^ 10) with 1024. lia.
Qed.


Lemma escape_char_kind c : escape_kind c (escape_char c).
Proof.
  unfold escape_char.
  destruct (N.eqb_spec c QUOTE) as [->|?]; [by apply (EK_short _ QUOTE)|].
  destruct (N.eqb_spec c BACKSLASH) as [->|?]; [by apply (EK_short _ BACKSLASH)|].
  destruct (N.eqb_spec c 8) as [->|?]; [by apply (EK_short _ 98)|].
  destruct (N.eqb_spec c 12) as [->|?]; [by apply (EK_short _ 102)|].
  destruct (N.eqb_spec c 10) as [->|?]; [by apply (EK_short _ 110)|].
  destruct (N.eqb_spec c 13) as [->|?]; [by apply (EK_short _ 114)|].
  destruct (N.eqb_spec c 9) as [->|?]; [by apply (EK_short _ 116)|].
  destruct (N.leb_spec 32 c); cbn [andb].
  - destruct (N.leb_spec c 126); cbn [andb].
    + apply EK_plain; [done| |]; by apply N.eqb_neq.
    + destruct (N.ltb_spec c 0x10000); [by apply EK_u | by apply EK_pair].
  - destruct (N.ltb_spec c 0x10000); [by apply EK_u | apply EK_pair; lia].
Qed.

Lemma high_half_is_high c :
  0x10000 <= c < 0x110000 ->
  high_half c < 0x10000 /\ is_high_surrogate (high_half c) = true
  /\ is_low_surrogate (high_half c) = false.
Proof.
  intros Hc. rewrite high_half_eq by done.
  unfold is_high_surrogate, is_low_surrogate.
  split; [lia|]. split.
  - apply andb_true_intro; split; apply N.leb_le; lia.
  - apply andb_false_intro1, N.leb_gt; lia.
Qed.

Lemma low_half_is_low c :
  0x10000 <= c ->
  low_half c < 0x10000 /\ is_low_surrogate (low_half c) = true.
Proof.
  intros Hc. rewrite low_half_eq by done. unfold is_low_surrogate.
  split; [lia|]. apply andb_true_intro; split; apply N.leb_le; lia.
Qed.

(** The equations of the decoder on the shapes the encoder writes. *)
Lemma low_surrogate_escape_u n t :
  low_surrogate_escape (u_escape n ++ t) =
    uni2 ← decode_uXXXX (hex4 n ++ t);
    Some (if is_low_surrogate uni2 then Some uni2 else None).
Proof. reflexivity. Qed.

Lemma low_surrogate_escape_other a t :
  (a =? BACKSLASH) = false -> low_surrogate_escape (a :: t) = Some None.
Proof. intros Ha. destruct t; [done|]. unfold low_surrogate_escape. by rewrite Ha. Qed.

Lemma low_surrogate_escape_short x t :
  (x =? LOWER_U) = false ->
  low_surrogate_escape (BACKSLASH :: x :: t) = Some None.
Proof.
  intros Hx. unfold low_surrogate_escape. rewrite Hx. by rewrite andb_false_r.
Qed.

Lemma scanstring_quote fuel rest :
  scanstring (S fuel) (QUOTE :: rest) = Some ([], rest).
Proof. reflexivity. Qed.

Lemma scanstring_plain fuel c t :
  32 <= c -> (c =? QUOTE) = false -> (c =? BACKSLASH) = false ->
  scanstring (S fuel) (c :: t) =
    '(str, rest) ← scanstring fuel t; Some (c :: str, rest).
Proof.
  intros H32 Hq Hb. cbn [scanstring]. rewrite Hq, Hb.
  by replace (c <? 32) with false by (symmetry; apply N.ltb_ge; lia).
Qed.

Lemma scanstring_short fuel x c t :
  unescape x = Some c -> (x =? LOWER_U) = false ->
  scanstring (S fuel) (BACKSLASH :: x :: t) =
    '(str, rest) ← scanstring fuel t; Some (c :: str, rest).
Proof.
  intros Hun Hx.
  change (scanstring (S fuel) (BACKSLASH :: x :: t)) with
    (if x =? LOWER_U then
       uni ← decode_uXXXX t;
       let s3 := drop 4 t in
       if is_high_surrogate uni then
         pairing ← low_surrogate_escape s3;
         match pairing with
         | Some uni2 =>
             '(str, rest) ← scanstring fuel (drop 6 s3);
             Some (join_surrogates uni uni2 :: str, rest)
         | None =>
             '(str, rest) ← scanstring fuel s3; Some (uni :: str, rest)
         end
       else '(str, rest) ← scanstring fuel s3; Some (uni :: str, rest)
     else
       char ← unescape x;
       '(str, rest) ← scanstring fuel t; Some (char :: str, rest)).
  by rewrite Hx, Hun.
Qed.

Lemma scanstring_u fuel n t :
  scanstring (S fuel) (u_escape n ++ t) =
    uni ← decode_uXXXX (hex4 n ++ t);
    if is_high_surrogate uni then
      pairing ← low_surrogate_escape t;
      match pairing with
      | Some uni2 =>
          '(str, rest) ← scanstring fuel (drop 6 t);
          Some (join_surrogates uni uni2 :: str, rest)
      | None =>
          '(str, rest) ← scanstring fuel t; Some (uni :: str, rest)
      end
    else '(str, rest) ← scanstring fuel t; Some (uni :: str, rest).
Proof. reflexivity. Qed.

Lemma drop_u_escape n (t : pystr) : drop 6 (u_escape n ++ t) = t.
Proof. reflexivity. Qed.

(** What the look-ahead of [scanstring] sees at the start of an escaped
    code point that is not a low surrogate: nothing to pair with. *)
Lemma lookahead_no_pairing c e t :
  escape_kind c e -> code_point c -> is_low_surrogate c = false ->
  low_surrogate_escape (e ++ t) = Some None.
Proof.
  intros Hk Hc Hlow. destruct Hk as [x _ Hx | H32 _ Hb | Hu | Hp].
  - by apply low_surrogate_escape_short.
  - by apply low_surrogate_escape_other.
  - rewrite low_surrogate_escape_u, decode_hex4 by done.
    cbn [mbind option_bind]. by rewrite Hlow.
  - destruct (high_half_is_high c) as (Hlt & _ & Hnl); [by split|].
    rewrite <- app_assoc, low_surrogate_escape_u, decode_hex4 by done.
    cbn [mbind option_bind]. by rewrite Hnl.
Qed.

Lemma scanstring_step c e t fuel :
  escape_kind c e -> code_point c ->
  (is_high_surrogate c = true -> low_surrogate_escape t = Some None) ->
  scanstring (S fuel) (e ++ t) =
    '(str, rest) ← scanstring fuel t; Some (c :: str, rest).
Proof.
  intros Hk Hc Hhigh. destruct Hk as [x Hun Hx | H32 Hq Hb | Hu | Hp].
  - by apply scanstring_short.
  - by apply scanstring_plain.
  - rewrite scanstring_u, decode_hex4 by done. cbn [mbind option_bind].
    destruct (is_high_surrogate c) eqn:Hh; [|done].
    by rewrite Hhigh.
  - destruct (high_half_is_high c) as (Hlt & Hh & _); [by split|].
    destruct (low_half_is_low c) as (Hlt' & Hl); [done|].
    rewrite <- app_assoc, scanstring_u, decode_hex4 by done.
    cbn [mbind option_bind]. rewrite Hh.
    rewrite low_surrogate_escape_u, decode_hex4 by done.
    cbn [mbind option_bind]. rewrite Hl, drop_u_escape.
    by rewrite join_halves.
Qed.

Lemma adjacent_surrogates_cons c c' s :
  adjacent_surrogates (c :: c' :: s) = false ->
  (is_high_surrogate c = true -> is_low_surrogate c' = false)
  /\ adjacent_surrogates (c' :: s) = false.
Proof.
  cbn [adjacent_surrogates]. intros H.
  apply orb_false_elim in H as [H1 H2]. split; [|done].
  intros Hh. by rewrite Hh in H1.
Qed.

Lemma scanstring_escaped s : forall fuel rest,
  wf_str s -> adjacent_surrogates s = false -> (length s < fuel)%nat ->
  scanstring fuel (flat_map escape_char s ++ QUOTE :: rest) = Some (s, rest).
Proof.
  induction s as [|c s IH]; intros fuel rest Hwf Hadj Hfuel.
  - destruct fuel; [simpl in Hfuel; lia|]. done.
  - destruct fuel as [|fuel]; [simpl in Hfuel; lia|].
    apply Forall_cons in Hwf as [Hc Hwf].
    cbn [flat_map]. rewrite <- app_assoc.
    rewrite (scanstring_step c); [| apply escape_char_kind | done |].
    + rewrite IH; [done | done | | simpl in Hfuel; lia].
      destruct s; [done|]. by apply adjacent_surrogates_cons in Hadj as [_ ?].
    + intros Hh. destruct s as [|c' s].
      * by apply low_surrogate_escape_other.
      * apply Forall_cons in Hwf as [Hc' _].
        apply adjacent_surrogates_cons in Hadj as [Hnl _].
        cbn [flat_map]. rewrite <- app_assoc.
        eapply lookahead_no_pairing; [apply escape_char_kind | done | auto].
Qed.


Lemma escape_char_nonempty c : (1 <= length (escape_char c))%nat.
Proof. destruct (escape_char_kind c); simpl; lia. Qed.

Lemma length_escaped s : (length s <= length (flat_map escape_char s))%nat.
Proof.
  induction s as [|c s IH]; [done|]. cbn [flat_map length].
  rewrite length_app. pose proof (escape_char_nonempty c). lia.
Qed.

(** The text [json.dumps] writes for a dict with one pair. *)
Lemma dumps_single k v :
  dumps [(k, v)] =
    123 :: QUOTE :: flat_map escape_char k ++
    QUOTE :: 58 :: 32 :: QUOTE :: flat_map escape_char v ++ [QUOTE; 125].
Proof.
  unfold dumps, encode_basestring_ascii. cbn [map join fst snd].
  change (py "{") with [123]. change (py "}") with [125].
  change (py ": ") with [58; 32].
  cbn [app]. rewrite <- !app_assoc. cbn [app].
  rewrite <- !app_assoc. reflexivity.
Qed.

(** Decoding an object with one pair whose key and value are string
    literals the string scanner accepts. *)
Lemma loads_single (K V k v : pystr) :
  (forall fuel rest, (length K < fuel)%nat ->
     scanstring fuel (K ++ QUOTE :: rest) = Some (k, rest)) ->
  (forall fuel rest, (length V < fuel)%nat ->
     scanstring fuel (V ++ QUOTE :: rest) = Some (v, rest)) ->
  loads (123 :: QUOTE :: K ++ QUOTE :: 58 :: 32 :: QUOTE :: V ++ [QUOTE; 125])
  = Some (VDict [(k, VStr v)]).
Proof.
  intros HK HV. unfold QUOTE in *.
  unfold loads. cbn [length skip_ws is_ws N.eqb Pos.eqb orb].
  cbn [scan_once N.eqb Pos.eqb skip_ws is_ws orb].
  cbn [members].
  rewrite HK by (rewrite length_app; simpl; lia).
  cbn [mbind option_bind skip_ws is_ws N.eqb Pos.eqb orb length].
  cbn [scan_once N.eqb Pos.eqb].
  rewrite HV by (rewrite length_app; simpl; lia).
  reflexivity.
Qed.

Lemma loads_dumps_single k v :
  wf_str k -> adjacent_surrogates k = false ->
  wf_str v -> adjacent_surrogates v = false ->
  loads (dumps [(k, v)]) = Some (VDict [(k, VStr v)]).
Proof.
  intros Hk Hk' Hv Hv'. rewrite dumps_single. apply loads_single.
  - intros fuel rest Hf. apply scanstring_escaped; [done..|].
    pose proof (length_escaped k). lia.
  - intros fuel rest Hf. apply scanstring_escaped; [done..|].
    pose proof (length_escaped v). lia.
Qed.

End json_roundtrip.

(** ** The state file: what [save_last_issue] writes and [load_last_issue] reads *)

Section state_store.

Import Json.
Local Open Scope N_scope.

Lemma hex_digit_printable d : d < 16 -> printable (hex_digit d).
Proof.
  intros Hd. unfold printable, hex_digit.
  destruct (N.ltb_spec d 10); lia.
Qed.

Lemma u_escape_printable n : Forall printable (u_escape n).
Proof.
  unfold u_escape, hex4, printable.
  repeat constructor; try (apply hex_digit_printable, nibble_lt);
    unfold BACKSLASH, LOWER_U; lia.
Qed.

Lemma escape_char_printable c : Forall printable (escape_char c).
Proof.
  assert (Hshort : forall x, 32 <= x <= 126 -> Forall printable [BACKSLASH; x]).
  { intros x Hx. repeat constructor; unfold printable, BACKSLASH; lia. }
  unfold escape_char.
  repeat match goal with
    | |- Forall _ (if c =? ?y then _ else _) =>
        destruct (N.eqb_spec c y); [apply Hshort; unfold QUOTE, BACKSLASH; lia|]
    end.
  destruct (N.leb_spec 32 c); cbn [andb];
    [destruct (N.leb_spec c 126); cbn [andb]|].
  - by repeat constructor.
  - destruct (c <? 0x10000);
      [|apply Forall_app; split]; apply u_escape_printable.
  - destruct (c <? 0x10000);
      [|apply Forall_app; split]; apply u_escape_printable.
Qed.

Lemma escaped_printable s : Forall printable (flat_map escape_char s).
Proof.
  induction s as [|c s IH]; [constructor|].
  cbn [flat_map]. apply Forall_app. split; [apply escape_char_printable | done].
Qed.

Lemma dumps_printable k v : Forall printable (dumps [(k, v)]).
Proof.
  rewrite dumps_single.
  repeat first
    [ apply escaped_printable
    | apply Forall_cons; split; [unfold printable, QUOTE; lia|]
    | apply Forall_app; split
    | apply Forall_nil_2 ].
Qed.

(** On printable ASCII, UTF-8 and the newline translation change nothing. *)
Lemma encode_printable t : Forall printable t -> Utf8.encode t = Some t.
Proof.
  induction 1 as [|c t Hc _ IH]; [done|].
  cbn [Utf8.encode]. unfold Utf8.encode_char.
  replace (c <? 0x80) with true by (symmetry; apply N.ltb_lt; unfold printable in Hc; lia).
  cbn [mbind option_bind]. by rewrite IH.
Qed.

Lemma decode_printable t : Forall printable t -> Utf8.decode t = Some t.
Proof.
  induction 1 as [|c t Hc _ IH]; [done|].
  cbn [Utf8.decode].
  replace (c <? 0x80) with true by (symmetry; apply N.ltb_lt; unfold printable in Hc; lia).
  by rewrite IH.
Qed.

Lemma universal_newlines_printable t :
  Forall printable t -> Utf8.universal_newlines t = t.
Proof.
  induction 1 as [|c t Hc _ IH]; [done|].
  cbn [Utf8.universal_newlines].
  replace (c =? 13) with false by (symmetry; apply N.eqb_neq; unfold printable in Hc; lia).
  by rewrite IH.
Qed.

(** The key of the state file's record. *)
Lemma key_well_formed :
  wf_str (py "last_issue_id") /\ adjacent_surrogates (py "last_issue_id") = false.
Proof. split; [|reflexivity]. repeat constructor. Qed.

(** A successful save leaves exactly the JSON text in the file. *)
Lemma save_writes store issue d d' :
  save_last_issue store issue d = (Ok (), d') ->
  files d' !! _path store
  = Some (dumps [(py "last_issue_id", issue)] : list N).
Proof.
  unfold save_last_issue, write_text. case_bool_decide; [done|].
  rewrite encode_printable by apply dumps_printable.
  destruct (faulty d !! _path store); [done|].
  intros [= <-]. cbn [files with_file]. apply lookup_insert_eq.
Qed.

(** Reading back a file that holds the record of a string [s]: what comes
    out is [s] as the decoder joins it. *)
Lemma load_of_record store issue d :
  wf_str issue -> adjacent_surrogates issue = false ->
  files d !! _path store
  = Some (dumps [(py "last_issue_id", issue)] : list N) ->
  load_last_issue store d = Ok (VStr issue).
Proof.
  intros Hwf Hadj Hfile. destruct key_well_formed as [Hk Hk'].
  unfold load_last_issue, exists_, read_text. rewrite Hfile.
  rewrite bool_decide_true by eauto. cbn [negb].
  rewrite decode_printable, universal_newlines_printable
    by apply dumps_printable.
  rewrite loads_dumps_single by done.
  cbn [py_get dict_get fst].
  rewrite bool_decide_false by (by intros ?%Exists_nil).
  by rewrite bool_decide_true.
Qed.

(** C8 (amended): for every issue-id string [issue] in which no high
    surrogate (U+D800..U+DBFF) is immediately followed by a low surrogate
    (U+DC00..U+DFFF), after [save_last_issue issue] succeeds on a state
    store, a fresh [OracleStateStore] on the same path loads exactly
    [issue]. *)
Theorem save_then_load_round_trip (store store' : OracleStateStore)
    (issue : pystr) (d d' : Disk) :
  wf_str issue ->
  adjacent_surrogates issue = false ->
  _path store' = _path store ->
  save_last_issue store issue d = (Ok (), d') ->
  load_last_issue store' d' = Ok (VStr issue).
Proof.
  intros Hwf Hadj Hpath Hsave. apply load_of_record; [done..|].
  rewrite Hpath. by eapply save_writes.
Qed.

Lemma save_then_load_round_trip_witness :
  let store := {| _path := "state.json" |} in
  let d' := (save_last_issue store (py "2025-002") empty_disk).2 in
  wf_str (py "2025-002")
  /\ adjacent_surrogates (py "2025-002") = false
  /\ save_last_issue store (py "2025-002") empty_disk = (Ok (), d')
  /\ load_last_issue {| _path := "state.json" |} d' = Ok (VStr (py "2025-002")).
Proof.
  assert (Hwf : wf_str (py "2025-002")) by repeat constructor.
  assert (Hsave :
    save_last_issue {| _path := "state.json" |} (py "2025-002") empty_disk
    = (Ok (),
       (save_last_issue {| _path := "state.json" |} (py "2025-002")
          empty_disk).2)) by (vm_compute; reflexivity).
  split; [exact Hwf|]. split; [reflexivity|]. split; [exact Hsave|].
  exact (save_then_load_round_trip {| _path := "state.json" |}
           {| _path := "state.json" |} (py "2025-002") empty_disk _
           Hwf eq_refl eq_refl Hsave).
Defined.

(** C8 as stated fails: the two code points U+D83D, U+DE00 are written as
    two [\uXXXX] escapes, which [json.loads] reads back as the single code
    point U+1F600. *)
Lemma save_then_load_surrogate_pair :
  let store := {| _path := "state.json" |} in
  let issue := [0xd83d; 0xde00] in
  let d' := (save_last_issue store issue empty_disk).2 in
  wf_str issue
  /\ (save_last_issue store issue empty_disk).1 = Ok ()
  /\ load_last_issue {| _path := "state.json" |} d' = Ok (VStr [0x1f600])
  /\ load_last_issue {| _path := "state.json" |} d' <> Ok (VStr issue).
Proof.
  split; [repeat constructor|].
  split; [vm_compute; reflexivity|]. split; [vm_compute; reflexivity|].
  vm_compute. discriminate.
Qed.

(** C7 fails on the code: [load_last_issue] catches [JSONDecodeError] only.
    A state file holding valid JSON that is not an object ([42], [[]], a
    string) makes [data.get] raise [AttributeError], and one that is not
    UTF-8 makes [read_text] raise [UnicodeDecodeError]; a missing file and
    a file that is not JSON do load as [None]. *)
Theorem load_last_issue_raises_on_non_object :
  let store := {| _path := "state.json" |} in
  let holding (bytes : list N) :=
    {| files := {["state.json" := bytes]}; locked := ∅; faulty := ∅ |} in
  load_last_issue store (holding (py "42")) = Raise AttributeError
  /\ load_last_issue store (holding (py "[]")) = Raise AttributeError
  /\ load_last_issue store (holding [34; 120; 34]) = Raise AttributeError
  /\ load_last_issue store (holding [0xff]) = Raise UnicodeDecodeError
  /\ load_last_issue store (holding (py "{oops")) = Ok VNone
  /\ load_last_issue store empty_disk = Ok VNone.
Proof. repeat split; vm_compute; reflexivity. Qed.

End state_store.

(** ** Canonical numbers: Python's [sorted] *)

Section canonical_numbers.

Lemma sorted_Sorted l : Sorted Z.le (sorted l).
Proof. apply (Sorted_merge_sort Z.le). Qed.

Lemma sorted_Permutation l : sorted l ≡ₚ l.
Proof. apply merge_sort_Permutation. Qed.

Lemma sorted_length l : length (sorted l) = length l.
Proof. apply Permutation_length, sorted_Permutation. Qed.

(** The result depends on the numbers only, not on their order. *)
Lemma sorted_order_independent l1 l2 : l1 ≡ₚ l2 -> sorted l1 = sorted l2.
Proof.
  intros Hp. apply (Sorted_unique Z.le); try apply sorted_Sorted.
  by rewrite !sorted_Permutation.
Qed.

End canonical_numbers.

(** ** One cycle of the scheduler, branch by branch *)

Section cycle.
Context {Ext : Type}.
Implicit Types (self : OracleScheduler Ext) (st : State Ext) (x : Ext).

Ltac unfold_cycle :=
  unfold _attempt_submission, await, logger, emit, on_ext, on_disk,
    get_last_issue_id, set_last_issue_id, mbind, mret,
    M_MBind, M_MRet, M_bind, M_ret;
  cbn [_last_issue_id disk ext trace fst snd].

Lemma cycle_fetch_fails self st e x1 :
  fetch_latest (_datasource self) (ext st) = (Raise e, x1) ->
  _attempt_submission self st = (Raise e, untouched st x1 [Called_fetch_latest]).
Proof. intros Hf. unfold_cycle. by rewrite Hf. Qed.

Lemma cycle_duplicate self st draw x1 :
  fetch_latest (_datasource self) (ext st) = (Ok draw, x1) ->
  py_eq_str (_last_issue_id st) (issue_id draw) = true ->
  _attempt_submission self st =
    (Ok None,
     untouched st x1
       [Called_fetch_latest; Log (Debug_already_submitted (issue_id draw))]).
Proof.
  intros Hf Hdup. unfold_cycle. rewrite Hf. cbn [_last_issue_id]. rewrite Hdup.
  unfold untouched. cbn. by rewrite <- app_assoc.
Qed.

Lemma cycle_read_fails self st draw x1 e x2 :
  fetch_latest (_datasource self) (ext st) = (Ok draw, x1) ->
  py_eq_str (_last_issue_id st) (issue_id draw) = false ->
  get_current_period (_client self) x1 = (Raise e, x2) ->
  _attempt_submission self st =
    (Raise e, untouched st x2 [Called_fetch_latest; Called_get_current_period]).
Proof.
  intros Hf Hdup Hg. unfold_cycle. rewrite Hf. cbn. rewrite Hdup. cbn. rewrite Hg.
  unfold untouched. cbn. by rewrite <- app_assoc.
Qed.

Lemma cycle_not_ready self st draw x1 snap x2 :
  fetch_latest (_datasource self) (ext st) = (Ok draw, x1) ->
  py_eq_str (_last_issue_id st) (issue_id draw) = false ->
  get_current_period (_client self) x1 = (Ok snap, x2) ->
  status snap <> CLOSED ->
  _attempt_submission self st =
    (Ok None,
     untouched st x2
       [Called_fetch_latest; Called_get_current_period;
        Log (Info_not_closed (period_id snap) (status snap))]).
Proof.
  intros Hf Hdup Hg Hs. unfold_cycle. rewrite Hf. cbn. rewrite Hdup. cbn. rewrite Hg.
  rewrite bool_decide_false by done. cbn.
  unfold untouched. cbn. by rewrite <- !app_assoc.
Qed.

Lemma cycle_already_set self st draw x1 snap x2 :
  fetch_latest (_datasource self) (ext st) = (Ok draw, x1) ->
  py_eq_str (_last_issue_id st) (issue_id draw) = false ->
  get_current_period (_client self) x1 = (Ok snap, x2) ->
  status snap = CLOSED -> result_set snap = true ->
  _attempt_submission self st =
    (Ok None,
     untouched st x2
       [Called_fetch_latest; Called_get_current_period;
        Log (Info_already_set (period_id snap))]).
Proof.
  intros Hf Hdup Hg Hs Hr. unfold_cycle. rewrite Hf. cbn. rewrite Hdup. cbn. rewrite Hg.
  rewrite bool_decide_true by done. cbn. rewrite Hr.
  unfold untouched. cbn. by rewrite <- !app_assoc.
Qed.

Lemma cycle_submit self st draw x1 snap x2 :
  fetch_latest (_datasource self) (ext st) = (Ok draw, x1) ->
  py_eq_str (_last_issue_id st) (issue_id draw) = false ->
  get_current_period (_client self) x1 = (Ok snap, x2) ->
  status snap = CLOSED -> result_set snap = false ->
  _attempt_submission self st =
    match submit_result (_client self) (period_id snap) (sorted_numbers draw) x2 with
    | (Raise e, x3) => (Raise e, untouched st x3 (submit_events draw snap))
    | (Ok tx, x3) =>
        let tr := trace st ++ submit_events draw snap ++ [Log (Info_broadcast tx)] in
        match save_last_issue (_state self) (issue_id draw) (disk st) with
        | (Ok _, d) =>
            (Ok (Some {| result_period_id := period_id snap;
                         result_issue_id := issue_id draw;
                         tx_hash := tx |}),
             {| _last_issue_id := VStr (issue_id draw); disk := d;
                ext := x3; trace := tr |})
        | (Raise e, d) =>
            (Raise e,
             {| _last_issue_id := VStr (issue_id draw); disk := d;
                ext := x3; trace := tr |})
        end
    end.
Proof.
  intros Hf Hdup Hg Hs Hr. unfold_cycle. rewrite Hf. cbn. rewrite Hdup. cbn. rewrite Hg.
  rewrite bool_decide_true by done. cbn. rewrite Hr.
  destruct (submit_result _ _ _ _) as [[tx|e] x3]; cbn.
  - destruct (save_last_issue _ _ _) as [[[]|e] d]; cbn;
      unfold submit_events; by rewrite <- !app_assoc.
  - unfold untouched, submit_events. cbn. by rewrite <- !app_assoc.
Qed.


(** The events a cycle added, when its final trace is known. *)
Lemma cycle_events_of self st r st' evs :
  _attempt_submission self st = (r, st') ->
  trace st' = trace st ++ evs ->
  cycle_events self st = evs.
Proof.
  intros Hrun Htr. unfold cycle_events. rewrite Hrun. cbn [snd].
  rewrite Htr. apply drop_app_length.
Qed.

Lemma cycle_events_untouched self st r x evs :
  _attempt_submission self st = (r, untouched st x evs) ->
  cycle_events self st = evs.
Proof. intros Hrun. by eapply cycle_events_of. Qed.

(** On the submit branch the cycle's events are [submit_events], followed
    by the broadcast record exactly when the chain writer returned. *)
Lemma cycle_events_submit self st draw x1 snap x2 :
  fetch_latest (_datasource self) (ext st) = (Ok draw, x1) ->
  py_eq_str (_last_issue_id st) (issue_id draw) = false ->
  get_current_period (_client self) x1 = (Ok snap, x2) ->
  status snap = CLOSED -> result_set snap = false ->
  exists tail,
    cycle_events self st = submit_events draw snap ++ tail
    /\ (tail = [] \/ exists tx, tail = [Log (Info_broadcast tx)]).
Proof.
  intros Hf Hdup Hg Hs Hr.
  pose proof (cycle_submit self st draw x1 snap x2 Hf Hdup Hg Hs Hr) as Hrun.
  destruct (submit_result _ _ _ _) as [[tx|e] x3].
  - exists [Log (Info_broadcast tx)]. split; [|eauto].
    destruct (save_last_issue _ _ _) as [[[]|e] d];
      by eapply cycle_events_of.
  - exists []. split; [|by left].
    eapply cycle_events_of; [done|]. by rewrite app_nil_r.
Qed.

(** Every cycle takes one of these paths. *)
Lemma cycle_total self st :
  (exists e x1, fetch_latest (_datasource self) (ext st) = (Raise e, x1))
  \/ (exists draw x1,
        fetch_latest (_datasource self) (ext st) = (Ok draw, x1)
        /\ (py_eq_str (_last_issue_id st) (issue_id draw) = true
            \/ py_eq_str (_last_issue_id st) (issue_id draw) = false
               /\ ((exists e x2,
                      get_current_period (_client self) x1 = (Raise e, x2))
                   \/ exists snap x2,
                        get_current_period (_client self) x1 = (Ok snap, x2)
                        /\ (status snap <> CLOSED
                            \/ status snap = CLOSED /\ result_set snap = true
                            \/ status snap = CLOSED
                               /\ result_set snap = false)))).
Proof.
  destruct (fetch_latest _ _) as [[draw|e] x1] eqn:Hf; [right|left; eauto].
  exists draw, x1. split; [done|].
  destruct (py_eq_str _ _); [by left|right]. split; [done|].
  destruct (get_current_period _ _) as [[snap|e] x2] eqn:Hg; [right|left; eauto].
  exists snap, x2. split; [done|].
  destruct (decide (status snap = CLOSED)); [|by left].
  destruct (result_set snap); auto.
Qed.

(** C2: whenever the stored [_last_issue_id] is the [str] the fetched
    result carries as [issue_id], the cycle's decision is Skip-Duplicate: it
    returns [None] and does nothing but fetch and log, whatever the chain
    client (and so whatever snapshot it would have returned). *)
Theorem duplicate_issue_is_skipped self st draw x1 :
  fetch_latest (_datasource self) (ext st) = (Ok draw, x1) ->
  _last_issue_id st = VStr (issue_id draw) ->
  _attempt_submission self st =
    (Ok None,
     untouched st x1
       [Called_fetch_latest; Log (Debug_already_submitted (issue_id draw))])
  /\ cycle_decision self st = Some Skip_Duplicate.
Proof.
  intros Hf Hlast.
  assert (Hdup : py_eq_str (_last_issue_id st) (issue_id draw) = true).
  { rewrite Hlast. cbn. by apply bool_decide_eq_true. }
  pose proof (cycle_duplicate self st draw x1 Hf Hdup) as Hrun.
  split; [done|]. unfold cycle_decision.
  by rewrite (cycle_events_untouched _ _ _ _ _ Hrun).
Qed.

(** C3: when the fetched result is not a duplicate and the snapshot was
    read, the decision follows the snapshot: not [CLOSED] gives
    Skip-NotReady, [CLOSED] with [result_set] gives Skip-AlreadySet, both
    without a call to the chain writer; [CLOSED] without [result_set] gives
    Submit, and the chain writer is called with the snapshot's [period_id]
    and the ascending-sorted numbers: the numbers logged and handed over
    are in non-decreasing order and a permutation of the feed's. *)
Theorem decision_follows_snapshot self st draw x1 snap x2 :
  fetch_latest (_datasource self) (ext st) = (Ok draw, x1) ->
  py_eq_str (_last_issue_id st) (issue_id draw) = false ->
  get_current_period (_client self) x1 = (Ok snap, x2) ->
  (status snap <> CLOSED ->
     cycle_decision self st = Some Skip_NotReady
     /\ _attempt_submission self st =
          (Ok None,
           untouched st x2
             [Called_fetch_latest; Called_get_current_period;
              Log (Info_not_closed (period_id snap) (status snap))]))
  /\ (status snap = CLOSED -> result_set snap = true ->
     cycle_decision self st = Some Skip_AlreadySet
     /\ _attempt_submission self st =
          (Ok None,
           untouched st x2
             [Called_fetch_latest; Called_get_current_period;
              Log (Info_already_set (period_id snap))]))
  /\ (status snap = CLOSED -> result_set snap = false ->
     cycle_decision self st
       = Some (Submit (period_id snap) (sorted (numbers draw)))
     /\ (exists tail,
          cycle_events self st =
            [Called_fetch_latest; Called_get_current_period;
             Log (Info_submitting (period_id snap) (issue_id draw)
                                  (sorted (numbers draw)));
             Called_submit_result (period_id snap) (sorted (numbers draw))]
            ++ tail)
     /\ ext (_attempt_submission self st).2 =
          (submit_result (_client self) (period_id snap)
                         (sorted (numbers draw)) x2).2
     /\ Sorted Z.le (sorted (numbers draw))
     /\ sorted (numbers draw) ≡ₚ numbers draw).
Proof.
  intros Hf Hdup Hg. repeat split.
  - unfold cycle_decision.
    by erewrite cycle_events_untouched by by eapply cycle_not_ready.
  - by eapply cycle_not_ready.
  - unfold cycle_decision.
    by erewrite cycle_events_untouched by by eapply cycle_already_set.
  - by eapply cycle_already_set.
  - destruct (cycle_events_submit self st draw x1 snap x2) as (tail & Hev & _);
      [done..|].
    unfold cycle_decision. by rewrite Hev.
  - destruct (cycle_events_submit self st draw x1 snap x2) as (tail & Hev & _);
      [done..|].
    by exists tail.
  - rewrite (cycle_submit self st draw x1 snap x2) by done.
    unfold sorted_numbers.
    destruct (submit_result _ _ _ _) as [[tx|e] x3]; [|done].
    by destruct (save_last_issue _ _ _) as [[[]|e] d].
  - unfold sorted. apply (Sorted_merge_sort Z.le).
  - unfold sorted. apply merge_sort_Permutation.
Qed.

(** C4: in a cycle whose fetched [issue_id] equals the in-memory
    [_last_issue_id], neither [get_current_period] nor [submit_result] is
    called: the cycle's events hold no call to the chain, the world is left
    as the feed left it, and the cycle is the same whatever the client. *)
Theorem duplicate_check_precedes_chain_access self st draw x1 :
  fetch_latest (_datasource self) (ext st) = (Ok draw, x1) ->
  py_eq_str (_last_issue_id st) (issue_id draw) = true ->
  Forall (fun e => chain_access e = false) (cycle_events self st)
  /\ ext (_attempt_submission self st).2 = x1
  /\ forall client',
       _attempt_submission
         {| _settings := _settings self; _datasource := _datasource self;
            _client := client'; _state := _state self |} st
       = _attempt_submission self st.
Proof.
  intros Hf Hdup.
  pose proof (cycle_duplicate self st draw x1 Hf Hdup) as Hrun.
  split; [|split].
  - erewrite cycle_events_untouched by done. by repeat constructor.
  - by rewrite Hrun.
  - intros client'. rewrite Hrun. by apply cycle_duplicate.
Qed.


(** C6: [_last_issue_id] and the state file change only after the chain
    writer has returned: when the fetch, the snapshot read or the chain
    write raises, the cycle raises the same exception and leaves both as
    they were; and whenever a cycle changes either, the chain writer was
    called in that cycle and returned a transaction hash. *)
Theorem state_changes_only_after_chain_write self st :
  let r := (_attempt_submission self st).1 in
  let st' := (_attempt_submission self st).2 in
  (forall e x1,
     fetch_latest (_datasource self) (ext st) = (Raise e, x1) ->
     r = Raise e /\ _last_issue_id st' = _last_issue_id st
     /\ disk st' = disk st)
  /\ (forall draw x1 e x2,
     fetch_latest (_datasource self) (ext st) = (Ok draw, x1) ->
     py_eq_str (_last_issue_id st) (issue_id draw) = false ->
     get_current_period (_client self) x1 = (Raise e, x2) ->
     r = Raise e /\ _last_issue_id st' = _last_issue_id st
     /\ disk st' = disk st)
  /\ (forall draw x1 snap x2 e x3,
     fetch_latest (_datasource self) (ext st) = (Ok draw, x1) ->
     py_eq_str (_last_issue_id st) (issue_id draw) = false ->
     get_current_period (_client self) x1 = (Ok snap, x2) ->
     status snap = CLOSED -> result_set snap = false ->
     submit_result (_client self) (period_id snap) (sorted (numbers draw)) x2
       = (Raise e, x3) ->
     r = Raise e /\ _last_issue_id st' = _last_issue_id st
     /\ disk st' = disk st)
  /\ (_last_issue_id st' <> _last_issue_id st \/ disk st' <> disk st ->
     exists draw x1 snap x2 tx x3,
       fetch_latest (_datasource self) (ext st) = (Ok draw, x1)
       /\ get_current_period (_client self) x1 = (Ok snap, x2)
       /\ submit_result (_client self) (period_id snap)
            (sorted (numbers draw)) x2 = (Ok tx, x3)
       /\ Called_submit_result (period_id snap) (sorted (numbers draw))
          ∈ cycle_events self st).
Proof.
  cbn zeta. split; [|split; [|split]].
  - intros e x1 Hf. by rewrite (cycle_fetch_fails self st e x1 Hf).
  - intros draw x1 e x2 Hf Hdup Hg.
    by rewrite (cycle_read_fails self st draw x1 e x2 Hf Hdup Hg).
  - intros draw x1 snap x2 e x3 Hf Hdup Hg Hs Hr Hsub.
    rewrite (cycle_submit self st draw x1 snap x2 Hf Hdup Hg Hs Hr).
    unfold sorted_numbers. by rewrite Hsub.
  - intros Hchanged.
    destruct (cycle_total self st)
      as [(e & x1 & Hf)
         |(draw & x1 & Hf & [Hdup|[Hdup [(e & x2 & Hg)|(snap & x2 & Hg & Hcase)]]])].
    + rewrite (cycle_fetch_fails self st e x1 Hf) in Hchanged.
      by destruct Hchanged.
    + rewrite (cycle_duplicate self st draw x1 Hf Hdup) in Hchanged.
      by destruct Hchanged.
    + rewrite (cycle_read_fails self st draw x1 e x2 Hf Hdup Hg) in Hchanged.
      by destruct Hchanged.
    + destruct Hcase as [Hs|[[Hs Hr]|[Hs Hr]]].
      * rewrite (cycle_not_ready self st draw x1 snap x2 Hf Hdup Hg Hs)
          in Hchanged.
        by destruct Hchanged.
      * rewrite (cycle_already_set self st draw x1 snap x2 Hf Hdup Hg Hs Hr)
          in Hchanged.
        by destruct Hchanged.
      * rewrite (cycle_submit self st draw x1 snap x2 Hf Hdup Hg Hs Hr)
          in Hchanged.
        unfold sorted_numbers in Hchanged.
        destruct (submit_result _ _ _ _) as [[tx|e] x3] eqn:Hsub;
          [|by destruct Hchanged].
        exists draw, x1, snap, x2, tx, x3. repeat split; [done..|].
        destruct (cycle_events_submit self st draw x1 snap x2)
          as (tail & -> & _); [done..|].
        apply elem_of_app. left. by repeat constructor.
Qed.


(** [run_once] is the cycle followed by [close], whose exception, if any,
    replaces the cycle's outcome. *)
Lemma run_once_unfold self st :
  run_once self st =
    let '(r, st1) := _attempt_submission self st in
    let '(c, x) := close (_datasource self) (ext st1) in
    (match c with Ok _ => r | Raise e' => Raise e' end,
     untouched st1 x [Called_close]).
Proof.
  unfold run_once. destruct (_attempt_submission self st) as [r st1].
  unfold await, emit, on_ext, mbind, M_MBind, M_bind, untouched.
  cbn [_last_issue_id disk ext trace fst snd].
  by destruct (close _ _) as [[[]|e'] x].
Qed.

(** C9 (amended): when the chain write succeeds and the save that follows
    raises, the cycle raises the save's exception instead of returning the
    submitted outcome: [run_once] raises too (after closing the feed) and
    returns no transaction hash, and [run_forever] logs the exception and
    goes on to sleep. The submission is not rolled back: the world is the
    one the chain writer left, and [_last_issue_id] already holds the new
    issue id; the disk is the one the failed save left. *)
Theorem save_failure_propagates self st draw x1 snap x2 tx x3 e d :
  fetch_latest (_datasource self) (ext st) = (Ok draw, x1) ->
  py_eq_str (_last_issue_id st) (issue_id draw) = false ->
  get_current_period (_client self) x1 = (Ok snap, x2) ->
  status snap = CLOSED -> result_set snap = false ->
  submit_result (_client self) (period_id snap) (sorted (numbers draw)) x2
    = (Ok tx, x3) ->
  save_last_issue (_state self) (issue_id draw) (disk st) = (Raise e, d) ->
  let st' :=
    {| _last_issue_id := VStr (issue_id draw); disk := d; ext := x3;
       trace := trace st ++ submit_events draw snap
                ++ [Log (Info_broadcast tx)] |} in
  _attempt_submission self st = (Raise e, st')
  /\ (forall outcome, (run_once self st).1 <> Ok outcome)
  /\ run_once self st =
       (match (close (_datasource self) x3).1 with
        | Ok _ => Raise e
        | Raise e' => Raise e'
        end,
        untouched st' (close (_datasource self) x3).2 [Called_close])
  /\ run_forever_loop 1 self st =
       (Looping,
        untouched st' x3
          [Log (Exception_iteration_failed e);
           Sleep (poll_interval_seconds (_settings self))]).
Proof.
  intros Hf Hdup Hg Hs Hr Hsub Hsave st'.
  assert (Hrun : _attempt_submission self st = (Raise e, st')).
  { rewrite (cycle_submit self st draw x1 snap x2 Hf Hdup Hg Hs Hr).
    unfold sorted_numbers. by rewrite Hsub, Hsave. }
  split; [done|].
  assert (Honce : run_once self st =
       (match (close (_datasource self) x3).1 with
        | Ok _ => Raise e
        | Raise e' => Raise e'
        end,
        untouched st' (close (_datasource self) x3).2 [Called_close])).
  { rewrite run_once_unfold, Hrun. cbn [ext st'].
    by destruct (close _ _) as [[[]|e'] x]. }
  repeat split.
  - intros outcome. rewrite Honce. cbn [fst].
    by destruct (close _ _) as [[[]|e'] x].
  - done.
  - cbn [run_forever_loop]. rewrite Hrun.
    unfold logger, emit, mbind, M_MBind, M_bind, untouched.
    cbn [_last_issue_id disk ext trace fst snd st']. by rewrite <- !app_assoc.
Qed.

(** C10: the production client's [submit_result] raises [ValueError] for
    every sequence that does not have exactly 6 numbers, and sends nothing:
    the world is left as it was, whatever web3 would have done. The
    scheduler checks no length, so on a Submit decision such a result
    reaches the client and the cycle ends in that [ValueError], with
    [_last_issue_id] and the disk as they were. *)
Theorem production_client_rejects_wrong_count (web3 : Web3 Ext) :
  (forall period nums x,
     length nums <> 6%nat ->
     LotteryClient_submit_result web3 period nums x =
       (Raise (ValueError "submit_result expects exactly 6 numbers"), x))
  /\ (forall self st draw x1 snap x2,
     _client self = LotteryClient web3 ->
     fetch_latest (_datasource self) (ext st) = (Ok draw, x1) ->
     py_eq_str (_last_issue_id st) (issue_id draw) = false ->
     get_current_period (_client self) x1 = (Ok snap, x2) ->
     status snap = CLOSED -> result_set snap = false ->
     length (numbers draw) <> 6%nat ->
     _attempt_submission self st =
       (Raise (ValueError "submit_result expects exactly 6 numbers"),
        untouched st x2 (submit_events draw snap))).
Proof.
  assert (Hreject : forall period nums x,
     length nums <> 6%nat ->
     LotteryClient_submit_result web3 period nums x =
       (Raise (ValueError "submit_result expects exactly 6 numbers"), x)).
  { intros period nums x Hlen. unfold LotteryClient_submit_result.
    rewrite sorted_length.
    by replace (length nums =? 6)%nat with false
      by (symmetry; by apply Nat.eqb_neq). }
  split; [done|].
  intros self st draw x1 snap x2 Hclient Hf Hdup Hg Hs Hr Hlen.
  rewrite (cycle_submit self st draw x1 snap x2 Hf Hdup Hg Hs Hr).
  rewrite Hclient. cbn [submit_result LotteryClient].
  rewrite Hreject; [done|]. unfold sorted_numbers. by rewrite sorted_length.
Qed.

(** ** The loop of [run_forever] *)

(** A cycle returns [None] exactly when its decision is a Skip. *)
Lemma skip_iff_returns_None self st :
  is_skip (cycle_decision self st) = true
  <-> (_attempt_submission self st).1 = Ok None.
Proof.
  unfold cycle_decision.
  destruct (cycle_total self st)
    as [(e & x1 & Hf)
       |(draw & x1 & Hf & [Hdup|[Hdup [(e & x2 & Hg)|(snap & x2 & Hg & Hcase)]]])].
  - pose proof (cycle_fetch_fails self st e x1 Hf) as Hrun.
    rewrite (cycle_events_untouched _ _ _ _ _ Hrun), Hrun. by cbn.
  - pose proof (cycle_duplicate self st draw x1 Hf Hdup) as Hrun.
    rewrite (cycle_events_untouched _ _ _ _ _ Hrun), Hrun. by cbn.
  - pose proof (cycle_read_fails self st draw x1 e x2 Hf Hdup Hg) as Hrun.
    rewrite (cycle_events_untouched _ _ _ _ _ Hrun), Hrun. by cbn.
  - destruct Hcase as [Hs|[[Hs Hr]|[Hs Hr]]].
    + pose proof (cycle_not_ready self st draw x1 snap x2 Hf Hdup Hg Hs) as Hrun.
      rewrite (cycle_events_untouched _ _ _ _ _ Hrun), Hrun. by cbn.
    + pose proof (cycle_already_set self st draw x1 snap x2 Hf Hdup Hg Hs Hr)
        as Hrun.
      rewrite (cycle_events_untouched _ _ _ _ _ Hrun), Hrun. by cbn.
    + destruct (cycle_events_submit self st draw x1 snap x2)
        as (tail & -> & _); [done..|].
      rewrite (cycle_submit self st draw x1 snap x2 Hf Hdup Hg Hs Hr).
      cbn. destruct (submit_result _ _ _ _) as [[tx|e] x3]; [|done].
      by destruct (save_last_issue _ _ _) as [[[]|e] d].
Qed.

(** One more cycle is run from where the loop stands, if it still stands. *)
Lemma run_forever_loop_S k self : forall st,
  run_forever_loop (S k) self st =
    match run_forever_loop k self st with
    | (Returned, st') => (Returned, st')
    | (Looping, st') => run_forever_loop 1 self st'
    end.
Proof.
  induction k as [|k IH]; intros st; [done|].
  cbn [run_forever_loop] in *.
  destruct (_attempt_submission self st) as [[sc|e] st1].
  - destruct (negb (truthy sc) && submit_only_once (_settings self)); [done|].
    apply IH.
  - apply IH.
Qed.

(** With [submit_only_once] set, [run_forever] returns exactly after the
    first cycle whose decision is a Skip of any kind (Skip-Duplicate,
    Skip-NotReady or Skip-AlreadySet): if the loop is still running after
    [k] cycles, it returns in cycle [k + 1] if and only if that cycle's
    decision is a Skip. After a cycle that decided Submit, or that raised
    before deciding, it sleeps and goes on. *)
Lemma run_forever_returns_on_first_skip self st k :
  submit_only_once (_settings self) = true ->
  (run_forever k self st).1 = Looping ->
  ((run_forever (S k) self st).1 = Returned
   <-> is_skip (cycle_decision self (run_forever k self st).2) = true).
Proof.
  unfold run_forever. intros Honce Hlooping. rewrite run_forever_loop_S.
  destruct (run_forever_loop k self _) as [[] stk]; [done|].
  cbn [snd]. rewrite skip_iff_returns_None.
  cbn [run_forever_loop]. rewrite Honce.
  destruct (_attempt_submission self stk) as [[[sr|]|e] st1]; cbn; split; done.
Qed.

(** A cycle that returns a [SchedulerResult] has called the chain writer
    for the period of that result; a cycle that returns [None] has not
    called it at all. *)
Lemma cycle_result_and_chain_write self st r st1 :
  _attempt_submission self st = (r, st1) ->
  match r with
  | Ok (Some res) =>
      exists nums,
        Called_submit_result (result_period_id res) nums ∈ cycle_events self st
  | Ok None =>
      Forall (fun e => is_chain_write e = false) (cycle_events self st)
  | Raise _ => True
  end.
Proof.
  intros Hrun.
  destruct (cycle_total self st)
    as [(e & x1 & Hf)
       |(draw & x1 & Hf & [Hdup|[Hdup [(e & x2 & Hg)|(snap & x2 & Hg & Hcase)]]])].
  - rewrite (cycle_fetch_fails self st e x1 Hf) in Hrun. by injection Hrun as <- _.
  - pose proof (cycle_duplicate self st draw x1 Hf Hdup) as Hrun'.
    rewrite (cycle_events_untouched _ _ _ _ _ Hrun').
    rewrite Hrun' in Hrun. injection Hrun as <- _. by repeat constructor.
  - rewrite (cycle_read_fails self st draw x1 e x2 Hf Hdup Hg) in Hrun.
    by injection Hrun as <- _.
  - destruct Hcase as [Hs|[[Hs Hr]|[Hs Hr]]].
    + pose proof (cycle_not_ready self st draw x1 snap x2 Hf Hdup Hg Hs) as Hrun'.
      rewrite (cycle_events_untouched _ _ _ _ _ Hrun').
      rewrite Hrun' in Hrun. injection Hrun as <- _. by repeat constructor.
    + pose proof (cycle_already_set self st draw x1 snap x2 Hf Hdup Hg Hs Hr)
        as Hrun'.
      rewrite (cycle_events_untouched _ _ _ _ _ Hrun').
      rewrite Hrun' in Hrun. injection Hrun as <- _. by repeat constructor.
    + destruct (cycle_events_submit self st draw x1 snap x2)
        as (tail & -> & _); [done..|].
      rewrite (cycle_submit self st draw x1 snap x2 Hf Hdup Hg Hs Hr) in Hrun.
      destruct (submit_result _ _ _ _) as [[tx|e] x3];
        [|by injection Hrun as <- _].
      destruct (save_last_issue _ _ _) as [[[]|e] d];
        [|by injection Hrun as <- _].
      injection Hrun as <- _. cbn [result_period_id].
      exists (sorted_numbers draw). apply elem_of_app. left.
      unfold submit_events. by repeat constructor.
Qed.

(** C1 (fails on the code): with [submit_only_once] set, the loop of
    [run_forever] does not stop after a submission. A cycle that returns a
    [SchedulerResult], and so has called the chain writer, is followed by
    the sleep and by the next cycle, which is free to submit again; the
    loop returns only after a cycle that returned [None], one that made no
    call to the chain writer. The claim has the loop exit after a Submit
    and go on after a Skip-Duplicate; the code does the opposite in both
    cases. *)
Theorem submit_only_once_loop_outlives_a_submission self st k :
  submit_only_once (_settings self) = true ->
  let interval := poll_interval_seconds (_settings self) in
  (forall res st1,
     _attempt_submission self st = (Ok (Some res), st1) ->
     (exists nums,
        Called_submit_result (result_period_id res) nums
        ∈ cycle_events self st)
     /\ run_forever_loop (S k) self st
        = run_forever_loop k self (emit Ext (Sleep interval) st1).2)
  /\ (forall st1,
     _attempt_submission self st = (Ok None, st1) ->
     Forall (fun e => is_chain_write e = false) (cycle_events self st)
     /\ is_skip (cycle_decision self st) = true
     /\ run_forever_loop (S k) self st
        = (Returned, (logger Ext Info_exiting_loop st1).2)).
Proof.
  intros Honce interval. split.
  - intros res st1 Hrun. split.
    + exact (cycle_result_and_chain_write self st _ _ Hrun).
    + cbn [run_forever_loop]. by rewrite Hrun, Honce.
  - intros st1 Hrun. split; [|split].
    + exact (cycle_result_and_chain_write self st _ _ Hrun).
    + apply skip_iff_returns_None. by rewrite Hrun.
    + cbn [run_forever_loop]. by rewrite Hrun, Honce.
Qed.

End cycle.

(** ** The scenarios of the tests and of the spec *)

Section scenarios.

(** Scenario C, second cycle: the issue was already submitted. *)
Lemma duplicate_issue_is_skipped_witness :
  let self := scheduler_on feed_2025_002 (FakeClient closed_snapshot tx_0xabc) in
  _attempt_submission self submitted_state =
    (Ok None,
     untouched submitted_state world_after_fetch
       [Called_fetch_latest; Log (Debug_already_submitted (py "2025-002"))])
  /\ cycle_decision self submitted_state = Some Skip_Duplicate.
Proof.
  exact (duplicate_issue_is_skipped
           (scheduler_on feed_2025_002 (FakeClient closed_snapshot tx_0xabc))
           submitted_state draw_2025_002 world_after_fetch eq_refl eq_refl).
Defined.

(** Scenario A (not closed), a closed period that has its result, and
    the test [test_scheduler_submits_closed_period_and_persists_state]. *)
Lemma decision_follows_snapshot_witness :
  cycle_decision (scheduler_on feed_2025_002 (FakeClient selling_snapshot tx_0xabc)) fresh_state
    = Some Skip_NotReady
  /\ cycle_decision (scheduler_on feed_2025_002 (FakeClient settled_snapshot tx_0xabc)) fresh_state
    = Some Skip_AlreadySet
  /\ cycle_decision (scheduler_on feed_2025_002 (FakeClient closed_snapshot tx_0xabc)) fresh_state
    = Some (Submit 2 [8; 9; 10; 11; 12; 13])
  /\ Sorted Z.le (sorted [13; 12; 11; 10; 9; 8])
  /\ sorted [13; 12; 11; 10; 9; 8] ≡ₚ [13; 12; 11; 10; 9; 8].
Proof.
  split; [|split; [|split]].
  - apply (decision_follows_snapshot
             (scheduler_on feed_2025_002 (FakeClient selling_snapshot tx_0xabc))
             fresh_state draw_2025_002 world_after_fetch selling_snapshot world_after_fetch
             eq_refl eq_refl eq_refl).
    discriminate.
  - apply (decision_follows_snapshot
             (scheduler_on feed_2025_002 (FakeClient settled_snapshot tx_0xabc))
             fresh_state draw_2025_002 world_after_fetch settled_snapshot world_after_fetch
             eq_refl eq_refl eq_refl); reflexivity.
  - apply (decision_follows_snapshot
             (scheduler_on feed_2025_002 (FakeClient closed_snapshot tx_0xabc))
             fresh_state draw_2025_002 world_after_fetch closed_snapshot world_after_fetch
             eq_refl eq_refl eq_refl); reflexivity.
  - apply (decision_follows_snapshot
             (scheduler_on feed_2025_002 (FakeClient closed_snapshot tx_0xabc))
             fresh_state draw_2025_002 world_after_fetch closed_snapshot world_after_fetch
             eq_refl eq_refl eq_refl); reflexivity.
Defined.

Lemma duplicate_check_precedes_chain_access_witness :
  let self := scheduler_on feed_2025_002 (FakeClient closed_snapshot tx_0xabc) in
  Forall (fun e => chain_access e = false) (cycle_events self submitted_state)
  /\ ext (_attempt_submission self submitted_state).2 = world_after_fetch
  /\ forall client',
       _attempt_submission
         {| _settings := _settings self; _datasource := _datasource self;
            _client := client'; _state := _state self |} submitted_state
       = _attempt_submission self submitted_state.
Proof.
  exact (duplicate_check_precedes_chain_access
           (scheduler_on feed_2025_002 (FakeClient closed_snapshot tx_0xabc))
           submitted_state draw_2025_002 world_after_fetch eq_refl eq_refl).
Defined.


(** A chain write that is rejected leaves the state as it was. *)
Lemma state_changes_only_after_chain_write_witness :
  let self := scheduler_on feed_2025_002 (RejectingClient closed_snapshot) in
  (_attempt_submission self fresh_state).1
    = Raise (RuntimeError "submitResult reverted")
  /\ _last_issue_id (_attempt_submission self fresh_state).2 = VNone
  /\ disk (_attempt_submission self fresh_state).2 = empty_disk.
Proof.
  exact (proj1 (proj2 (proj2
           (state_changes_only_after_chain_write
              (scheduler_on feed_2025_002 (RejectingClient closed_snapshot)) fresh_state)))
           draw_2025_002 world_after_fetch closed_snapshot world_after_fetch
           (RuntimeError "submitResult reverted") world_after_fetch
           eq_refl eq_refl eq_refl eq_refl eq_refl eq_refl).
Defined.

(** The write to the state file fails after ten bytes: the transaction
    went out, [run_once] raises, and the state file holds neither the old
    record nor the new one. *)
Lemma save_failure_propagates_witness :
  let self := scheduler_on feed_2025_002 (FakeClient closed_snapshot tx_0xabc) in
  (forall outcome, (run_once self state_on_failing_disk).1 <> Ok outcome)
  /\ (run_once self state_on_failing_disk).1 = Raise OSError
  /\ submissions (ext (run_once self state_on_failing_disk).2)
     = [(2, [8; 9; 10; 11; 12; 13])]
  /\ _last_issue_id (run_once self state_on_failing_disk).2
     = VStr (py "2025-002")
  /\ files (disk (run_once self state_on_failing_disk).2) !! "state.json"
     = Some fragment_2025_002.
Proof.
  pose proof (save_failure_propagates
                (scheduler_on feed_2025_002 (FakeClient closed_snapshot tx_0xabc))
                state_on_failing_disk draw_2025_002 world_after_fetch
                closed_snapshot world_after_fetch
                tx_0xabc world_after_write OSError
                (with_file "state.json" fragment_2025_002 failing_disk)
                eq_refl eq_refl eq_refl eq_refl eq_refl eq_refl)
    as Hthm.
  destruct Hthm as (_ & Hno & Honce & _); [vm_compute; reflexivity|].
  split; [exact Hno|]. rewrite Honce. repeat split; reflexivity.
Defined.

(** C9 as stated fails: the chain write succeeded, the save raised, and
    [run_once] does not return the submitted outcome (nor any other). *)
Lemma run_once_masks_submission_when_save_fails :
  let self := scheduler_on feed_2025_002 (FakeClient closed_snapshot tx_0xabc) in
  submit_result (_client self) 2 [8; 9; 10; 11; 12; 13] world_after_fetch = (Ok tx_0xabc, world_after_write)
  /\ save_last_issue (_state self) (py "2025-002") locked_disk
     = (Raise OSError, locked_disk)
  /\ run_once self fresh_state_locked
     = (Raise OSError,
        {| _last_issue_id := VStr (py "2025-002"); disk := locked_disk;
           ext := {| calls := 1; closed := true;
                     submissions := [(2, [8; 9; 10; 11; 12; 13])] |};
           trace := submit_events draw_2025_002 closed_snapshot
                    ++ [Log (Info_broadcast tx_0xabc); Called_close] |})
  /\ ~ (exists outcome,
          (run_once self fresh_state_locked).1 = Ok (Some outcome)
          /\ tx_hash outcome = tx_0xabc).
Proof.
  assert (Hrun : (run_once (scheduler_on feed_2025_002 (FakeClient closed_snapshot tx_0xabc))
                    fresh_state_locked).1 = Raise OSError)
    by (vm_compute; reflexivity).
  split; [reflexivity|]. split; [vm_compute; reflexivity|].
  split; [vm_compute; reflexivity|].
  intros (outcome & Hout & _). cbn zeta in Hout. rewrite Hrun in Hout.
  discriminate.
Qed.

(** Scenario B with the production client: three numbers. *)
Lemma production_client_rejects_wrong_count_witness :
  let self := scheduler_on (FakeDataSource draw_scenario_B)
                (LotteryClient TestWeb3) in
  LotteryClient_submit_result TestWeb3 2 [9; 11; 13] world_after_fetch
    = (Raise (ValueError "submit_result expects exactly 6 numbers"), world_after_fetch)
  /\ _attempt_submission self fresh_state
     = (Raise (ValueError "submit_result expects exactly 6 numbers"),
        untouched fresh_state world_after_fetch
          (submit_events draw_scenario_B closed_snapshot)).
Proof.
  split.
  - apply (proj1 (production_client_rejects_wrong_count TestWeb3)).
    simpl. lia.
  - apply (proj2 (production_client_rejects_wrong_count TestWeb3)
             (scheduler_on (FakeDataSource draw_scenario_B)
                (LotteryClient TestWeb3))
             fresh_state draw_scenario_B world_after_fetch closed_snapshot world_after_fetch);
      try reflexivity.
    simpl. lia.
Defined.

(** Scenario D: the period is still selling, the first cycle decides
    Skip-NotReady, and the loop returns. *)
Lemma run_forever_returns_on_first_skip_witness :
  let self := scheduler_on feed_2025_002 (FakeClient selling_snapshot tx_0xabc) in
  cycle_decision self (run_forever 0 self fresh_state).2 = Some Skip_NotReady
  /\ (run_forever 1 self fresh_state).1 = Returned.
Proof.
  split; [reflexivity|].
  apply (run_forever_returns_on_first_skip
           (scheduler_on feed_2025_002 (FakeClient selling_snapshot tx_0xabc))
           fresh_state 0);
    reflexivity.
Defined.

(** A first cycle that decides Skip-Duplicate makes the loop return, and a
    first cycle that decides Submit (and submits) does not: the loop sleeps
    and runs a second cycle, which is the one that returns. *)
Lemma run_forever_returns_on_duplicate_not_on_submit :
  let self := scheduler_on feed_2025_002 (FakeClient closed_snapshot tx_0xabc) in
  submit_only_once (_settings self) = true
  /\ cycle_decision self (run_forever 0 self submitted_state).2
     = Some Skip_Duplicate
  /\ (run_forever 1 self submitted_state).1 = Returned
  /\ cycle_decision self (run_forever 0 self fresh_state).2
     = Some (Submit 2 [8; 9; 10; 11; 12; 13])
  /\ (_attempt_submission self (run_forever 0 self fresh_state).2).1
     = Ok (Some {| result_period_id := 2; result_issue_id := py "2025-002";
                   tx_hash := tx_0xabc |})
  /\ (run_forever 1 self fresh_state).1 = Looping
  /\ (run_forever 2 self fresh_state).1 = Returned
  /\ trace (run_forever 2 self fresh_state).2
     = Log (Info_loop_started 5)
       :: submit_events draw_2025_002 closed_snapshot
       ++ [Log (Info_broadcast tx_0xabc); Sleep 5; Called_fetch_latest;
           Log (Debug_already_submitted (py "2025-002"));
           Log Info_exiting_loop].
Proof. repeat split; vm_compute; reflexivity. Qed.

(** With [submit_only_once] set, a feed that moves on to the next issue and
    a period that stays closed without a result: the loop submits for
    issue 2025-002, sleeps, submits again for issue 2025-003, and is still
    running. *)
Lemma submit_only_once_loop_outlives_a_submission_witness :
  let self := scheduler_on AdvancingDataSource
                (FakeClient closed_snapshot tx_0xabc) in
  submit_only_once (_settings self) = true
  /\ (run_forever 2 self fresh_state).1 = Looping
  /\ submissions (ext (run_forever 2 self fresh_state).2)
     = [(2, [8; 9; 10; 11; 12; 13]); (2, [1; 2; 3; 4; 5; 6])].
Proof.
  set (self := scheduler_on AdvancingDataSource
                 (FakeClient closed_snapshot tx_0xabc)).
  set (st0 := (logger FakeWorld (Info_loop_started 5) fresh_state).2).
  assert (Hfirst : _attempt_submission self st0
    = (Ok (Some {| result_period_id := 2; result_issue_id := py "2025-002";
                   tx_hash := tx_0xabc |}),
       (_attempt_submission self st0).2)) by (vm_compute; reflexivity).
  destruct (submit_only_once_loop_outlives_a_submission self st0 1 eq_refl)
    as [Hsubmitted _].
  destruct (Hsubmitted _ _ Hfirst) as [_ Hloop].
  split; [reflexivity|].
  change (run_forever 2 self fresh_state) with (run_forever_loop 2 self st0).
  rewrite Hloop. split; vm_compute; reflexivity.
Defined.

End scenarios.

(** * Part III: the rest of the oracle *)

Section cycle_invariants.
Context {Ext : Type}.
Implicit Types (self : OracleScheduler Ext) (st : State Ext) (x : Ext).

(** The seven shapes the events of one cycle can take, with the final
    trace. *)
Lemma cycle_events_shape self st :
  trace (_attempt_submission self st).2 = trace st ++ cycle_events self st
  /\ (cycle_events self st = [Called_fetch_latest]
      \/ (exists issue,
            cycle_events self st =
              [Called_fetch_latest; Log (Debug_already_submitted issue)])
      \/ cycle_events self st = [Called_fetch_latest; Called_get_current_period]
      \/ (exists r,
            cycle_events self st =
              [Called_fetch_latest; Called_get_current_period; Log r])
      \/ (exists r p n tail,
            cycle_events self st =
              [Called_fetch_latest; Called_get_current_period; Log r;
               Called_submit_result p n] ++ tail
            /\ (tail = [] \/ exists tx, tail = [Log (Info_broadcast tx)]))).
Proof.
  assert (Huntouched : forall r x evs,
    _attempt_submission self st = (r, untouched st x evs) ->
    trace (_attempt_submission self st).2 = trace st ++ cycle_events self st
    /\ cycle_events self st = evs).
  { intros r x evs Hrun.
    rewrite (cycle_events_untouched _ _ _ _ _ Hrun). by rewrite Hrun. }
  destruct (cycle_total self st)
    as [(e & x1 & Hf)
       |(draw & x1 & Hf & [Hdup|[Hdup [(e & x2 & Hg)|(snap & x2 & Hg & Hcase)]]])].
  - destruct (Huntouched _ _ _ (cycle_fetch_fails self st e x1 Hf)) as [-> ->].
    auto.
  - destruct (Huntouched _ _ _ (cycle_duplicate self st draw x1 Hf Hdup))
      as [-> ->]. eauto.
  - destruct (Huntouched _ _ _ (cycle_read_fails self st draw x1 e x2 Hf Hdup Hg))
      as [-> ->]. auto.
  - destruct Hcase as [Hs|[[Hs Hr]|[Hs Hr]]].
    + destruct (Huntouched _ _ _
                  (cycle_not_ready self st draw x1 snap x2 Hf Hdup Hg Hs))
        as [-> ->]. eauto 8.
    + destruct (Huntouched _ _ _
                  (cycle_already_set self st draw x1 snap x2 Hf Hdup Hg Hs Hr))
        as [-> ->]. eauto 8.
    + destruct (cycle_events_submit self st draw x1 snap x2)
        as (tail & Hev & Htail); [done..|].
      split.
      * rewrite Hev.
        rewrite (cycle_submit self st draw x1 snap x2 Hf Hdup Hg Hs Hr).
        destruct (submit_result _ _ _ _) as [[tx|e] x3] eqn:Hsub.
        -- assert (tail = [Log (Info_broadcast tx)]) as ->.
           { pose proof (cycle_submit self st draw x1 snap x2 Hf Hdup Hg Hs Hr)
               as Hrun.
             rewrite Hsub in Hrun.
             destruct (save_last_issue _ _ _) as [[[]|e] d];
               (erewrite cycle_events_of in Hev; [|exact Hrun|reflexivity]);
               by apply app_inv_head in Hev. }
           by destruct (save_last_issue _ _ _) as [[[]|e] d].
        -- assert (tail = []) as ->.
           { pose proof (cycle_submit self st draw x1 snap x2 Hf Hdup Hg Hs Hr)
               as Hrun.
             rewrite Hsub in Hrun.
             erewrite cycle_events_untouched in Hev by exact Hrun.
             rewrite <- (app_nil_r (submit_events draw snap)) in Hev at 1.
             by apply app_inv_head in Hev. }
           by rewrite app_nil_r.
      * do 4 right. rewrite Hev. unfold submit_events. eauto 10.
Qed.

Lemma count_app kind (l1 l2 : list Event) :
  count kind (l1 ++ l2) = (count kind l1 + count kind l2)%nat.
Proof. unfold count. by rewrite List.filter_app, length_app. Qed.

(** What the later counts need of one cycle. *)
Lemma cycle_calls_once_aux self st :
  trace (_attempt_submission self st).2 = trace st ++ cycle_events self st
  /\ count is_fetch (cycle_events self st) = 1%nat
  /\ count is_close (cycle_events self st) = 0%nat
  /\ count is_sleep (cycle_events self st) = 0%nat.
Proof.
  destruct (cycle_events_shape self st) as [Htrace Hshape].
  split; [done|].
  destruct Hshape as [->|[(issue & ->)|[->|[(r & ->)|(r & p & n & tail & -> & Htail)]]]];
    try (by cbn).
  by destruct Htail as [->|(tx & ->)].
Qed.

(** X1: one cycle fetches exactly once, reads the period and writes to the
    chain at most once each, and neither closes the feed nor sleeps; the
    trace it finds is kept and only extended. *)
Theorem cycle_calls_each_collaborator_at_most_once self st :
  trace (_attempt_submission self st).2 = trace st ++ cycle_events self st
  /\ count is_fetch (cycle_events self st) = 1%nat
  /\ (count is_period_read (cycle_events self st) <= 1)%nat
  /\ (count is_chain_write (cycle_events self st) <= 1)%nat
  /\ (count is_chain_write (cycle_events self st)
      <= count is_period_read (cycle_events self st))%nat
  /\ count is_close (cycle_events self st) = 0%nat
  /\ count is_sleep (cycle_events self st) = 0%nat.
Proof.
  destruct (cycle_events_shape self st) as [Htrace Hshape].
  split; [done|].
  destruct Hshape as [->|[(issue & ->)|[->|[(r & ->)|(r & p & n & tail & -> & Htail)]]]];
    try (cbn; lia).
  destruct Htail as [->|(tx & ->)]; cbn; lia.
Qed.

(** [run_once] in terms of its cycle: its events, its counts and its
    result. *)
Lemma run_once_always_closes_the_feed_aux self st :
  run_once_events self st = cycle_events self st ++ [Called_close]
  /\ count is_close (run_once_events self st) = 1%nat
  /\ count is_fetch (run_once_events self st) = 1%nat
  /\ count is_sleep (run_once_events self st) = 0%nat
  /\ (run_once self st).1
     = match (close (_datasource self)
                (ext (_attempt_submission self st).2)).1 with
       | Ok _ => (_attempt_submission self st).1
       | Raise e => Raise e
       end.
Proof.
  destruct (cycle_calls_once_aux self st) as (Htrace & Hfetch & Hclose & Hsleep).
  unfold run_once_events. rewrite run_once_unfold.
  destruct (_attempt_submission self st) as [r st1] eqn:Hrun.
  cbn [snd fst] in *.
  destruct (close _ _) as [c x] eqn:Hc. cbn [snd fst untouched trace ext].
  rewrite Htrace, <- app_assoc, drop_app_length.
  rewrite !count_app, Hfetch, Hclose, Hsleep.
  repeat split; reflexivity.
Qed.

(** X2: [run_once] is one cycle followed by one [close] of the feed, whatever
    the cycle did: its events are the cycle's and then the call of
    [close], made on the world the cycle left. It returns what the cycle
    returned or raised, unless [close] itself raises. *)
Theorem run_once_always_closes_the_feed self st :
  let cycle := _attempt_submission self st in
  let closing := close (_datasource self) (ext cycle.2) in
  run_once_events self st = cycle_events self st ++ [Called_close]
  /\ count is_close (run_once_events self st) = 1%nat
  /\ count is_fetch (run_once_events self st) = 1%nat
  /\ ext (run_once self st).2 = closing.2
  /\ _last_issue_id (run_once self st).2 = _last_issue_id cycle.2
  /\ disk (run_once self st).2 = disk cycle.2
  /\ (run_once self st).1
     = match closing.1 with Ok _ => cycle.1 | Raise e => Raise e end.
Proof.
  cbn zeta.
  destruct (run_once_always_closes_the_feed_aux self st)
    as (Hev & Hclose & Hfetch & _ & Hres).
  split; [done|]. split; [done|]. split; [done|].
  rewrite run_once_unfold.
  destruct (_attempt_submission self st) as [r st1].
  by destruct (close _ _) as [c x].
Qed.

Lemma run_forever_never_returns_aux self st k :
  submit_only_once (_settings self) = false ->
  (run_forever k self st).1 = Looping.
Proof.
  intros Hflag. unfold run_forever.
  generalize ((logger Ext (Info_loop_started
                 (poll_interval_seconds (_settings self))) st).2).
  induction k as [|k IH]; intros st0; [done|].
  cbn [run_forever_loop]. rewrite Hflag.
  destruct (_attempt_submission self st0) as [[sc|e] st1];
    rewrite ?andb_false_r; apply IH.
Qed.

(** X3: without [submit_only_once], [run_forever] never returns, whatever the
    cycles do (skip, submit or raise). *)
Theorem run_forever_never_returns_without_the_flag self st k :
  submit_only_once (_settings self) = false ->
  (run_forever k self st).1 = Looping.
Proof. apply run_forever_never_returns_aux. Qed.

(** The loop, cycle by cycle: what it adds to the trace. *)
Lemma run_forever_loop_events self k : forall st,
  exists evs,
    trace (run_forever_loop k self st).2 = trace st ++ evs
    /\ count is_close evs = 0%nat
    /\ Forall (fun e => is_sleep e = true ->
                 e = Sleep (poll_interval_seconds (_settings self))) evs
    /\ match (run_forever_loop k self st).1 with
       | Looping => count is_fetch evs = k /\ count is_sleep evs = k
       | Returned =>
           count is_fetch evs = S (count is_sleep evs)
           /\ (count is_fetch evs <= k)%nat
       end.
Proof.
  induction k as [|k IH]; intros st.
  { exists []. cbn. rewrite app_nil_r. repeat split; constructor. }
  destruct (cycle_calls_once_aux self st) as (Htrace & Hfetch & Hclose & Hsleep).
  assert (Hnosleep : Forall (fun e => is_sleep e = true ->
             e = Sleep (poll_interval_seconds (_settings self)))
            (cycle_events self st)).
  { apply Forall_forall. intros e Hin He. exfalso.
    unfold count in Hsleep. apply length_zero_iff_nil in Hsleep.
    assert (In e (List.filter is_sleep (cycle_events self st)))
      by (apply List.filter_In; split; [by apply list_elem_of_In|done]).
    rewrite Hsleep in *. done. }
  cbn [run_forever_loop].
  destruct (_attempt_submission self st) as [[sc|e] st1] eqn:Hrun;
    cbn [snd] in Htrace.
  - destruct (negb (truthy sc) && submit_only_once (_settings self)).
    + exists (cycle_events self st ++ [Log Info_exiting_loop]).
      split; [cbn [snd logger emit trace]; by rewrite Htrace, <- app_assoc|].
      split; [by rewrite count_app, Hclose|].
      split; [apply Forall_app; split; [done|]; by repeat constructor|].
      cbn [fst]. rewrite !count_app, Hfetch, Hsleep. cbn. lia.
    + set (st2 := (emit Ext (Sleep (poll_interval_seconds (_settings self)))
                     st1).2).
      assert (Ht2 : trace st2 = trace st ++ cycle_events self st
                      ++ [Sleep (poll_interval_seconds (_settings self))]).
      { subst st2. cbn [emit snd trace]. by rewrite Htrace, <- app_assoc. }
      clearbody st2.
      destruct (IH st2) as (evs & Htr & Hcl & Hsl & Hcount).
      exists (cycle_events self st
              ++ Sleep (poll_interval_seconds (_settings self)) :: evs).
      split; [rewrite Htr, Ht2; by rewrite <- !app_assoc|].
      split; [by rewrite count_app, Hclose|].
      split; [apply Forall_app; split; [done|]; by constructor|].
      rewrite !count_app, Hfetch, Hsleep.
      destruct (run_forever_loop k self st2).1;
        unfold count in *; cbn [List.filter is_fetch is_sleep length] in *; lia.
  - set (st2 := ((logger Ext (Exception_iteration_failed e);;
                  emit Ext (Sleep (poll_interval_seconds (_settings self))))
                   st1).2).
    assert (Ht2 : trace st2 = trace st ++ cycle_events self st
                    ++ [Log (Exception_iteration_failed e);
                        Sleep (poll_interval_seconds (_settings self))]).
    { subst st2. unfold logger, emit, mbind, M_MBind, M_bind.
      cbn [snd trace]. by rewrite Htrace, <- !app_assoc. }
    clearbody st2.
    destruct (IH st2) as (evs & Htr & Hcl & Hsl & Hcount).
    exists (cycle_events self st
            ++ Log (Exception_iteration_failed e)
               :: Sleep (poll_interval_seconds (_settings self)) :: evs).
    split; [rewrite Htr, Ht2; by rewrite <- !app_assoc|].
    split; [by rewrite count_app, Hclose|].
    split; [apply Forall_app; split; [done|]; constructor; [done|];
            by constructor|].
    rewrite !count_app, Hfetch, Hsleep.
    destruct (run_forever_loop k self st2).1;
      unfold count in *; cbn [List.filter is_fetch is_sleep length] in *; lia.
Qed.

(** X4: [run_forever] fetches once per cycle and sleeps [poll_interval_seconds]
    after every cycle but the one it returns in; it never closes the feed,
    not even when it returns. *)
Theorem run_forever_fetches_sleeps_and_never_closes self st k :
  let evs := run_forever_events k self st in
  trace (run_forever k self st).2 = trace st ++ evs
  /\ count is_close evs = 0%nat
  /\ Forall (fun e => is_sleep e = true ->
               e = Sleep (poll_interval_seconds (_settings self))) evs
  /\ match (run_forever k self st).1 with
     | Looping => count is_fetch evs = k /\ count is_sleep evs = k
     | Returned =>
         count is_fetch evs = S (count is_sleep evs)
         /\ (count is_fetch evs <= k)%nat
     end.
Proof.
  cbn zeta. unfold run_forever_events, run_forever.
  destruct (run_forever_loop_events self k
              (logger Ext (Info_loop_started
                 (poll_interval_seconds (_settings self))) st).2)
    as (evs & Htr & Hcl & Hsl & Hcount).
  rewrite Htr. cbn [logger emit snd trace].
  rewrite <- app_assoc, drop_app_length.
  split; [done|]. cbn [app]. split; [done|]. split; [by constructor|].
  done.
Qed.

(** The state a cycle leaves once the chain writer has returned, whether or
    not the save succeeded. *)
Lemma cycle_submitted_state self st draw x1 snap x2 tx x3 :
  fetch_latest (_datasource self) (ext st) = (Ok draw, x1) ->
  py_eq_str (_last_issue_id st) (issue_id draw) = false ->
  get_current_period (_client self) x1 = (Ok snap, x2) ->
  status snap = CLOSED -> result_set snap = false ->
  submit_result (_client self) (period_id snap) (sorted (numbers draw)) x2
    = (Ok tx, x3) ->
  _last_issue_id (_attempt_submission self st).2 = VStr (issue_id draw)
  /\ ext (_attempt_submission self st).2 = x3
  /\ disk (_attempt_submission self st).2
     = (save_last_issue (_state self) (issue_id draw) (disk st)).2
  /\ (_attempt_submission self st).1
     = match (save_last_issue (_state self) (issue_id draw) (disk st)).1 with
       | Ok _ => Ok (Some {| result_period_id := period_id snap;
                             result_issue_id := issue_id draw;
                             tx_hash := tx |})
       | Raise e => Raise e
       end.
Proof.
  intros Hf Hdup Hg Hs Hr Hsub.
  rewrite (cycle_submit self st draw x1 snap x2 Hf Hdup Hg Hs Hr).
  unfold sorted_numbers. rewrite Hsub.
  by destruct (save_last_issue _ _ _) as [[[]|e] d].
Qed.

(** X5: once the chain writer has returned a transaction hash for an issue,
    a later cycle of the same scheduler that fetches that issue again is
    Skip-Duplicate and makes no chain call, even when the save to the state
    file failed and whatever the chain shows by then. *)
Theorem no_resubmission_within_a_process self st draw x1 snap x2 tx x3
    draw' x4 :
  fetch_latest (_datasource self) (ext st) = (Ok draw, x1) ->
  py_eq_str (_last_issue_id st) (issue_id draw) = false ->
  get_current_period (_client self) x1 = (Ok snap, x2) ->
  status snap = CLOSED -> result_set snap = false ->
  submit_result (_client self) (period_id snap) (sorted (numbers draw)) x2
    = (Ok tx, x3) ->
  let st1 := (_attempt_submission self st).2 in
  fetch_latest (_datasource self) x3 = (Ok draw', x4) ->
  issue_id draw' = issue_id draw ->
  _attempt_submission self st1 =
    (Ok None,
     untouched st1 x4
       [Called_fetch_latest; Log (Debug_already_submitted (issue_id draw))])
  /\ cycle_decision self st1 = Some Skip_Duplicate
  /\ count is_chain_write (cycle_events self st1) = 0%nat.
Proof.
  intros Hf Hdup Hg Hs Hr Hsub st1 Hf' Hissue.
  destruct (cycle_submitted_state self st draw x1 snap x2 tx x3)
    as (Hlast & Hext & _); [done..|].
  fold st1 in Hlast, Hext.
  assert (Hrun : _attempt_submission self st1 =
    (Ok None,
     untouched st1 x4
       [Called_fetch_latest; Log (Debug_already_submitted (issue_id draw))])).
  { rewrite <- Hissue. apply cycle_duplicate; [by rewrite Hext|].
    rewrite Hlast, Hissue. cbn. by apply bool_decide_eq_true. }
  split; [done|]. unfold cycle_decision.
  by rewrite (cycle_events_untouched _ _ _ _ _ Hrun).
Qed.

(** X6: a restart remembers. After a Submit cycle whose save succeeded, a
    scheduler constructed anew on the disk that cycle left (same state
    file) starts with that issue id as [_last_issue_id], and a first cycle
    that fetches the same issue is Skip-Duplicate. *)
Theorem restart_remembers_the_submission self st draw x1 snap x2 tx x3 d
    settings' (datasource' : ResultDataSource Ext)
    (client' : LotteryClientProtocol Ext) x :
  fetch_latest (_datasource self) (ext st) = (Ok draw, x1) ->
  py_eq_str (_last_issue_id st) (issue_id draw) = false ->
  get_current_period (_client self) x1 = (Ok snap, x2) ->
  status snap = CLOSED -> result_set snap = false ->
  submit_result (_client self) (period_id snap) (sorted (numbers draw)) x2
    = (Ok tx, x3) ->
  save_last_issue (_state self) (issue_id draw) (disk st) = (Ok (), d) ->
  wf_str (issue_id draw) ->
  Json.adjacent_surrogates (issue_id draw) = false ->
  state_file settings' = _path (_state self) ->
  disk (_attempt_submission self st).2 = d
  /\ exists self' st',
    __init__ settings' datasource' client' d x = Ok (self', st')
    /\ _last_issue_id st' = VStr (issue_id draw)
    /\ forall draw' x',
         fetch_latest datasource' x = (Ok draw', x') ->
         issue_id draw' = issue_id draw ->
         (_attempt_submission self' st').1 = Ok None
         /\ cycle_decision self' st' = Some Skip_Duplicate.
Proof.
  intros Hf Hdup Hg Hs Hr Hsub Hsave Hwf Hadj Hfile.
  destruct (cycle_submitted_state self st draw x1 snap x2 tx x3)
    as (_ & _ & Hdisk & _); [done..|].
  rewrite Hsave in Hdisk. cbn [snd] in Hdisk. split; [done|].
  assert (Hload : load_last_issue {| _path := state_file settings' |} d
                  = Ok (VStr (issue_id draw))).
  { apply load_of_record; [done..|]. cbn [_path]. rewrite Hfile.
    by eapply save_writes. }
  unfold __init__. rewrite Hload. eexists _, _.
  split; [reflexivity|]. split; [reflexivity|].
  intros draw' x' Hf' Hissue.
  match goal with |- (_attempt_submission ?s ?t).1 = _ /\ _ =>
    pose proof (cycle_duplicate s t draw' x' Hf') as Hrun end.
  cbn [_last_issue_id py_eq_str] in Hrun.
  specialize (Hrun (bool_decide_eq_true_2 _ (eq_sym Hissue))).
  rewrite Hrun. split; [done|]. unfold cycle_decision.
  by rewrite (cycle_events_untouched _ _ _ _ _ Hrun).
Qed.

End cycle_invariants.

(** ** More on the state file *)

Section state_file_contents.

Import Json.
Local Open Scope N_scope.

Lemma escape_char_surrogate c :
  0xd800 <= c <= 0xdfff -> escape_char c = u_escape c.
Proof.
  intros Hc. unfold escape_char.
  repeat match goal with
    | |- (if c =? ?y then _ else _) = _ =>
        destruct (N.eqb_spec c y); [unfold QUOTE, BACKSLASH in *; lia|]
    end.
  replace (c <=? 126) with false by (symmetry; apply N.leb_gt; lia).
  rewrite andb_false_r.
  by replace (c <? 0x10000) with true by (symmetry; apply N.ltb_lt; lia).
Qed.

Lemma is_high_surrogate_range c :
  is_high_surrogate c = true -> 0xd800 <= c <= 0xdbff.
Proof.
  unfold is_high_surrogate. intros [?%N.leb_le ?%N.leb_le]%andb_prop. lia.
Qed.

Lemma is_low_surrogate_range c :
  is_low_surrogate c = true -> 0xdc00 <= c <= 0xdfff.
Proof.
  unfold is_low_surrogate. intros [?%N.leb_le ?%N.leb_le]%andb_prop. lia.
Qed.

Lemma joined_eq c c' s :
  joined (c :: c' :: s)
  = if is_high_surrogate c && is_low_surrogate c'
    then join_surrogates c c' :: joined s
    else c :: joined (c' :: s).
Proof. reflexivity. Qed.

Lemma joined_not_high c s :
  is_high_surrogate c = false -> joined (c :: s) = c :: joined s.
Proof. intros Hh. destruct s; [done|]. by rewrite joined_eq, Hh. Qed.

(** The value of a joined pair: above the BMP, in range. *)
Lemma join_surrogates_value hi lo :
  is_high_surrogate hi = true -> is_low_surrogate lo = true ->
  join_surrogates hi lo = 0x10000 + (hi - 0xd800) * 1024 + (lo - 0xdc00).
Proof.
  intros Hh%is_high_surrogate_range Hl%is_low_surrogate_range.
  unfold join_surrogates. rewrite N.shiftl_mul_pow2, lor_disjoint.
  - change (2 ^ 10) with 1024. lia.
  - change (2 ^ 10) with 1024. lia.
Qed.

Lemma scanstring_escaped_joined n : forall s fuel rest,
  (length s <= n)%nat -> wf_str s -> (length s < fuel)%nat ->
  scanstring fuel (flat_map escape_char s ++ QUOTE :: rest)
  = Some (joined s, rest).
Proof.
  induction n as [|n IH]; intros s fuel rest Hn Hwf Hfuel.
  { destruct s; [|simpl in Hn; lia]. destruct fuel; [simpl in Hfuel; lia|done]. }
  destruct s as [|c s]; [destruct fuel; [simpl in Hfuel; lia|done]|].
  destruct fuel as [|fuel]; [simpl in Hfuel; lia|].
  apply Forall_cons in Hwf as [Hc Hwf]. cbn [length] in Hn, Hfuel.
  destruct (is_high_surrogate c) eqn:Hh.
  - destruct s as [|c' s].
    + cbn [flat_map app]. rewrite app_nil_r.
      rewrite (scanstring_step c); [| apply escape_char_kind | done |].
      * by destruct fuel; [simpl in Hfuel; lia|].
      * intros _. by apply low_surrogate_escape_other.
    + apply Forall_cons in Hwf as [Hc' Hwf]. cbn [length] in Hn, Hfuel.
      destruct (is_low_surrogate c') eqn:Hl.
      * pose proof (is_high_surrogate_range c Hh).
        pose proof (is_low_surrogate_range c' Hl).
        cbn [flat_map]. rewrite joined_eq, Hh, Hl. cbn [andb].
        rewrite !escape_char_surrogate by lia. rewrite <- !app_assoc.
        rewrite scanstring_u, decode_hex4 by lia. cbn [mbind option_bind].
        rewrite Hh, low_surrogate_escape_u, decode_hex4 by lia.
        cbn [mbind option_bind]. rewrite Hl, drop_u_escape.
        by rewrite (IH s fuel rest) by (done || lia).
      * rewrite joined_eq, Hh, Hl. cbn [andb].
        change (flat_map escape_char (c :: c' :: s))
          with (escape_char c ++ flat_map escape_char (c' :: s)).
        rewrite <- app_assoc.
        rewrite (scanstring_step c); [| apply escape_char_kind | done |].
        -- rewrite (IH (c' :: s) fuel rest); [done | cbn; lia | | cbn; lia].
           by apply Forall_cons.
        -- intros _. cbn [flat_map]. rewrite <- app_assoc.
           eapply lookahead_no_pairing; [apply escape_char_kind | done | done].
  - rewrite joined_not_high by done. cbn [flat_map]. rewrite <- app_assoc.
    rewrite (scanstring_step c); [| apply escape_char_kind | done |].
    + by rewrite (IH s fuel rest) by (done || lia).
    + by rewrite Hh.
Qed.

(** The head of a joined string is the head of the string, or a code point
    above the BMP. *)
Lemma joined_head c s :
  exists h t, joined (c :: s) = h :: t
    /\ (h = c \/ is_high_surrogate h = false /\ is_low_surrogate h = false).
Proof.
  destruct s as [|c' s]; [by exists c, []; auto|]. rewrite joined_eq.
  destruct (is_high_surrogate c) eqn:Hh, (is_low_surrogate c') eqn:Hl;
    cbn [andb]; try by (eexists _, _; split; [reflexivity|auto]).
  eexists _, _. split; [reflexivity|]. right.
  rewrite join_surrogates_value by done.
  apply is_high_surrogate_range in Hh. apply is_low_surrogate_range in Hl.
  unfold is_high_surrogate, is_low_surrogate.
  split; apply andb_false_intro2, N.leb_gt; lia.
Qed.

Lemma adjacent_surrogates_eq c c' t :
  adjacent_surrogates (c :: c' :: t)
  = (is_high_surrogate c && is_low_surrogate c')
    || adjacent_surrogates (c' :: t).
Proof. reflexivity. Qed.

Lemma joined_no_adjacent_surrogates n : forall s,
  (length s <= n)%nat -> adjacent_surrogates (joined s) = false.
Proof.
  induction n as [|n IH]; intros s Hn.
  { by destruct s; [|simpl in Hn; lia]. }
  destruct s as [|c [|c' s]]; [done..|]. cbn [length] in Hn.
  rewrite joined_eq.
  destruct (is_high_surrogate c && is_low_surrogate c') eqn:Hpair.
  - apply andb_prop in Hpair as [Hh Hl].
    pose proof (IH s ltac:(lia)) as IHs.
    destruct (joined s) as [|h t] eqn:Hj; [done|].
    rewrite adjacent_surrogates_eq, IHs, orb_false_r.
    apply andb_false_intro1.
    rewrite join_surrogates_value by done.
    apply is_high_surrogate_range in Hh. apply is_low_surrogate_range in Hl.
    unfold is_high_surrogate. apply andb_false_intro2, N.leb_gt. lia.
  - pose proof (IH (c' :: s) ltac:(cbn; lia)) as IHs.
    destruct (joined_head c' s) as (h & t & Hj & Hhead).
    rewrite Hj in *. rewrite adjacent_surrogates_eq, IHs, orb_false_r.
    destruct Hhead as [->|[_ Hl]]; [done|].
    by rewrite Hl, andb_false_r.
Qed.

Lemma joined_well_formed n : forall s,
  (length s <= n)%nat -> wf_str s -> wf_str (joined s).
Proof.
  induction n as [|n IH]; intros s Hn Hwf.
  { by destruct s; [|simpl in Hn; lia]. }
  destruct s as [|c [|c' s]]; [done..|]. cbn [length] in Hn.
  apply Forall_cons in Hwf as [Hc Hwf]. rewrite joined_eq.
  destruct (is_high_surrogate c && is_low_surrogate c') eqn:Hpair.
  - apply andb_prop in Hpair as [Hh Hl].
    apply Forall_cons in Hwf as [_ Hwf].
    apply Forall_cons. split; [|apply IH; [lia|done]].
    unfold code_point. rewrite join_surrogates_value by done.
    apply is_high_surrogate_range in Hh. apply is_low_surrogate_range in Hl.
    lia.
  - apply Forall_cons. split; [done|]. apply IH; [cbn; lia|done].
Qed.

Lemma joined_id s : adjacent_surrogates s = false -> joined s = s.
Proof.
  induction s as [|c s IH]; [done|]. intros Hadj.
  destruct s as [|c' s]; [done|].
  rewrite adjacent_surrogates_eq in Hadj.
  apply orb_false_elim in Hadj as [Hp Hadj].
  rewrite joined_eq, Hp. by rewrite IH.
Qed.

(** Reading back a file that holds the record of any string [issue]. *)
Lemma load_of_record_joined store issue d :
  wf_str issue ->
  files d !! _path store
  = Some (dumps [(py "last_issue_id", issue)] : list N) ->
  load_last_issue store d = Ok (VStr (joined issue)).
Proof.
  intros Hwf Hfile. destruct key_well_formed as [Hk Hk'].
  unfold load_last_issue, exists_, read_text. rewrite Hfile.
  rewrite bool_decide_true by eauto. cbn [negb].
  rewrite decode_printable, universal_newlines_printable
    by apply dumps_printable.
  rewrite dumps_single, (loads_single _ _ (py "last_issue_id") (joined issue)).
  - cbn [py_get dict_get fst].
    rewrite bool_decide_false by (by intros ?%Exists_nil).
    by rewrite bool_decide_true.
  - intros fuel rest Hf. apply scanstring_escaped; [done..|].
    pose proof (length_escaped (py "last_issue_id")). lia.
  - intros fuel rest Hf.
    apply (scanstring_escaped_joined (length issue)); [done..|].
    pose proof (length_escaped issue). lia.
Qed.

(** X7: what a load after a save returns, for every string: the saved issue
    id with each high surrogate that is immediately followed by a low
    surrogate joined with it into one code point. The result holds no such
    pair any more, so it is the issue id itself when there was none, and
    saving what was loaded loads back unchanged. *)
Theorem load_after_save_joins_surrogates (store store' : OracleStateStore)
    (issue : pystr) (d d' : Disk) :
  wf_str issue ->
  _path store' = _path store ->
  save_last_issue store issue d = (Ok (), d') ->
  load_last_issue store' d' = Ok (VStr (joined issue))
  /\ wf_str (joined issue)
  /\ adjacent_surrogates (joined issue) = false
  /\ (adjacent_surrogates issue = false -> joined issue = issue)
  /\ joined (joined issue) = joined issue.
Proof.
  intros Hwf Hpath Hsave.
  assert (Hnone : adjacent_surrogates (joined issue) = false)
    by by eapply joined_no_adjacent_surrogates.
  split; [|split; [by eapply joined_well_formed|split; [done|]]].
  - apply load_of_record_joined; [done|]. rewrite Hpath.
    by eapply save_writes.
  - split; [apply joined_id|by apply joined_id].
Qed.


End state_file_contents.

(** ** A state file cut short *)

Section truncated_state_file.

Import Json.
Local Open Scope N_scope.

(** The body of [scanstring] at a character. *)
Lemma scanstring_eq fuel c s1 :
  scanstring (S fuel) (c :: s1) =
    if c =? QUOTE then Some ([], s1)
    else if c <? 32 then None
    else if c =? BACKSLASH then
      match s1 with
      | [] => None
      | esc :: s2 =>
          if esc =? LOWER_U then
            uni ← decode_uXXXX s2;
            let s3 := drop 4 s2 in
            if is_high_surrogate uni then
              pairing ← low_surrogate_escape s3;
              match pairing with
              | Some uni2 =>
                  '(str, rest) ← scanstring fuel (drop 6 s3);
                  Some (join_surrogates uni uni2 :: str, rest)
              | None =>
                  '(str, rest) ← scanstring fuel s3;
                  Some (uni :: str, rest)
              end
            else
              '(str, rest) ← scanstring fuel s3;
              Some (uni :: str, rest)
          else
            char ← unescape esc;
            '(str, rest) ← scanstring fuel s2;
            Some (char :: str, rest)
      end
    else
      '(str, rest) ← scanstring fuel s1;
      Some (c :: str, rest).
Proof. reflexivity. Qed.

Lemma decode_uXXXX_app s k uni :
  decode_uXXXX s = Some uni ->
  decode_uXXXX (s ++ k) = Some uni /\ drop 4 (s ++ k) = drop 4 s ++ k.
Proof. destruct s as [|a [|b [|c [|d s]]]]; try done. Qed.

(** A look-ahead that found a low surrogate, or that was followed by a
    successful scan, sees the same when text is appended. *)
Lemma low_surrogate_escape_app s k pairing :
  low_surrogate_escape s = Some pairing ->
  (2 <= length s)%nat ->
  low_surrogate_escape (s ++ k) = Some pairing.
Proof.
  destruct s as [|a [|b s]]; [simpl; lia..|]. intros Hl _.
  change ((a :: b :: s) ++ k) with (a :: b :: (s ++ k)).
  unfold low_surrogate_escape in *.
  destruct ((a =? BACKSLASH) && (b =? LOWER_U)); [|done].
  destruct (decode_uXXXX s) as [uni2|] eqn:Hd; [|done].
  by rewrite (proj1 (decode_uXXXX_app s k uni2 Hd)).
Qed.

Lemma low_surrogate_escape_found s uni2 :
  low_surrogate_escape s = Some (Some uni2) -> (6 <= length s)%nat.
Proof.
  destruct s as [|a [|b s]]; [done..|]. unfold low_surrogate_escape.
  destruct ((a =? BACKSLASH) && (b =? LOWER_U)); [|done].
  destruct s as [|c [|d [|e [|f s]]]]; try done. simpl. lia.
Qed.

(** A scan that found the closing quote finds it again, with the same
    result, when it is given more fuel and when text is appended. *)
Lemma scanstring_extend fuel : forall fuel' P k str rest,
  scanstring fuel P = Some (str, rest) -> (fuel <= fuel')%nat ->
  scanstring fuel' (P ++ k) = Some (str, rest ++ k).
Proof.
  induction fuel as [|fuel IH]; intros fuel' P k str rest Hs Hf; [done|].
  destruct fuel' as [|fuel']; [lia|].
  destruct P as [|c s1]; [done|].
  change ((c :: s1) ++ k) with (c :: (s1 ++ k)).
  rewrite scanstring_eq in Hs |- *.
  destruct (c =? QUOTE); [by injection Hs as <- <-|].
  destruct (c <? 32); [done|].
  destruct (c =? BACKSLASH).
  - destruct s1 as [|esc s2]; [done|].
    change ((esc :: s2) ++ k) with (esc :: (s2 ++ k)). cbv beta iota.
    destruct (esc =? LOWER_U).
    + destruct (decode_uXXXX s2) as [uni|] eqn:Hd; [|done].
      destruct (decode_uXXXX_app s2 k uni Hd) as [-> Hdrop].
      cbn [mbind option_bind] in Hs |- *. cbn zeta in Hs |- *.
      rewrite Hdrop.
      destruct (is_high_surrogate uni).
      * destruct (low_surrogate_escape (drop 4 s2)) as [pairing|] eqn:Hl;
          [|done].
        cbn [mbind option_bind] in Hs.
        destruct pairing as [uni2|].
        -- pose proof (low_surrogate_escape_found _ _ Hl) as Hlen.
           rewrite (low_surrogate_escape_app _ k _ Hl) by lia.
           cbn [mbind option_bind].
           rewrite drop_app_le by lia.
           destruct (scanstring fuel (drop 6 (drop 4 s2)))
             as [[str' rest']|] eqn:Hrec; [|done].
           cbn [mbind option_bind] in Hs. injection Hs as <- <-.
           by rewrite (IH fuel' _ k _ _ Hrec) by lia.
        -- destruct (scanstring fuel (drop 4 s2))
             as [[str' rest']|] eqn:Hrec; [|done].
           cbn [mbind option_bind] in Hs. injection Hs as <- <-.
           assert (Hlook : low_surrogate_escape (drop 4 s2 ++ k) = Some None).
           { destruct (drop 4 s2) as [|a [|b s3]] eqn:Hs3.
             - by destruct fuel.
             - destruct fuel as [|fuel]; [done|].
               rewrite scanstring_eq in Hrec.
               destruct (a =? QUOTE) eqn:Ha.
               + apply N.eqb_eq in Ha as ->. by destruct k.
               + destruct (a <? 32); [done|].
                 destruct (a =? BACKSLASH); [done|].
                 by destruct fuel.
             - apply low_surrogate_escape_app; [done|simpl; lia]. }
           rewrite Hlook. cbn [mbind option_bind].
           by rewrite (IH fuel' _ k _ _ Hrec) by lia.
      * destruct (scanstring fuel (drop 4 s2))
          as [[str' rest']|] eqn:Hrec; [|done].
        cbn [mbind option_bind] in Hs. injection Hs as <- <-.
        by rewrite (IH fuel' _ k _ _ Hrec) by lia.
    + destruct (unescape esc) as [char|]; [|done].
      cbn [mbind option_bind] in Hs |- *.
      destruct (scanstring fuel s2) as [[str' rest']|] eqn:Hrec; [|done].
      cbn [mbind option_bind] in Hs. injection Hs as <- <-.
      by rewrite (IH fuel' _ k _ _ Hrec) by lia.
  - destruct (scanstring fuel s1) as [[str' rest']|] eqn:Hrec; [|done].
    cbn [mbind option_bind] in Hs. injection Hs as <- <-.
    by rewrite (IH fuel' _ k _ _ Hrec) by lia.
Qed.

(** In the text written for a string there is no closing quote: a scan of
    any part of it from its start runs off the end. *)
Lemma scanstring_cut_short s P k fuel :
  wf_str s -> flat_map escape_char s = P ++ k -> scanstring fuel P = None.
Proof.
  intros Hwf Hcut.
  destruct (scanstring fuel P) as [[str rest]|] eqn:Hscan; [|done].
  exfalso.
  pose proof (scanstring_extend fuel (fuel + S (length s)) P (k ++ [QUOTE])
                str rest Hscan ltac:(lia)) as Hext.
  rewrite app_assoc, <- Hcut in Hext.
  rewrite (scanstring_escaped_joined (length s) s _ []) in Hext
    by (done || lia).
  injection Hext as _ Hrest.
  apply (f_equal length) in Hrest. rewrite !length_app in Hrest.
  simpl in Hrest. lia.
Qed.

(** An object whose value is a string that is not closed. *)
Lemma loads_value_unterminated (K k W : pystr) :
  (forall fuel rest, (length K < fuel)%nat ->
     scanstring fuel (K ++ QUOTE :: rest) = Some (k, rest)) ->
  (forall fuel, scanstring fuel W = None) ->
  loads (123 :: QUOTE :: K ++ QUOTE :: 58 :: 32 :: QUOTE :: W) = None.
Proof.
  intros HK HW. unfold QUOTE in *.
  unfold loads. cbn [length skip_ws is_ws N.eqb Pos.eqb orb].
  cbn [scan_once N.eqb Pos.eqb skip_ws is_ws orb].
  cbn [members].
  rewrite HK by (rewrite length_app; simpl; lia).
  cbn [mbind option_bind skip_ws is_ws N.eqb Pos.eqb orb length].
  cbn [scan_once N.eqb Pos.eqb].
  by rewrite HW.
Qed.

(** An object that lacks its closing brace. *)
Lemma loads_object_unclosed (K V k v : pystr) :
  (forall fuel rest, (length K < fuel)%nat ->
     scanstring fuel (K ++ QUOTE :: rest) = Some (k, rest)) ->
  (forall fuel rest, (length V < fuel)%nat ->
     scanstring fuel (V ++ QUOTE :: rest) = Some (v, rest)) ->
  loads (123 :: QUOTE :: K ++ QUOTE :: 58 :: 32 :: QUOTE :: V ++ [QUOTE])
  = None.
Proof.
  intros HK HV. unfold QUOTE in *.
  unfold loads. cbn [length skip_ws is_ws N.eqb Pos.eqb orb].
  cbn [scan_once N.eqb Pos.eqb skip_ws is_ws orb].
  cbn [members].
  rewrite HK by (rewrite length_app; simpl; lia).
  cbn [mbind option_bind skip_ws is_ws N.eqb Pos.eqb orb length].
  cbn [scan_once N.eqb Pos.eqb].
  rewrite HV by (rewrite length_app; simpl; lia).
  reflexivity.
Qed.

(** The text of the record up to and including the quote that opens the
    issue id. *)
Lemma record_text issue :
  dumps [(py "last_issue_id", issue)]
  = (123 :: QUOTE :: py "last_issue_id" ++ [QUOTE; 58; 32; QUOTE])
    ++ flat_map escape_char issue ++ [QUOTE; 125].
Proof. rewrite dumps_single. reflexivity. Qed.

(** Every proper prefix of the record's text is refused by [json.loads]. *)
Lemma loads_truncated issue n :
  wf_str issue ->
  (n < length (dumps [(py "last_issue_id", issue)]))%nat ->
  loads (take n (dumps [(py "last_issue_id", issue)])) = None.
Proof.
  intros Hwf Hn. rewrite record_text in Hn |- *.
  set (header := 123 :: QUOTE :: py "last_issue_id" ++ [QUOTE; 58; 32; QUOTE])
    in *.
  set (V := flat_map escape_char issue) in *.
  assert (HK : forall fuel rest, (length (py "last_issue_id") < fuel)%nat ->
     scanstring fuel (py "last_issue_id" ++ QUOTE :: rest)
     = Some (py "last_issue_id", rest)).
  { intros fuel rest Hf.
    change (py "last_issue_id" ++ QUOTE :: rest)
      with (flat_map escape_char (py "last_issue_id") ++ QUOTE :: rest).
    apply scanstring_escaped; [apply key_well_formed..|done]. }
  rewrite !length_app in Hn. change (length header) with 19%nat in Hn.
  cbn [length] in Hn.
  destruct (decide (n < 19)%nat) as [Hhead|Hbody].
  - rewrite take_app_le by (change (length header) with 19%nat; lia).
    do 19 (destruct n as [|n]; [vm_compute; reflexivity|]). lia.
  - rewrite take_app_ge by (change (length header) with 19%nat; lia).
    change (length header) with 19%nat.
    destruct (decide (n - 19 <= length V)%nat) as [Hin|Hend].
    + rewrite take_app_le by done.
      apply (loads_value_unterminated (py "last_issue_id")
               (py "last_issue_id")); [done|].
      intros fuel.
      apply (scanstring_cut_short issue _ (drop (n - 19) V)); [done|].
      by rewrite take_drop.
    + rewrite take_app_ge by lia.
      replace (n - 19 - length V)%nat with 1%nat by lia.
      change (take 1 [QUOTE; 125]) with [QUOTE].
      apply (loads_object_unclosed (py "last_issue_id") V
               (py "last_issue_id") (joined issue)); [done|].
      intros fuel rest Hf.
      apply (scanstring_escaped_joined (length issue)); [done..|].
      pose proof (length_escaped issue). unfold V in Hf. lia.
Qed.

(** Loading a state file that holds a proper prefix of a record. *)
Lemma load_of_truncated_record store issue d n :
  wf_str issue ->
  (n < length (dumps [(py "last_issue_id", issue)]))%nat ->
  files d !! _path store
  = Some (take n (dumps [(py "last_issue_id", issue)]) : list N) ->
  load_last_issue store d = Ok VNone.
Proof.
  intros Hwf Hn Hfile.
  assert (Hascii : Forall printable (take n (dumps [(py "last_issue_id", issue)])))
    by apply Forall_take, dumps_printable.
  unfold load_last_issue, exists_, read_text. rewrite Hfile.
  rewrite bool_decide_true by eauto. cbn [negb].
  rewrite decode_printable, universal_newlines_printable by done.
  by rewrite loads_truncated.
Qed.

(** X20: a state file cut short reads as no state. When the file holds only
    a proper prefix of the record [save_last_issue] writes for an issue id
    (the cut may fall in the key, inside an escape sequence, or just before
    the closing brace), [load_last_issue] returns [None] and does not
    raise. So after a save that raised, a load returns what it returned
    before (the file was not opened), [None] (the write was cut short), or
    the saved issue id as a load after a save returns it (all the bytes
    had been written): never another issue id. *)
Theorem truncated_state_file_loads_as_None (store : OracleStateStore)
    (issue : pystr) :
  wf_str issue ->
  (forall d n,
     (n < length (dumps [(py "last_issue_id", issue)]))%nat ->
     files d !! _path store
     = Some (take n (dumps [(py "last_issue_id", issue)]) : list N) ->
     load_last_issue store d = Ok VNone)
  /\ (forall d e d',
       save_last_issue store issue d = (Raise e, d') ->
       load_last_issue store d' = load_last_issue store d
       \/ load_last_issue store d' = Ok VNone
       \/ load_last_issue store d' = Ok (VStr (joined issue))).
Proof.
  intros Hwf. split.
  - intros d n. by apply load_of_truncated_record.
  - intros d e d'. unfold save_last_issue, write_text.
    case_bool_decide as Hl; [intros [= <- <-]; by left|].
    rewrite encode_printable by apply dumps_printable.
    destruct (faulty d !! _path store) as [written|]; [|done].
    intros [= <- <-]. right.
    set (text := dumps [(py "last_issue_id", issue)]).
    destruct (decide (written < length text)%nat) as [Hcut|Hfull].
    + left. apply (load_of_truncated_record store issue _ written); [done..|].
      cbn [files with_file]. apply lookup_insert_eq.
    + right. rewrite take_ge by lia.
      apply load_of_record_joined; [done|].
      cbn [files with_file]. apply lookup_insert_eq.
Qed.

End truncated_state_file.

(** ** The production client under the scheduler *)

Section production_client.
Context {Ext : Type}.
Implicit Types (self : OracleScheduler Ext) (st : State Ext) (x : Ext).
Variable web3 : Web3 Ext.

Lemma sorted_idempotent l : sorted (sorted l) = sorted l.
Proof. apply sorted_order_independent, sorted_Permutation. Qed.

Lemma PeriodStatus_of_int_range v :
  (0 <= v <= 3 ->
     exists s, PeriodStatus_of_int v = Ok s /\ PeriodStatus_to_int s = v)
  /\ (~ 0 <= v <= 3 ->
     PeriodStatus_of_int v = Raise (ValueError "not a valid PeriodStatus")).
Proof.
  unfold PeriodStatus_of_int.
  destruct (Z.eqb_spec v 0) as [->|?]; [split; [by exists SELLING|lia]|].
  destruct (Z.eqb_spec v 1) as [->|?]; [split; [by exists CLOSED|lia]|].
  destruct (Z.eqb_spec v 2) as [->|?]; [split; [by exists RESULT_IN|lia]|].
  destruct (Z.eqb_spec v 3) as [->|?]; [split; [by exists SETTLED|lia]|].
  split; [lia|done].
Qed.

(** What the client's period read returns once both contract calls have. *)
Lemma sync_get_current_period_eq x pid x1 t x2 :
  currentPeriodId web3 x = (Ok pid, x1) ->
  getPeriod web3 pid x1 = (Ok t, x2) ->
  _sync_get_current_period web3 x =
    match PeriodStatus_of_int (tuple_status t) with
    | Ok s =>
        (Ok {| period_id := pid; status := s;
               result_set := tuple_resultSet t;
               winning_numbers := tuple_winningNumbers t;
               ticket_count := tuple_ticketCount t |}, x2)
    | Raise e => (Raise e, x2)
    end.
Proof.
  intros Hid Hp. unfold _sync_get_current_period, mbind, IO_MBind, IO_bind.
  rewrite Hid, Hp. by destruct (PeriodStatus_of_int _).
Qed.

(** X10: over the production client a cycle decides from what the contract
    returns: the period asked for is the one [currentPeriodId] returned,
    status 1 without a result gives Submit for that period, status 1 with a
    result Skip-AlreadySet, status 0, 2 or 3 Skip-NotReady, and any other
    status value ends the cycle in a [ValueError] before any write. *)
Theorem production_cycle_follows_the_contract self st draw x1 pid x2 t x3 :
  _client self = LotteryClient web3 ->
  fetch_latest (_datasource self) (ext st) = (Ok draw, x1) ->
  py_eq_str (_last_issue_id st) (issue_id draw) = false ->
  currentPeriodId web3 x1 = (Ok pid, x2) ->
  getPeriod web3 pid x2 = (Ok t, x3) ->
  (tuple_status t = 1 -> tuple_resultSet t = false ->
     cycle_decision self st = Some (Submit pid (sorted (numbers draw))))
  /\ (tuple_status t = 1 -> tuple_resultSet t = true ->
     cycle_decision self st = Some Skip_AlreadySet)
  /\ (tuple_status t = 0 \/ tuple_status t = 2 \/ tuple_status t = 3 ->
     cycle_decision self st = Some Skip_NotReady)
  /\ (~ 0 <= tuple_status t <= 3 ->
     _attempt_submission self st =
       (Raise (ValueError "not a valid PeriodStatus"),
        untouched st x3 [Called_fetch_latest; Called_get_current_period])
     /\ cycle_decision self st = None).
Proof.
  intros Hclient Hf Hdup Hid Hp.
  pose proof (sync_get_current_period_eq x1 pid x2 t x3 Hid Hp) as Hget.
  assert (Hget' : get_current_period (_client self) x1
                  = _sync_get_current_period web3 x1) by by rewrite Hclient.
  rewrite <- Hget' in Hget. clear Hget'.
  split; [|split; [|split]].
  - intros Hst Hres. rewrite Hst in Hget. cbn in Hget.
    destruct (cycle_events_submit self st draw x1 _ x3 Hf Hdup Hget)
      as (tail & Hev & _); [done | done |].
    unfold cycle_decision. by rewrite Hev.
  - intros Hst Hres. rewrite Hst in Hget. cbn in Hget.
    unfold cycle_decision.
    by erewrite cycle_events_untouched
      by (by eapply cycle_already_set).
  - intros Hst.
    assert (exists s, PeriodStatus_of_int (tuple_status t) = Ok s /\ s <> CLOSED)
      as (s & Hs & Hne).
    { destruct Hst as [->|[->| ->]]; eexists; (split; [reflexivity|done]). }
    rewrite Hs in Hget. unfold cycle_decision.
    by erewrite cycle_events_untouched by (by eapply cycle_not_ready).
  - intros Hst.
    rewrite (proj2 (PeriodStatus_of_int_range _) Hst) in Hget.
    pose proof (cycle_read_fails self st draw x1 _ x3 Hf Hdup Hget) as Hrun.
    split; [done|]. unfold cycle_decision.
    by rewrite (cycle_events_untouched _ _ _ _ _ Hrun).
Qed.

(** The receipt is never waited for: [confirmations] is no parameter of
    [wait_for_transaction_receipt], so the call is refused. *)
Lemma wait_for_receipt_is_refused {A} (callee : IO Ext A) x :
  call_with_keywords wait_for_transaction_receipt_parameters
    ["timeout"; "poll_latency"; "confirmations"]%string callee x
  = (Raise TypeError, x).
Proof.
  unfold call_with_keywords.
  assert (Hrefused :
    forallb (fun k => bool_decide (k ∈ wait_for_transaction_receipt_parameters))
      ["timeout"; "poll_latency"; "confirmations"]%string = false)
    by (vm_compute; reflexivity).
  by rewrite Hrefused.
Qed.

(** [_sync_submit_result] sends, and raises. *)
Lemma sync_submit_result_eq period nums x :
  _sync_submit_result web3 period nums x =
    match send_raw_transaction web3 period nums x with
    | (Ok tx_hash, x') => (Raise TypeError, x')
    | (Raise e, x') => (Raise e, x')
    end.
Proof.
  unfold _sync_submit_result, mbind, IO_MBind, IO_bind.
  destruct (send_raw_transaction _ _ _ _) as [[tx|e] x']; [|done].
  by rewrite wait_for_receipt_is_refused.
Qed.

(** What [submit_result] does with six numbers. *)
Lemma LotteryClient_submit_six period nums x :
  length nums = 6%nat ->
  LotteryClient_submit_result web3 period nums x =
    match send_raw_transaction web3 period (sorted nums) x with
    | (Ok tx_hash, x') => (Raise TypeError, x')
    | (Raise e, x') => (Raise e, x')
    end.
Proof.
  intros Hlen. unfold LotteryClient_submit_result. rewrite sorted_length, Hlen.
  cbn [Nat.eqb negb]. apply sync_submit_result_eq.
Qed.

(** [submit_result] never returns a transaction hash. *)
Lemma LotteryClient_submit_never_returns period nums x tx x' :
  LotteryClient_submit_result web3 period nums x <> (Ok tx, x').
Proof.
  unfold LotteryClient_submit_result.
  destruct (negb _); [done|]. rewrite sync_submit_result_eq.
  by destruct (send_raw_transaction _ _ _ _) as [[tx'|e] x''].
Qed.

(** X11: on a Submit decision over the production client with six numbers,
    the transaction that is signed and sent carries the snapshot's period
    and the numbers in ascending order, the ones the scheduler logged (the
    client's second sort changes nothing). The wait for the receipt is then
    refused with [TypeError], [confirmations] being no parameter of
    web3.py's [wait_for_transaction_receipt]: the cycle raises after the
    broadcast, in the world the send left, with [_last_issue_id] and the
    disk as they were. *)
Theorem production_submit_sends_the_logged_numbers self st draw x1 snap x2
    tx x3 :
  _client self = LotteryClient web3 ->
  fetch_latest (_datasource self) (ext st) = (Ok draw, x1) ->
  py_eq_str (_last_issue_id st) (issue_id draw) = false ->
  get_current_period (_client self) x1 = (Ok snap, x2) ->
  status snap = CLOSED -> result_set snap = false ->
  length (numbers draw) = 6%nat ->
  send_raw_transaction web3 (period_id snap) (sorted (numbers draw)) x2
    = (Ok tx, x3) ->
  cycle_decision self st
    = Some (Submit (period_id snap) (sorted (numbers draw)))
  /\ Sorted Z.le (sorted (numbers draw))
  /\ sorted (numbers draw) ≡ₚ numbers draw
  /\ _attempt_submission self st
     = (Raise TypeError, untouched st x3 (submit_events draw snap)).
Proof.
  intros Hclient Hf Hdup Hg Hs Hr Hlen Hsend.
  assert (Hsub : submit_result (_client self) (period_id snap)
                   (sorted (numbers draw)) x2 = (Raise TypeError, x3)).
  { rewrite Hclient. cbn [submit_result LotteryClient].
    rewrite LotteryClient_submit_six by by rewrite sorted_length.
    by rewrite sorted_idempotent, Hsend. }
  destruct (cycle_events_submit self st draw x1 snap x2) as (tail & Hev & _);
    [done..|].
  split; [unfold cycle_decision; by rewrite Hev|].
  split; [apply sorted_Sorted|]. split; [apply sorted_Permutation|].
  rewrite (cycle_submit self st draw x1 snap x2 Hf Hdup Hg Hs Hr).
  unfold sorted_numbers. by rewrite Hsub.
Qed.

(** X12: over the production client no submission is ever recorded.
    [submit_result] never returns a transaction hash (it raises before the
    send, in the send, or [TypeError] after it), so no cycle returns a
    [SchedulerResult] and every cycle leaves [_last_issue_id] and the disk
    as they were; after a broadcast, a following cycle that sees the same
    result and the same snapshot decides Submit again. *)
Theorem production_client_never_records_a_submission self st :
  _client self = LotteryClient web3 ->
  let st1 := (_attempt_submission self st).2 in
  (forall period nums x tx x',
     submit_result (_client self) period nums x <> (Ok tx, x'))
  /\ (forall res, (_attempt_submission self st).1 <> Ok (Some res))
  /\ _last_issue_id st1 = _last_issue_id st
  /\ disk st1 = disk st
  /\ (forall draw x1 snap x2 tx x3 x4 x5,
       fetch_latest (_datasource self) (ext st) = (Ok draw, x1) ->
       py_eq_str (_last_issue_id st) (issue_id draw) = false ->
       get_current_period (_client self) x1 = (Ok snap, x2) ->
       status snap = CLOSED -> result_set snap = false ->
       length (numbers draw) = 6%nat ->
       send_raw_transaction web3 (period_id snap) (sorted (numbers draw)) x2
         = (Ok tx, x3) ->
       fetch_latest (_datasource self) x3 = (Ok draw, x4) ->
       get_current_period (_client self) x4 = (Ok snap, x5) ->
       ext st1 = x3
       /\ cycle_decision self st1
          = Some (Submit (period_id snap) (sorted (numbers draw)))).
Proof.
  intros Hclient st1.
  assert (Hnever : forall period nums x tx x',
    submit_result (_client self) period nums x <> (Ok tx, x')).
  { intros period nums x tx x'. rewrite Hclient.
    apply LotteryClient_submit_never_returns. }
  assert (Hkept : (forall res, (_attempt_submission self st).1 <> Ok (Some res))
                  /\ _last_issue_id st1 = _last_issue_id st
                  /\ disk st1 = disk st).
  { subst st1.
    destruct (cycle_total self st)
      as [(e & x1 & Hf)
         |(draw & x1 & Hf & [Hdup|[Hdup [(e & x2 & Hg)|(snap & x2 & Hg & Hcase)]]])].
    - by rewrite (cycle_fetch_fails self st e x1 Hf).
    - by rewrite (cycle_duplicate self st draw x1 Hf Hdup).
    - by rewrite (cycle_read_fails self st draw x1 e x2 Hf Hdup Hg).
    - destruct Hcase as [Hs|[[Hs Hr]|[Hs Hr]]].
      + by rewrite (cycle_not_ready self st draw x1 snap x2 Hf Hdup Hg Hs).
      + by rewrite (cycle_already_set self st draw x1 snap x2 Hf Hdup Hg Hs Hr).
      + rewrite (cycle_submit self st draw x1 snap x2 Hf Hdup Hg Hs Hr).
        destruct (submit_result _ _ _ _) as [[tx|e] x3] eqn:Hsub; [|done].
        by apply Hnever in Hsub. }
  split; [done|]. destruct Hkept as (Hres & Hlast & Hdisk).
  split; [done|]. split; [done|]. split; [done|].
  intros draw x1 snap x2 tx x3 x4 x5 Hf Hdup Hg Hs Hr Hlen Hsend Hf' Hg'.
  assert (Hsub : submit_result (_client self) (period_id snap)
                   (sorted (numbers draw)) x2 = (Raise TypeError, x3)).
  { rewrite Hclient. cbn [submit_result LotteryClient].
    rewrite LotteryClient_submit_six by by rewrite sorted_length.
    by rewrite sorted_idempotent, Hsend. }
  assert (Hrun : _attempt_submission self st =
    (Raise TypeError, untouched st x3 (submit_events draw snap))).
  { rewrite (cycle_submit self st draw x1 snap x2 Hf Hdup Hg Hs Hr).
    unfold sorted_numbers. by rewrite Hsub. }
  subst st1. rewrite Hrun. cbn [snd]. split; [done|].
  destruct (cycle_events_submit self (untouched st x3 (submit_events draw snap))
              draw x4 snap x5) as (tail & Hev & _); try done.
  unfold cycle_decision. by rewrite Hev.
Qed.

End production_client.

(** ** The HTTP data source *)

Section http_feed.
Context {Ext : Type}.
Implicit Types (self : OracleScheduler Ext) (st : State Ext) (x : Ext)
  (cfg : HttpJsonDataSourceConfig) (lib : Library Ext).

Lemma collect_numbers_Ok items nums :
  collect_numbers items = Ok nums
  <-> Forall2 (fun v n => as_int v = Some n) items nums.
Proof.
  revert nums. induction items as [|v items IH]; intros nums; cbn.
  - split; [by intros [= <-]; constructor | by intros ->%Forall2_nil_inv_l].
  - destruct (as_int v) as [n|] eqn:Hv.
    + destruct (collect_numbers items) as [ns|e].
      * split.
        -- intros [= <-]. constructor; [done|]. by apply IH.
        -- intros (n' & ns' & Hn & Hrest & ->)%Forall2_cons_inv_l.
           apply IH in Hrest as [= <-]. congruence.
      * split; [done|].
        intros (n' & ns' & Hn & Hrest & ->)%Forall2_cons_inv_l.
        by apply IH in Hrest.
    + split; [done|].
      intros (n' & ns' & Hn & Hrest & ->)%Forall2_cons_inv_l. congruence.
Qed.

Lemma collect_numbers_only_ValueError items e :
  collect_numbers items = Raise e -> exists msg, e = ValueError msg.
Proof.
  induction items as [|v items IH]; cbn; [done|].
  destruct (as_int v); [|intros [= <-]; eauto].
  destruct (collect_numbers items); [done|]. intros [= <-]. by apply IH.
Qed.

(** A [str] or the keys of a dict never pass: their first element is a
    [str]. *)
Lemma collect_numbers_of_strings (ss : list pystr) :
  collect_numbers (map VStr ss) = Ok [] \/
  exists e, collect_numbers (map VStr ss) = Raise e.
Proof. destruct ss; [by left|right]. cbn. eauto. Qed.

(** What [_parse_numbers] accepts and what it raises. *)
Lemma parse_numbers_spec_aux (raw : value) :
  (forall nums,
     _parse_numbers raw = Ok nums
     <-> exists items,
           raw = VList items /\ items <> []
           /\ Forall2 (fun v n => as_int v = Some n) items nums)
  /\ (forall e, _parse_numbers raw = Raise e -> exists msg, e = ValueError msg).
Proof.
  assert (Hcases : forall items r,
    match collect_numbers items with
    | Raise e => Raise e
    | Ok numbers =>
        if (length numbers =? 0)%nat
        then Raise (ValueError "numbers field empty") else Ok numbers
    end = r ->
    (forall nums, r = Ok nums <->
       items <> [] /\ Forall2 (fun v n => as_int v = Some n) items nums)
    /\ (forall e, r = Raise e -> exists msg, e = ValueError msg)).
  { intros items r <-.
    destruct (collect_numbers items) as [ns|e] eqn:Hc.
    - apply collect_numbers_Ok in Hc. destruct ns as [|n ns]; cbn.
      + apply Forall2_nil_inv_r in Hc as ->. split.
        * intros nums. split; [done|]. by intros [? _].
        * intros e [= <-]. eauto.
      + split; [|done]. intros nums. split.
        * intros [= <-]. split; [|done]. by intros ->; inversion Hc.
        * intros [_ Hall]. apply collect_numbers_Ok in Hall, Hc. congruence.
    - split.
      + intros nums. split; [done|]. intros [_ Hall%collect_numbers_Ok].
        congruence.
      + intros e' [= <-]. by eapply collect_numbers_only_ValueError. }
  assert (Hstrings : forall ss : list pystr,
    (forall nums,
       match collect_numbers (map VStr ss) with
       | Raise e => Raise e
       | Ok numbers =>
           if (length numbers =? 0)%nat
           then Raise (ValueError "numbers field empty") else Ok numbers
       end <> Ok nums)).
  { intros ss nums. destruct (collect_numbers_of_strings ss) as [->|[e ->]];
      by cbn. }
  unfold _parse_numbers.
  destruct raw as [|b|z|lexeme|s|items|pairs]; cbn [iterate].
  - split; [|intros e [= <-]; eauto].
    intros nums. split; [done|]. by intros (items & ? & _).
  - split; [|intros e [= <-]; eauto].
    intros nums. split; [done|]. by intros (items & ? & _).
  - split; [|intros e [= <-]; eauto].
    intros nums. split; [done|]. by intros (items & ? & _).
  - split; [|intros e [= <-]; eauto].
    intros nums. split; [done|]. by intros (items & ? & _).
  - rewrite <- (map_map (fun c => [c]) VStr).
    destruct (Hcases (map VStr (map (fun c => [c]) s)) _ eq_refl) as [_ Herr].
    split; [|done]. intros nums. split; [|by intros (items & ? & _)].
    intros Hok. by apply Hstrings in Hok.
  - destruct (Hcases items _ eq_refl) as [Hok Herr]. split; [|done].
    intros nums. rewrite Hok. split.
    + intros [? ?]. by exists items.
    + by intros (items' & [= <-] & ? & ?).
  - destruct (Hcases (map VStr (dict_keys pairs [])) _ eq_refl) as [_ Herr].
    split; [|done]. intros nums. split; [|by intros (items & ? & _)].
    intros Hok. by apply Hstrings in Hok.
Qed.

(** X13: [_parse_numbers] accepts exactly the non-empty JSON arrays whose
    items are all integers (a [bool] counting as the integer it is), and
    returns them in their order; everything else, a [str] or an object
    included, is a [ValueError] and nothing but a [ValueError]. *)
Theorem parse_numbers_accepts_nonempty_integer_arrays (raw : value) :
  (forall nums,
     _parse_numbers raw = Ok nums
     <-> exists items,
           raw = VList items /\ items <> []
           /\ Forall2 (fun v n => as_int v = Some n) items nums)
  /\ (forall e, _parse_numbers raw = Raise e -> exists msg, e = ValueError msg).
Proof. apply parse_numbers_spec_aux. Qed.

Lemma parse_payload_nonempty_aux cfg lib x
    (payload : list (pystr * value)) (draw : DrawData) :
  _parse_payload cfg lib x payload = Ok draw -> numbers draw <> [].
Proof.
  unfold _parse_payload. intros Hok.
  destruct (dict_item payload (issue_key cfg)) as [issue|]; [|done].
  destruct (dict_item payload (numbers_key cfg)) as [raw|]; [|done].
  destruct (_parse_numbers raw) as [nums|e] eqn:Hn; [|done].
  destruct (_parse_date _ _ _) as [date|e]; [|done].
  injection Hok as <-. cbn [numbers].
  unfold _parse_numbers in Hn. destruct (iterate raw); [|done].
  destruct (collect_numbers l) as [ns|]; [|done].
  destruct ns; [done|]. cbn in Hn. by injection Hn as <-.
Qed.

(** The call of the chain writer in a cycle's events is the one of
    [submit_events]. *)
Lemma submitted_chain_write_aux self st draw x1 snap x2 p n :
  fetch_latest (_datasource self) (ext st) = (Ok draw, x1) ->
  py_eq_str (_last_issue_id st) (issue_id draw) = false ->
  get_current_period (_client self) x1 = (Ok snap, x2) ->
  status snap = CLOSED -> result_set snap = false ->
  Called_submit_result p n ∈ cycle_events self st ->
  n = sorted (numbers draw).
Proof.
  intros Hf Hdup Hg Hs Hr Hin.
  destruct (cycle_events_submit self st draw x1 snap x2)
    as (tail & Hev & Htail); [done..|].
  rewrite Hev in Hin. apply elem_of_app in Hin as [Hin|Hin].
  - unfold submit_events in Hin.
    repeat (apply elem_of_cons in Hin as [Hin|Hin]; [by inversion Hin|]).
    by apply elem_of_nil in Hin.
  - destruct Htail as [->|[tx ->]]; [by apply elem_of_nil in Hin|].
    apply elem_of_cons in Hin as [Hin|Hin]; [by inversion Hin|].
    by apply elem_of_nil in Hin.
Qed.

(** X14: a payload [_parse_payload] accepts has the issue field and a
    non-empty array of integers under the numbers field; the draw carries
    [str] of the former (the string itself when it is a string) and the
    numbers in the payload's order. *)
Theorem parse_payload_returns_what_the_payload_holds cfg lib x
    (payload : list (pystr * value)) (draw : DrawData) :
  _parse_payload cfg lib x payload = Ok draw ->
  exists issue items,
    dict_item payload (issue_key cfg) = Some issue
    /\ issue_id draw = py_str lib issue
    /\ (forall s, issue = VStr s -> issue_id draw = s)
    /\ dict_item payload (numbers_key cfg) = Some (VList items)
    /\ Forall2 (fun v n => as_int v = Some n) items (numbers draw)
    /\ numbers draw <> [].
Proof.
  unfold _parse_payload. intros Hok.
  destruct (dict_item payload (issue_key cfg)) as [issue|]; [|done].
  destruct (dict_item payload (numbers_key cfg)) as [raw|]; [|done].
  destruct (_parse_numbers raw) as [nums|e] eqn:Hn; [|done].
  destruct (_parse_date _ _ _) as [date|e]; [|done].
  injection Hok as <-. cbn [issue_id numbers].
  apply (proj1 (parse_numbers_spec_aux raw)) in Hn
    as (items & -> & Hne & Hall).
  exists issue, items. repeat split; try done.
  - by intros s ->.
  - intros ->. apply Forall2_nil_inv_r in Hall. done.
Qed.

(** Where a chain write of a cycle comes from: the numbers are [sorted] of
    the numbers of the draw the feed returned in that cycle. *)
Lemma cycle_chain_write_origin self st p n :
  Called_submit_result p n ∈ cycle_events self st ->
  exists draw x1,
    fetch_latest (_datasource self) (ext st) = (Ok draw, x1)
    /\ n = sorted (numbers draw).
Proof.
  intros Hin.
  assert (Hnot : forall r x evs,
    _attempt_submission self st = (r, untouched st x evs) ->
    Forall (fun e => is_chain_write e = false) evs -> False).
  { intros r x evs Hrun Hall.
    rewrite (cycle_events_untouched _ _ _ _ _ Hrun) in Hin.
    rewrite Forall_forall in Hall. by specialize (Hall _ Hin). }
  destruct (cycle_total self st)
    as [(e & x1 & Hf)
       |(draw & x1 & Hf & [Hdup|[Hdup [(e & x2 & Hg)|(snap & x2 & Hg & Hcase)]]])].
  - exfalso. eapply Hnot; [by apply cycle_fetch_fails|by repeat constructor].
  - exfalso. eapply Hnot; [by apply cycle_duplicate|by repeat constructor].
  - exfalso. eapply Hnot; [by eapply cycle_read_fails|by repeat constructor].
  - destruct Hcase as [Hs|[[Hs Hr]|[Hs Hr]]].
    + exfalso. eapply Hnot; [by eapply cycle_not_ready|by repeat constructor].
    + exfalso. eapply Hnot; [by eapply cycle_already_set|by repeat constructor].
    + exists draw, x1. split; [done|].
      destruct (submitted_chain_write_aux self st draw x1 snap x2 p n);
        done.
Qed.

(** X16: with the HTTP data source, a response that is not a JSON object or
    whose payload is refused ends the cycle in the feed's error right
    after the fetch: no chain call is made and [_last_issue_id] and the
    disk are untouched; and no cycle ever hands the chain writer an empty
    sequence of numbers. *)
Theorem http_feed_errors_stop_before_the_chain cfg lib self st data x' :
  _datasource self = HttpJsonDataSource cfg lib ->
  requests_get_json lib (url cfg) (timeout_seconds cfg) (ext st)
    = (Ok data, x') ->
  (forall e,
     match data with
     | VDict payload => _parse_payload cfg lib x' payload = Raise e
     | _ => e = ValueError "HTTP API returned non-object payload"
     end ->
     _attempt_submission self st
     = (Raise e, untouched st x' [Called_fetch_latest]))
  /\ (forall p n, Called_submit_result p n ∈ cycle_events self st -> n <> []).
Proof.
  intros Hds Hget. split.
  - intros e He. apply cycle_fetch_fails. rewrite Hds.
    cbn [fetch_latest HttpJsonDataSource].
    unfold HttpJsonDataSource_fetch_latest, _get_json. rewrite Hget.
    destruct data; subst; try done. by rewrite He.
  - intros p n (draw & x1 & Hf & ->)%cycle_chain_write_origin Hempty.
    rewrite Hds in Hf. cbn [fetch_latest HttpJsonDataSource] in Hf.
    unfold HttpJsonDataSource_fetch_latest, _get_json in Hf.
    rewrite Hget in Hf. destruct data; try done.
    destruct (_parse_payload cfg lib x' pairs) as [d|e] eqn:Hp; [|done].
    injection Hf as -> _.
    apply parse_payload_nonempty_aux in Hp.
    apply (f_equal length) in Hempty. rewrite sorted_length in Hempty.
    by destruct (numbers draw).
Qed.

End http_feed.

Section service.
Context {Ext : Type}.
Implicit Types (self : OracleScheduler Ext) (st : State Ext) (x : Ext).

(** A cycle that returns a result made the chain write the result names. *)
Lemma cycle_result_origin self st r :
  (_attempt_submission self st).1 = Ok (Some r) ->
  exists nums,
    Called_submit_result (result_period_id r) nums ∈ cycle_events self st.
Proof.
  intros Hres.
  destruct (cycle_total self st)
    as [(e & x1 & Hf)
       |(draw & x1 & Hf & [Hdup|[Hdup [(e & x2 & Hg)|(snap & x2 & Hg & Hcase)]]])].
  - by rewrite (cycle_fetch_fails self st e x1 Hf) in Hres.
  - by rewrite (cycle_duplicate self st draw x1 Hf Hdup) in Hres.
  - by rewrite (cycle_read_fails self st draw x1 e x2 Hf Hdup Hg) in Hres.
  - destruct Hcase as [Hs|[[Hs Hr]|[Hs Hr]]].
    + by rewrite (cycle_not_ready self st draw x1 snap x2 Hf Hdup Hg Hs) in Hres.
    + by rewrite (cycle_already_set self st draw x1 snap x2 Hf Hdup Hg Hs Hr)
        in Hres.
    + destruct (cycle_events_submit self st draw x1 snap x2)
        as (tail & Hev & _); [done..|].
      rewrite (cycle_submit self st draw x1 snap x2 Hf Hdup Hg Hs Hr) in Hres.
      destruct (submit_result _ _ _ _) as [[tx|e] x3]; [|done].
      destruct (save_last_issue _ _ _) as [[[]|e] d]; [|done].
      injection Hres as <-. cbn [result_period_id].
      exists (sorted_numbers draw). rewrite Hev.
      apply elem_of_app. left. unfold submit_events. by repeat constructor.
Qed.

Lemma init_state settings (datasource : ResultDataSource Ext)
    (client : LotteryClientProtocol Ext) d x self st :
  __init__ settings datasource client d x = Ok (self, st) ->
  trace st = [] /\ disk st = d /\ ext st = x
  /\ _settings self = settings /\ _datasource self = datasource
  /\ _client self = client
  /\ load_last_issue {| _path := state_file settings |} d
     = Ok (_last_issue_id st).
Proof.
  unfold __init__. destruct (load_last_issue _ d) as [last|e]; [|done].
  by intros [= <- <-].
Qed.

(** X17: started with [--once] or with [submit_only_once] set, the service
    runs [run_once] and never [run_forever]: whatever number of loop cycles
    is allowed it ends, has fetched at most once, has closed the feed as
    often as it fetched, and has not slept; and when it returns a
    transaction hash, the chain writer was called for the period it logs
    with that hash. *)
Theorem service_once_mode_runs_a_single_cycle (once : bool) settings
    ds_settings (lib : Library Ext)
    (new_client : IO Ext (LotteryClientProtocol Ext)) (cycles : nat) d x :
  once || submit_only_once settings = true ->
  let r := run once settings ds_settings lib new_client cycles d x in
  outcome r <> Run_looping
  /\ r = run once settings ds_settings lib new_client 0 d x
  /\ (count is_fetch (events r) <= 1)%nat
  /\ count is_close (events r) = count is_fetch (events r)
  /\ count is_sleep (events r) = 0%nat
  /\ (forall tx, outcome r = Run_returned (Some tx) ->
        exists period nums,
          Called_submit_result period nums ∈ events r
          /\ submitted_records r = [(period, tx)]).
Proof.
  intros Hmode. cbn zeta. unfold run. rewrite Hmode.
  destruct (build_datasource ds_settings) as [cfg|e];
    [|repeat split; try done; cbn; lia].
  destruct (new_client x) as [[client|e] x1];
    [|repeat split; try done; cbn; lia].
  destruct (__init__ _ _ _ _ _) as [[self st]|e] eqn:Hinit;
    [|repeat split; try done; cbn; lia].
  apply init_state in Hinit as (Htr0 & _).
  destruct (run_once_always_closes_the_feed_aux self st)
    as (Hev & Hclose & Hfetch & Hsleep & Hres).
  unfold run_once_events in *. rewrite Htr0 in *. cbn [length] in *.
  rewrite drop_0 in *.
  destruct (run_once self st) as [[[res|]|e] st'] eqn:Hrun;
    cbn [outcome events submitted_records snd fst] in *;
    rewrite Hclose, Hfetch, Hsleep; repeat split; try done; try lia.
  intros tx [= <-].
  destruct (close _ _).1; [|done]. symmetry in Hres.
  apply cycle_result_origin in Hres as (nums & Hin).
  exists (result_period_id res), nums. split; [|done].
  rewrite Hev. apply elem_of_app. by left.
Qed.

(** X18: started without [--once] and without [submit_only_once], the service
    never returns: it raises while it is being set up, or it is in the
    loop for as long as one looks. *)
Theorem service_loop_mode_never_returns settings ds_settings
    (lib : Library Ext) (new_client : IO Ext (LotteryClientProtocol Ext))
    (cycles : nat) d x :
  submit_only_once settings = false ->
  let r := run false settings ds_settings lib new_client cycles d x in
  (forall tx, outcome r <> Run_returned tx)
  /\ (outcome r = Run_looping \/
      exists e, outcome r = Run_raised e /\ events r = []).
Proof.
  intros Hflag. cbn zeta. unfold run. rewrite Hflag. cbn [orb].
  destruct (build_datasource ds_settings) as [cfg|e]; [|by eauto].
  destruct (new_client x) as [[client|e] x1]; [|by eauto].
  destruct (__init__ _ _ _ _ _) as [[self st]|e] eqn:Hinit; [|by eauto].
  apply init_state in Hinit as (_ & _ & _ & Hset & _).
  pose proof (run_forever_never_returns_aux self st cycles) as Hloop.
  rewrite Hset in Hloop. specialize (Hloop Hflag).
  destruct (run_forever cycles self st) as [[] st']; [done|]. by auto.
Qed.

(** X19: de-duplication needs a stored string. A scheduler constructed where
    no state file exists starts with no [_last_issue_id]; and whenever
    [_last_issue_id] is not a string (none, or a state file whose
    [last_issue_id] is a number, say), no cycle is Skip-Duplicate: every
    cycle whose fetch succeeds goes on to read the period from the chain. *)
Theorem deduplication_needs_a_stored_string settings
    (datasource : ResultDataSource Ext) (client : LotteryClientProtocol Ext)
    d x self st :
  __init__ settings datasource client d x = Ok (self, st) ->
  (files d !! state_file settings = None -> _last_issue_id st = VNone)
  /\ ((forall s, _last_issue_id st <> VStr s) ->
      cycle_decision self st <> Some Skip_Duplicate
      /\ forall draw x1,
           fetch_latest datasource x = (Ok draw, x1) ->
           Called_get_current_period ∈ cycle_events self st).
Proof.
  intros Hinit.
  destruct (init_state _ _ _ _ _ _ _ Hinit)
    as (_ & _ & Hext & _ & Hds & _ & Hload).
  split.
  - intros Hnone. revert Hload. unfold load_last_issue, exists_.
    cbn [_path]. rewrite Hnone.
    rewrite bool_decide_false by (by intros [? ?]). cbn [negb]. congruence.
  - intros Hnostr.
    assert (Hdup : forall issue, py_eq_str (_last_issue_id st) issue = false).
    { intros issue. destruct (_last_issue_id st) eqn:Hl; try done.
      by destruct (Hnostr s). }
    rewrite <- Hext, <- Hds.
    destruct (cycle_total self st)
      as [(e & x1 & Hf)
         |(draw & x1 & Hf & [Hd|[_ [(e & x2 & Hg)|(snap & x2 & Hg & Hcase)]]])].
    + pose proof (cycle_fetch_fails self st e x1 Hf) as Hrun.
      unfold cycle_decision.
      rewrite (cycle_events_untouched _ _ _ _ _ Hrun).
      split; [done|]. intros draw x1' Hf'. congruence.
    + by rewrite Hdup in Hd.
    + pose proof (cycle_read_fails self st draw x1 e x2 Hf (Hdup _) Hg) as Hrun.
      unfold cycle_decision.
      rewrite (cycle_events_untouched _ _ _ _ _ Hrun).
      split; [done|]. intros _ _ _. by repeat constructor.
    + destruct Hcase as [Hs|[[Hs Hr]|[Hs Hr]]].
      * pose proof (cycle_not_ready self st draw x1 snap x2 Hf (Hdup _) Hg Hs)
          as Hrun.
        unfold cycle_decision.
        rewrite (cycle_events_untouched _ _ _ _ _ Hrun).
        split; [done|]. intros _ _ _. by repeat constructor.
      * pose proof (cycle_already_set self st draw x1 snap x2 Hf (Hdup _) Hg
                      Hs Hr) as Hrun.
        unfold cycle_decision.
        rewrite (cycle_events_untouched _ _ _ _ _ Hrun).
        split; [done|]. intros _ _ _. by repeat constructor.
      * destruct (cycle_events_submit self st draw x1 snap x2)
          as (tail & Hev & _); [done..|].
        unfold cycle_decision. rewrite Hev.
        split; [done|]. intros _ _ _. apply elem_of_app. left.
        unfold submit_events. by repeat constructor.
Qed.

End service.

Section more_scenarios.

Lemma run_forever_never_returns_without_the_flag_witness :
  submit_only_once (_settings looping_scheduler) = false
  /\ (run_forever 5 looping_scheduler fresh_state).1 = Looping.
Proof.
  split; [reflexivity|].
  exact (run_forever_never_returns_without_the_flag
           looping_scheduler fresh_state 5 eq_refl).
Defined.

(** The state file is locked: the save fails, and still the next cycle
    skips the issue. *)
Lemma no_resubmission_within_a_process_witness :
  let self := scheduler_on feed_2025_002 (FakeClient closed_snapshot tx_0xabc) in
  let st1 := (_attempt_submission self fresh_state_locked).2 in
  (_attempt_submission self fresh_state_locked).1 = Raise OSError
  /\ cycle_decision self st1 = Some Skip_Duplicate
  /\ count is_chain_write (cycle_events self st1) = 0%nat.
Proof.
  split; [vm_compute; reflexivity|].
  apply (no_resubmission_within_a_process
           (scheduler_on feed_2025_002 (FakeClient closed_snapshot tx_0xabc))
           fresh_state_locked draw_2025_002 world_after_fetch closed_snapshot
           world_after_fetch tx_0xabc world_after_write draw_2025_002
           {| calls := 2; closed := false;
              submissions := [(2, [8; 9; 10; 11; 12; 13])] |});
    reflexivity.
Defined.

Lemma restart_remembers_the_submission_witness :
  let self := scheduler_on feed_2025_002 (FakeClient closed_snapshot tx_0xabc) in
  let d := (save_last_issue (_state self) (py "2025-002") empty_disk).2 in
  save_last_issue (_state self) (py "2025-002") empty_disk = (Ok (), d)
  /\ disk (_attempt_submission self fresh_state).2 = d
  /\ exists self' st',
       __init__ test_settings feed_2025_002
         (FakeClient selling_snapshot tx_0xabc) d fresh_world
       = Ok (self', st')
       /\ _last_issue_id st' = VStr (py "2025-002").
Proof.
  assert (Hsave :
    save_last_issue {| _path := "state.json" |} (py "2025-002") empty_disk
    = (Ok (),
       (save_last_issue {| _path := "state.json" |} (py "2025-002")
          empty_disk).2)) by (vm_compute; reflexivity).
  split; [exact Hsave|].
  destruct (restart_remembers_the_submission
              (scheduler_on feed_2025_002 (FakeClient closed_snapshot tx_0xabc))
              fresh_state draw_2025_002 world_after_fetch closed_snapshot
              world_after_fetch tx_0xabc world_after_write _
              test_settings feed_2025_002
              (FakeClient selling_snapshot tx_0xabc) fresh_world
              eq_refl eq_refl eq_refl eq_refl eq_refl eq_refl Hsave)
    as (Hdisk & self' & st' & Hinit & Hlast & _);
    [repeat constructor | reflexivity | reflexivity |].
  split; [exact Hdisk|]. by exists self', st'.
Defined.

Lemma load_after_save_joins_surrogates_witness :
  let store := {| _path := "state.json" |} in
  let d' := (save_last_issue store [0xd83d; 0xde00]%N empty_disk).2 in
  load_last_issue store d' = Ok (VStr [0x1f600]%N).
Proof.
  refine (proj1 (load_after_save_joins_surrogates
                   {| _path := "state.json" |} {| _path := "state.json" |}
                   [0xd83d; 0xde00]%N empty_disk _ _ eq_refl _)).
  - repeat constructor.
  - vm_compute. reflexivity.
Defined.


Lemma production_cycle_follows_the_contract_witness :
  cycle_decision (scheduler_on feed_2025_002 (LotteryClient TestWeb3)) fresh_state
  = Some (Submit 2 [8; 9; 10; 11; 12; 13]).
Proof.
  apply (production_cycle_follows_the_contract TestWeb3
           (scheduler_on feed_2025_002 (LotteryClient TestWeb3)) fresh_state
           draw_2025_002 world_after_fetch 2 world_after_fetch
           {| tuple_status := 1; tuple_resultSet := false;
              tuple_winningNumbers := [0; 0; 0; 0; 0; 0];
              tuple_ticketCount := 40 |} world_after_fetch);
    reflexivity.
Defined.

Lemma production_submit_sends_the_logged_numbers_witness :
  let self := scheduler_on feed_2025_002 (LotteryClient TestWeb3) in
  (_attempt_submission self fresh_state).1 = Raise TypeError
  /\ submissions (ext (_attempt_submission self fresh_state).2)
     = [(2, [8; 9; 10; 11; 12; 13])]
  /\ _last_issue_id (_attempt_submission self fresh_state).2 = VNone.
Proof.
  destruct (production_submit_sends_the_logged_numbers TestWeb3
              (scheduler_on feed_2025_002 (LotteryClient TestWeb3)) fresh_state
              draw_2025_002 world_after_fetch closed_snapshot world_after_fetch
              tx_0xabc world_after_write)
    as (_ & _ & _ & Hrun); try reflexivity.
  cbn zeta. rewrite Hrun. repeat split; reflexivity.
Defined.

(** The chain mines the transaction and gives a receipt with status 1; the
    client raises all the same, and the next cycle submits again. *)
Lemma production_client_never_records_a_submission_witness :
  let self := scheduler_on feed_2025_002 (LotteryClient TestWeb3) in
  let st1 := (_attempt_submission self fresh_state).2 in
  _last_issue_id st1 = VNone
  /\ disk st1 = empty_disk
  /\ ext st1 = world_after_write
  /\ cycle_decision self st1 = Some (Submit 2 [8; 9; 10; 11; 12; 13]).
Proof.
  destruct (production_client_never_records_a_submission TestWeb3
              (scheduler_on feed_2025_002 (LotteryClient TestWeb3))
              fresh_state eq_refl)
    as (_ & _ & Hlast & Hdisk & Hretry).
  cbn zeta. split; [exact Hlast|]. split; [exact Hdisk|].
  apply (Hretry draw_2025_002 world_after_fetch closed_snapshot
           world_after_fetch tx_0xabc world_after_write
           {| calls := 2; closed := false;
              submissions := [(2, [8; 9; 10; 11; 12; 13])] |}
           {| calls := 2; closed := false;
              submissions := [(2, [8; 9; 10; 11; 12; 13])] |});
    reflexivity.
Defined.

(** [True] counts as 1; a [float] is refused. *)
Lemma parse_numbers_accepts_nonempty_integer_arrays_witness :
  _parse_numbers (VList [VInt 7; VBool true]) = Ok [7; 1]
  /\ exists msg, _parse_numbers (VList [VInt 7; VFloat (py "1.0")])
                 = Raise (ValueError msg).
Proof.
  split.
  - apply (proj1 (parse_numbers_accepts_nonempty_integer_arrays
                    (VList [VInt 7; VBool true]))).
    exists [VInt 7; VBool true]. split; [reflexivity|]. split; [discriminate|].
    repeat constructor.
  - destruct (proj2 (parse_numbers_accepts_nonempty_integer_arrays
                       (VList [VInt 7; VFloat (py "1.0")]))
                _ eq_refl) as [msg Hmsg].
    exists msg. by rewrite <- Hmsg.
Defined.

Lemma parse_payload_returns_what_the_payload_holds_witness :
  exists draw,
    _parse_payload test_config (test_library VNone) fresh_world payload_2025_002
    = Ok draw
    /\ issue_id draw = py "2025-002"
    /\ numbers draw <> [].
Proof.
  eexists. split; [reflexivity|].
  destruct (parse_payload_returns_what_the_payload_holds
              test_config (test_library VNone) fresh_world payload_2025_002
              _ eq_refl)
    as (issue & items & Hissue & _ & Hstr & _ & _ & Hne).
  split; [|exact Hne]. apply Hstr. by injection Hissue as <-.
Defined.

(** The endpoint answers with a JSON array. *)
Lemma http_feed_errors_stop_before_the_chain_witness :
  let self := scheduler_on (HttpJsonDataSource test_config
                              (test_library (VList [])))
                (FakeClient closed_snapshot tx_0xabc) in
  _attempt_submission self fresh_state
  = (Raise (ValueError "HTTP API returned non-object payload"),
     untouched fresh_state world_after_fetch [Called_fetch_latest]).
Proof.
  apply (proj1 (http_feed_errors_stop_before_the_chain
                  test_config (test_library (VList []))
                  (scheduler_on (HttpJsonDataSource test_config
                                   (test_library (VList [])))
                     (FakeClient closed_snapshot tx_0xabc))
                  fresh_state (VList []) world_after_fetch
                  eq_refl eq_refl)).
  reflexivity.
Defined.

Lemma service_once_mode_runs_a_single_cycle_witness :
  let r := run false test_settings test_ds_settings
             (test_library (VDict payload_2025_002)) connect_fake 7
             empty_disk fresh_world in
  outcome r = Run_returned (Some tx_0xabc)
  /\ submitted_records r = [(2, tx_0xabc)]
  /\ count is_fetch (events r) = 1%nat
  /\ count is_close (events r) = 1%nat.
Proof.
  destruct (service_once_mode_runs_a_single_cycle false test_settings
              test_ds_settings (test_library (VDict payload_2025_002))
              connect_fake 7 empty_disk fresh_world eq_refl)
    as (_ & _ & _ & Hclose & _ & Hrec).
  assert (Hout : outcome (run false test_settings test_ds_settings
             (test_library (VDict payload_2025_002)) connect_fake 7
             empty_disk fresh_world) = Run_returned (Some tx_0xabc))
    by (vm_compute; reflexivity).
  destruct (Hrec _ Hout) as (period & nums & _ & Hsub).
  split; [exact Hout|]. split; [|split].
  - vm_compute. reflexivity.
  - vm_compute. reflexivity.
  - rewrite Hclose. vm_compute. reflexivity.
Defined.

Lemma service_loop_mode_never_returns_witness :
  outcome (run false loop_settings test_ds_settings
             (test_library (VDict payload_2025_002)) connect_fake 4
             empty_disk fresh_world) = Run_looping.
Proof.
  destruct (service_loop_mode_never_returns loop_settings test_ds_settings
              (test_library (VDict payload_2025_002)) connect_fake 4
              empty_disk fresh_world eq_refl) as [_ [Hloop|(e & He & _)]].
  - exact Hloop.
  - vm_compute in He. discriminate.
Defined.

Lemma deduplication_needs_a_stored_string_witness :
  let self := scheduler_on feed_2025_002 (FakeClient closed_snapshot tx_0xabc) in
  __init__ test_settings feed_2025_002 (FakeClient closed_snapshot tx_0xabc)
    empty_disk fresh_world = Ok (self, fresh_state)
  /\ _last_issue_id fresh_state = VNone
  /\ cycle_decision self fresh_state <> Some Skip_Duplicate.
Proof.
  assert (Hinit :
    __init__ test_settings feed_2025_002 (FakeClient closed_snapshot tx_0xabc)
      empty_disk fresh_world
    = Ok (scheduler_on feed_2025_002 (FakeClient closed_snapshot tx_0xabc),
          fresh_state)) by reflexivity.
  destruct (deduplication_needs_a_stored_string _ _ _ _ _ _ _ Hinit)
    as [Hnone Hnodup].
  split; [exact Hinit|]. split; [apply Hnone; reflexivity|].
  apply Hnodup. intros s. discriminate.
Defined.

(** The write of the record of issue 2025-002 fails after ten bytes: the
    record of issue 2025-001 that the file held is lost, and what is left
    loads as [None]. *)
Lemma truncated_state_file_loads_as_None_witness :
  let store := {| _path := "state.json" |} in
  let d' := (save_last_issue store (py "2025-002") failing_disk).2 in
  load_last_issue store failing_disk = Ok (VStr (py "2025-001"))
  /\ (save_last_issue store (py "2025-002") failing_disk).1 = Raise OSError
  /\ files d' !! "state.json" = Some fragment_2025_002
  /\ load_last_issue store d' = Ok VNone.
Proof.
  assert (Hwf : wf_str (py "2025-002")) by repeat constructor.
  cbn zeta. split; [vm_compute; reflexivity|].
  split; [vm_compute; reflexivity|]. split; [vm_compute; reflexivity|].
  apply (proj1 (truncated_state_file_loads_as_None
                  {| _path := "state.json" |} (py "2025-002") Hwf) _ 10%nat).
  - vm_compute. lia.
  - vm_compute. reflexivity.
Defined.

End more_scenarios.
